(** * mkdocs-plugin-tags: a shallow embedding of [tags/plugin.py]

    The plugin scans the markdown pages of an MkDocs site, reads the YAML
    front matter of each page, groups the pages by tag and renders one
    generated page that lists every tag with its pages.

    Conventions of the embedding.
    - A Python [str] is a [string] of ASCII characters; white space and
      case mapping are Python's on ASCII.
    - A text file is the list of lines its iterator yields, each with its
      line terminator.
    - A value loaded from YAML is a [pyval]: [None], a boolean, an integer,
      a string, a sequence or a mapping.  Floats, timestamps and tagged
      Python objects are not represented.
    - A page dictionary is a [gmap string pyval]: the plugin looks up
      string keys only.
    - The dictionaries of [self.metadata] are shared between the list and
      the buckets of the tag indices, and [generate_tags_file] writes to
      them.  They live in the plugin state, and a reference to one is its
      index in [self.metadata].
    - An exception is an outcome; a computation that raises keeps the
      world it had reached.
    - PyYAML, Jinja2, pathlib's [/] and the source tree are parameters.
      Making a folder and writing a file are recorded and always
      succeed. *)

From Stdlib Require Import ZArith Ascii String List Sorted Permutation Lia Bool.
From stdpp Require Import base option list gmap strings sorting.

Local Open Scope string_scope.
Local Open Scope nat_scope.
Local Open Scope list_scope.

(** ** Python strings *)

Module PyStr.

(** [str.isspace] on one character: TAB..CR, FS..US and SPACE. *)
Definition is_space (c : ascii) : bool :=
  let n := nat_of_ascii c in
  ((9 <=? n) && (n <=? 13)) || ((28 <=? n) && (n <=? 32)).

Definition is_upper (c : ascii) : bool :=
  let n := nat_of_ascii c in (65 <=? n) && (n <=? 90).

Definition is_lower (c : ascii) : bool :=
  let n := nat_of_ascii c in (97 <=? n) && (n <=? 122).

Definition lower_char (c : ascii) : ascii :=
  if is_upper c then ascii_of_nat (nat_of_ascii c + 32) else c.

Definition upper_char (c : ascii) : ascii :=
  if is_lower c then ascii_of_nat (nat_of_ascii c - 32) else c.

Fixpoint map_chars (f : ascii -> ascii) (s : string) : string :=
  match s with
  | EmptyString => EmptyString
  | String c s' => String (f c) (map_chars f s')
  end.

(** [s.lower()] *)
Definition lower (s : string) : string := map_chars lower_char s.

(** [s.capitalize()]: first character upper-cased, the rest lower-cased. *)
Definition capitalize (s : string) : string :=
  match s with
  | EmptyString => EmptyString
  | String c s' => String (upper_char c) (lower s')
  end.

(** [s.replace(a, b)] for one-character [a] and [b]. *)
Definition replace_char (a b : ascii) (s : string) : string :=
  map_chars (fun c => if Ascii.eqb c a then b else c) s.

Fixpoint mem_char (c : ascii) (chars : string) : bool :=
  match chars with
  | EmptyString => false
  | String d chars' => Ascii.eqb c d || mem_char c chars'
  end.

(** Drop the longest prefix whose characters satisfy [p]. *)
Fixpoint drop_while (p : ascii -> bool) (s : string) : string :=
  match s with
  | EmptyString => EmptyString
  | String c s' => if p c then drop_while p s' else s
  end.

(** Drop the longest suffix whose characters satisfy [p]. *)
Fixpoint drop_while_end (p : ascii -> bool) (s : string) : string :=
  match s with
  | EmptyString => EmptyString
  | String c s' =>
      match drop_while_end p s' with
      | EmptyString => if p c then EmptyString else String c EmptyString
      | r => String c r
      end
  end.

(** [s.strip()] *)
Definition strip (s : string) : string :=
  drop_while_end is_space (drop_while is_space s).

(** [s.lstrip(chars)] *)
Definition lstrip_chars (chars s : string) : string :=
  drop_while (fun c => mem_char c chars) s.

(** [s.startswith(p)] *)
Definition startswith (p s : string) : bool := String.prefix p s.

(** [s.endswith(p)] *)
Definition endswith (p s : string) : bool :=
  let n := String.length s in
  let k := String.length p in
  (k <=? n) && String.eqb (String.substring (n - k) k s) p.

(** Truth value of a string: non-empty. *)
Definition truthy (s : string) : bool :=
  match s with EmptyString => false | _ => true end.

(** The one-character strings of [s], as iteration over a [str] yields. *)
Fixpoint chars (s : string) : list string :=
  match s with
  | EmptyString => []
  | String c s' => String c EmptyString :: chars s'
  end.

End PyStr.

(** Line feed, the terminator of the lines a text file yields. *)
Definition LF : string := String (ascii_of_nat 10) EmptyString.

(** ** Python values and exceptions *)

(** The values PyYAML's loader builds from front matter: [None], booleans,
    integers, strings, sequences and mappings (in insertion order). *)
#[warnings="-register-all"]
Inductive pyval : Type :=
  | PNone
  | PBool (b : bool)
  | PInt (n : Z)
  | PStr (s : string)
  | PList (xs : list pyval)
  | PDict (kvs : list (pyval * pyval)).

Inductive exn : Type :=
  | TypeError
  | AttributeError
  | YAMLError
  | OSError
  | TemplateError.

Inductive outcome (A : Type) : Type :=
  | Returned (a : A)
  | Raised (e : exn).
Arguments Returned {A} a.
Arguments Raised {A} e.

Module Py.

(** The integer a [bool] or [int] stands for in comparisons and hashing. *)
Definition as_int (v : pyval) : option Z :=
  match v with
  | PBool b => Some (if b then 1 else 0)%Z
  | PInt n => Some n
  | _ => None
  end.

(** [hash(v)] succeeds: lists and dicts are unhashable. *)
Definition hashable (v : pyval) : bool :=
  match v with
  | PList _ | PDict _ => false
  | _ => true
  end.

(** Equality of two hashable values, as a [dict] compares its keys:
    [True == 1] and [False == 0]. *)
Definition key_eq (a b : pyval) : bool :=
  match a, b with
  | PNone, PNone => true
  | PStr s, PStr t => String.eqb s t
  | (PBool _ | PInt _), (PBool _ | PInt _) =>
      match as_int a, as_int b with
      | Some x, Some y => Z.eqb x y
      | _, _ => false
      end
  | _, _ => false
  end.

Fixpoint dict_find (k : pyval) (kvs : list (pyval * pyval)) : option pyval :=
  match kvs with
  | [] => None
  | (k', v) :: kvs' => if key_eq k k' then Some v else dict_find k kvs'
  end.

(** [a == b] *)
Fixpoint eq (a b : pyval) {struct a} : bool :=
  match a, b with
  | PList xs, PList ys =>
      (fix all2 (xs ys : list pyval) {struct xs} : bool :=
         match xs, ys with
         | [], [] => true
         | x :: xs', y :: ys' => eq x y && all2 xs' ys'
         | _, _ => false
         end) xs ys
  | PDict kvs, PDict kvs' =>
      Nat.eqb (length kvs) (length kvs') &&
      (fix all (kvs : list (pyval * pyval)) {struct kvs} : bool :=
         match kvs with
         | [] => true
         | (k, v) :: rest =>
             match dict_find k kvs' with
             | Some v' => eq v v'
             | None => false
             end && all rest
         end) kvs
  | PList _, _ | _, PList _ | PDict _, _ | _, PDict _ => false
  | _, _ => key_eq a b
  end.

(** [a < b]; [None] when Python raises [TypeError]. *)
Fixpoint lt (a b : pyval) {struct a} : option bool :=
  match a, b with
  | PStr s, PStr t => Some (String.ltb s t)
  | (PBool _ | PInt _), (PBool _ | PInt _) =>
      match as_int a, as_int b with
      | Some x, Some y => Some (Z.ltb x y)
      | _, _ => None
      end
  | PList xs, PList ys =>
      (fix lex (xs ys : list pyval) {struct xs} : option bool :=
         match xs, ys with
         | [], [] => Some false
         | [], _ :: _ => Some true
         | _ :: _, [] => Some false
         | x :: xs', y :: ys' => if eq x y then lex xs' ys' else lt x y
         end) xs ys
  | _, _ => None
  end.

(** The items [for x in v] yields; [TypeError] when [v] is not iterable. *)
Definition iter (v : pyval) : outcome (list pyval) :=
  match v with
  | PList xs => Returned xs
  | PStr s => Returned (map PStr (PyStr.chars s))
  | PDict kvs => Returned (map fst kvs)
  | PNone | PBool _ | PInt _ => Raised TypeError
  end.

(** [len(v)]; [TypeError] when [v] has no length. *)
Definition len (v : pyval) : outcome nat :=
  match v with
  | PList xs => Returned (length xs)
  | PStr s => Returned (String.length s)
  | PDict kvs => Returned (length kvs)
  | PNone | PBool _ | PInt _ => Raised TypeError
  end.

(** [v is not None] *)
Definition is_not_none (v : pyval) : bool :=
  match v with PNone => false | _ => true end.

End Py.

(** ** Front matter extraction: [get_metadata] *)

(** What [yaml.load(text, Loader=yaml.FullLoader)] gives: an exception, a
    top-level mapping (keyed by strings), or any other document (a scalar, a
    sequence, or [None] for a document with no node). *)
Inductive yaml_doc : Type :=
  | YamlFails
  | YamlMapping (m : gmap string pyval)
  | YamlOther (v : pyval).

(** The loop of [extract_yaml]: [c] counts the delimiter lines seen so far,
    [result] holds the captured lines.  Returns the captured lines and the
    candidate title. *)
Fixpoint extract_yaml_loop (f : list string) (c : nat) (result : list string)
  : list string * option string :=
  match f with
  | [] => (result, None)
  | line :: f' =>
      let sline := PyStr.strip line in
      if String.eqb sline "---" then extract_yaml_loop f' (S c) result
      else if (c =? 2) && PyStr.truthy sline then
        (* break, after looking for a heading *)
        (result,
         if PyStr.startswith "# " sline
         then Some (PyStr.lstrip_chars "# " sline) else None)
      else if c =? 1 then extract_yaml_loop f' c (result ++ [line])
      else extract_yaml_loop f' c result
  end.

Definition extract_yaml (f : list string) : string * option string :=
  let '(result, title) := extract_yaml_loop f 0 [] in
  (String.concat "" result, title).

(** [not title] for [title] either [None] or a string. *)
Definition title_missing (title : option string) : bool :=
  match title with
  | None => true
  | Some t => negb (PyStr.truthy t)
  end.

(** The title built from the file name. *)
Definition title_of_name (name : string) : string :=
  let title :=
    PyStr.replace_char "_" " " (PyStr.replace_char "-" " " name) in
  if String.eqb (PyStr.lower title) title then PyStr.capitalize title
  else title.

Section Extractor.

(** The YAML loader, and the text files under a directory: [read_file
    path name] is the lines of [Path(path) / Path(name)], or [None]
    when the file cannot be opened. *)
Variable yaml_load : string -> yaml_doc.
Variable read_file : string -> string -> option (list string).

Definition get_metadata (name path : string)
  : outcome (option (gmap string pyval)) :=
  match read_file path name with
  | None => Raised OSError
  | Some f =>
      let '(metadata, title) := extract_yaml f in
      if PyStr.truthy metadata then
        match yaml_load metadata with
        | YamlFails => Raised YAMLError
        | YamlOther _ => Raised AttributeError   (* no [update] method *)
        | YamlMapping meta =>
            let meta := <["filename" := PStr name]> meta in
            match meta !! "title" with
            | Some _ => Returned (Some meta)
            | None =>
                let title :=
                  if title_missing title then Some (title_of_name name)
                  else title in
                let meta :=
                  <["title" :=
                      PStr (match title with
                            | None => "Untitled"
                            | Some t => t
                            end)]> meta in
                Returned (Some meta)
            end
        end
      else Returned None
  end.

End Extractor.

(** ** The plugin object and its surroundings *)

(** A tag index ([defaultdict(list)]): tags in insertion order, each with
    its bucket of page references.  A reference is the index of the page's
    dictionary in [self.metadata]. *)
Abbreviation tag_index := (list (pyval * list nat)).

(** What the plugin prints. *)
Inductive message : Type :=
  | MsgReading (src_path : string)
      (* 'reading tags from %s' *)
  | MsgSummary (num_pages pages_with_tags total_tags : nat)
      (* 'Tags: Total pages scanned: {0}, pages with tags: {1}, total tags: {2}' *)
  | MsgTags (d : tag_index)
      (* 'Tags: {0}' *)
  | MsgText (s : string).

Definition WARNING : message :=
  MsgText
    "WARNING: meaningless target config (requested to add a target, but not generate it)".

(** [mkdocs.structure.files.File], as far as the plugin reads or builds it. *)
Record File : Type := mkFile {
  src_path : string;
  src_dir : string;
  dest_dir : string;
  use_directory_urls : bool
}.

(** The plugin's validated options ([self.config]), by [config_scheme]. *)
Record plugin_config : Type := mkPluginConfig {
  cfg_verbose : bool;
  cfg_tags_filename : string;
  cfg_tags_folder : string;
  cfg_tags_template : option string;
  cfg_tags_target_folder : string;
  cfg_tags_add_target : bool;
  cfg_tags_create_target : bool
}.

(** The defaults of [config_scheme]. *)
Definition default_config : plugin_config :=
  {| cfg_verbose := false;
     cfg_tags_filename := "tags.md";
     cfg_tags_folder := "generated";
     cfg_tags_template := None;
     cfg_tags_target_folder := ".";
     cfg_tags_add_target := true;
     cfg_tags_create_target := true |}.

(** The keys of MkDocs' own configuration that the plugin reads. *)
Record mkdocs_config : Type := mkMkdocsConfig {
  docs_dir : string;
  site_dir : string
}.

Record TagsPlugin : Type := mkTagsPlugin {
  metadata : list (option (gmap string pyval));
  verbose : bool;
  tags_filename : string;
  tags_folder : string;
  tags_template : option string;
  tags_target_folder : option string;
  tags_add_target : bool;
  tags_create_target : bool;
  tags_dict : tag_index
}.

(** [TagsPlugin.__init__] *)
Definition init : TagsPlugin :=
  {| metadata := [];
     verbose := false;
     tags_filename := "tags.md";
     tags_folder := "generated";
     tags_template := None;
     tags_target_folder := None;
     tags_add_target := true;
     tags_create_target := true;
     tags_dict := [] |}.

(** Everything a hook can change: the plugin object, the host's file
    collection, the standard output, the folders made and the files
    written (path and text, latest last). *)
Record world : Type := mkWorld {
  self : TagsPlugin;
  files : list File;
  stdout : list message;
  made_dirs : list string;
  written : list (string * string)
}.

Definition start (fs : list File) : world :=
  {| self := init; files := fs; stdout := []; made_dirs := []; written := [] |}.

Definition with_self (f : TagsPlugin -> TagsPlugin) (w : world) : world :=
  {| self := f (self w); files := files w; stdout := stdout w;
     made_dirs := made_dirs w; written := written w |}.

Definition with_files (f : list File -> list File) (w : world) : world :=
  {| self := self w; files := f (files w); stdout := stdout w;
     made_dirs := made_dirs w; written := written w |}.

Definition with_stdout (f : list message -> list message) (w : world) : world :=
  {| self := self w; files := files w; stdout := f (stdout w);
     made_dirs := made_dirs w; written := written w |}.

Definition with_made_dirs (f : list string -> list string) (w : world) : world :=
  {| self := self w; files := files w; stdout := stdout w;
     made_dirs := f (made_dirs w); written := written w |}.

Definition with_written
  (f : list (string * string) -> list (string * string)) (w : world) : world :=
  {| self := self w; files := files w; stdout := stdout w;
     made_dirs := made_dirs w; written := f (written w) |}.

Definition set_metadata (v : list (option (gmap string pyval))) (p : TagsPlugin) :=
  {| metadata := v; verbose := verbose p; tags_filename := tags_filename p;
     tags_folder := tags_folder p; tags_template := tags_template p;
     tags_target_folder := tags_target_folder p;
     tags_add_target := tags_add_target p;
     tags_create_target := tags_create_target p; tags_dict := tags_dict p |}.

Definition set_verbose (v : bool) (p : TagsPlugin) :=
  {| metadata := metadata p; verbose := v; tags_filename := tags_filename p;
     tags_folder := tags_folder p; tags_template := tags_template p;
     tags_target_folder := tags_target_folder p;
     tags_add_target := tags_add_target p;
     tags_create_target := tags_create_target p; tags_dict := tags_dict p |}.

Definition set_tags_filename (v : string) (p : TagsPlugin) :=
  {| metadata := metadata p; verbose := verbose p; tags_filename := v;
     tags_folder := tags_folder p; tags_template := tags_template p;
     tags_target_folder := tags_target_folder p;
     tags_add_target := tags_add_target p;
     tags_create_target := tags_create_target p; tags_dict := tags_dict p |}.

Definition set_tags_folder (v : string) (p : TagsPlugin) :=
  {| metadata := metadata p; verbose := verbose p;
     tags_filename := tags_filename p; tags_folder := v;
     tags_template := tags_template p;
     tags_target_folder := tags_target_folder p;
     tags_add_target := tags_add_target p;
     tags_create_target := tags_create_target p; tags_dict := tags_dict p |}.

Definition set_tags_template (v : option string) (p : TagsPlugin) :=
  {| metadata := metadata p; verbose := verbose p;
     tags_filename := tags_filename p; tags_folder := tags_folder p;
     tags_template := v; tags_target_folder := tags_target_folder p;
     tags_add_target := tags_add_target p;
     tags_create_target := tags_create_target p; tags_dict := tags_dict p |}.

Definition set_tags_target_folder (v : option string) (p : TagsPlugin) :=
  {| metadata := metadata p; verbose := verbose p;
     tags_filename := tags_filename p; tags_folder := tags_folder p;
     tags_template := tags_template p; tags_target_folder := v;
     tags_add_target := tags_add_target p;
     tags_create_target := tags_create_target p; tags_dict := tags_dict p |}.

Definition set_tags_add_target (v : bool) (p : TagsPlugin) :=
  {| metadata := metadata p; verbose := verbose p;
     tags_filename := tags_filename p; tags_folder := tags_folder p;
     tags_template := tags_template p;
     tags_target_folder := tags_target_folder p; tags_add_target := v;
     tags_create_target := tags_create_target p; tags_dict := tags_dict p |}.

Definition set_tags_create_target (v : bool) (p : TagsPlugin) :=
  {| metadata := metadata p; verbose := verbose p;
     tags_filename := tags_filename p; tags_folder := tags_folder p;
     tags_template := tags_template p;
     tags_target_folder := tags_target_folder p;
     tags_add_target := tags_add_target p; tags_create_target := v;
     tags_dict := tags_dict p |}.

Definition set_tags_dict (v : tag_index) (p : TagsPlugin) :=
  {| metadata := metadata p; verbose := verbose p;
     tags_filename := tags_filename p; tags_folder := tags_folder p;
     tags_template := tags_template p;
     tags_target_folder := tags_target_folder p;
     tags_add_target := tags_add_target p;
     tags_create_target := tags_create_target p; tags_dict := v |}.

(** ** Computations that change the world and may raise *)

Definition M (A : Type) : Type := world -> world * outcome A.

Definition ret {A} (a : A) : M A := fun w => (w, Returned a).

Definition raise {A} (e : exn) : M A := fun w => (w, Raised e).

Definition bind {A B} (c : M A) (k : A -> M B) : M B :=
  fun w =>
    match c w with
    | (w', Returned a) => k a w'
    | (w', Raised e) => (w', Raised e)
    end.

Notation "x <- c ;; k" := (bind c (fun x => k))
  (at level 100, c at next level, right associativity).
Notation "c ;; k" := (bind c (fun _ => k))
  (at level 100, right associativity).

Definition gets {A} (f : world -> A) : M A := fun w => (w, Returned (f w)).

Definition modify (f : world -> world) : M unit := fun w => (f w, Returned tt).

Definition lift {A} (o : outcome A) : M A := fun w => (w, o).

Definition when (b : bool) (c : M unit) : M unit := if b then c else ret tt.

(** [for x in xs: acc = body acc x], stopping at the first exception. *)
Fixpoint for_each {X A} (xs : list X) (body : A -> X -> M A) (acc : A) : M A :=
  match xs with
  | [] => ret acc
  | x :: xs' => acc' <- body acc x ;; for_each xs' body acc'
  end.

(** ** Sorting: [sorted(xs, key=...)] *)

(** One step of a stable insertion sort on items decorated with their
    keys: [x], which came later than everything in [acc], goes in front of
    the first item whose key is greater than its own.  Only [<] is used, as
    in CPython's [list.sort], and a comparison that raises ends the sort.
    On keys that [<] orders totally every stable sort returns the same
    list, so this is CPython's result there. *)
Fixpoint insert_by_key {X} (x : pyval * X) (acc : list (pyval * X))
  : outcome (list (pyval * X)) :=
  match acc with
  | [] => Returned [x]
  | y :: acc' =>
      match Py.lt (fst x) (fst y) with
      | None => Raised TypeError
      | Some true => Returned (x :: y :: acc')
      | Some false =>
          match insert_by_key x acc' with
          | Returned r => Returned (y :: r)
          | Raised e => Raised e
          end
      end
  end.

Fixpoint sort_decorated {X} (xs acc : list (pyval * X))
  : outcome (list (pyval * X)) :=
  match xs with
  | [] => Returned acc
  | x :: xs' =>
      match insert_by_key x acc with
      | Returned acc' => sort_decorated xs' acc'
      | Raised e => Raised e
      end
  end.

(** The keys of all items, computed before any comparison is made. *)
Fixpoint decorate {X} (key : X -> outcome pyval) (xs : list X)
  : outcome (list (pyval * X)) :=
  match xs with
  | [] => Returned []
  | x :: xs' =>
      match key x with
      | Raised e => Raised e
      | Returned k =>
          match decorate key xs' with
          | Returned r => Returned ((k, x) :: r)
          | Raised e => Raised e
          end
      end
  end.

Definition py_sorted {X} (key : X -> outcome pyval) (xs : list X)
  : outcome (list X) :=
  match decorate key xs with
  | Raised e => Raised e
  | Returned dxs =>
      match sort_decorated dxs [] with
      | Returned r => Returned (map snd r)
      | Raised e => Raised e
      end
  end.

(** ** Tag indices *)

(** [d[tag].append(e)] on a [defaultdict(list)] whose key [tag] hashes. *)
Fixpoint bucket_append (d : tag_index) (tag : pyval) (e : nat) : tag_index :=
  match d with
  | [] => [(tag, [e])]
  | (tag', es) :: d' =>
      if Py.key_eq tag tag' then (tag', es ++ [e]) :: d'
      else (tag', es) :: bucket_append d' tag e
  end.

Definition index_append (d : tag_index) (tag : pyval) (e : nat)
  : outcome tag_index :=
  if Py.hashable tag then Returned (bucket_append d tag e)
  else Raised TypeError.

(** The bucket of [tag]: the pages listed under it, none when the tag is
    not a key. *)
Fixpoint bucket (d : tag_index) (tag : pyval) : list nat :=
  match d with
  | [] => []
  | (tag', es) :: d' => if Py.key_eq tag tag' then es else bucket d' tag
  end.

(** [not e] for an entry of [self.metadata]: [None] or an empty dict. *)
Definition falsy (e : option (gmap string pyval)) : bool :=
  match e with
  | None => true
  | Some m => bool_decide (m = ∅)
  end.

(** [e.get("tags", [])] *)
Definition get_tags (e : gmap string pyval) : pyval :=
  default (PList []) (e !! "tags").

(** The sort key of [generate_tags_file]:
    [e.get("year", 5000) if e else 0]. *)
Definition year_key (e : option (gmap string pyval)) : pyval :=
  if falsy e then PInt 0
  else match e with
       | Some m => default (PInt 5000) (m !! "year")
       | None => PInt 0
       end.

(** The sort key of [generate_tags_page]: [t[0].lower()]. *)
Definition lower_key {B} (t : pyval * B) : outcome pyval :=
  match fst t with
  | PStr s => Returned (PStr (PyStr.lower s))
  | _ => Raised AttributeError
  end.

(** ** The plugin's methods *)

(** [mkdocs.structure.pages.Page], as far as [on_page_markdown] sees it: a
    value of [page.meta] is front matter or, under ['all_tags'], the tag
    index the plugin exposes. *)
Inductive meta_value : Type :=
  | FrontMatter (v : pyval)
  | AllTags (d : tag_index).

Record Page : Type := mkPage {
  page_file : File;
  page_markdown : option string;
  page_meta : gmap string meta_value
}.

(** The (tag, pages) pairs a template is given: each reference replaced by
    the page dictionary behind it. *)
Definition with_pages (ms : list (option (gmap string pyval)))
  (items : tag_index) : list (pyval * list (gmap string pyval)) :=
  map (fun '(tag, es) => (tag, map (fun e => default ∅ (mjoin (ms !! e))) es))
      items.

Section Plugin.

(** The collaborators: PyYAML, the file system ([read_file], and
    [folder_exists] for the folders present before the build), pathlib's
    [/] followed by [str], and Jinja2 ([get_template] finds the built-in
    template for [None] and the configured one otherwise). *)
Variable yaml_load : string -> yaml_doc.
Variable read_file : string -> string -> option (list string).
Variable folder_exists : string -> bool.
Variable path_join : string -> string -> string.
Variable template : Type.
Variable get_template : option string -> outcome template.
Variable render :
  template -> list (pyval * list (gmap string pyval)) -> outcome string.

Definition vprint (msg : message) : M unit :=
  v <- gets (fun w => verbose (self w)) ;;
  when v (modify (with_stdout (fun out => out ++ [msg]))).

Definition nprint (msg : message) : M unit :=
  modify (with_stdout (fun out => out ++ [msg])).

(** [a or b] on strings, [b] possibly [None]; then [Path(...)]. *)
Definition path_or (a : string) (b : option string) : outcome string :=
  if PyStr.truthy a then Returned a
  else match b with
       | Some s => Returned s
       | None => Raised TypeError
       end.

Definition on_config (cfg : plugin_config) (config : mkdocs_config) : M unit :=
  modify (with_self (set_verbose (cfg_verbose cfg))) ;;
  old <- gets (fun w => tags_filename (self w)) ;;
  v <- lift (path_or (cfg_tags_filename cfg) (Some old)) ;;
  modify (with_self (set_tags_filename v)) ;;
  old <- gets (fun w => tags_folder (self w)) ;;
  v <- lift (path_or (cfg_tags_folder cfg) (Some old)) ;;
  modify (with_self (set_tags_folder v)) ;;
  old <- gets (fun w => tags_target_folder (self w)) ;;
  v <- lift (path_or (cfg_tags_target_folder cfg) old) ;;
  modify (with_self (set_tags_target_folder (Some v))) ;;
  modify (with_self (set_tags_add_target (cfg_tags_add_target cfg))) ;;
  modify (with_self (set_tags_create_target (cfg_tags_create_target cfg))) ;;
  folder <- gets (fun w => tags_folder (self w)) ;;
  made <- gets made_dirs ;;
  when (negb (folder_exists folder || bool_decide (folder ∈ made)))
       (modify (with_made_dirs (fun l => l ++ [folder]))) ;;
  match cfg_tags_template cfg with
  | Some t =>
      when (PyStr.truthy t) (modify (with_self (set_tags_template (Some t))))
  | None => ret tt
  end ;;
  add <- gets (fun w => tags_add_target (self w)) ;;
  create <- gets (fun w => tags_create_target (self w)) ;;
  when (add && negb create) (nprint WARNING).

(** The page dictionary behind a reference, as it is now. *)
Definition deref (e : nat) : M (option (gmap string pyval)) :=
  gets (fun w => mjoin (metadata (self w) !! e)).

(** The references of [self.metadata], in order. *)
Definition refs : M (list nat) :=
  gets (fun w => seq 0 (length (metadata (self w)))).

(** [self.tags_dict[tag].append(e)] *)
Definition tags_dict_append (e : nat) (tag : pyval) : M unit :=
  d <- gets (fun w => tags_dict (self w)) ;;
  d' <- lift (index_append d tag e) ;;
  modify (with_self (set_tags_dict d')).

(** The body of the loop of [update_tags_dict], for the entry [e]. *)
Definition update_tags_dict_page (counts : nat * nat) (e : nat)
  : M (nat * nat) :=
  let '(num_pages, pages_with_tags) := counts in
  m <- deref e ;;
  if falsy m then ret (num_pages, pages_with_tags)
  else
    let num_pages := S num_pages in
    let tags := get_tags (default ∅ m) in
    if Py.is_not_none tags then
      n <- lift (Py.len tags) ;;
      if 0 <? n then
        let pages_with_tags := S pages_with_tags in
        ts <- lift (Py.iter tags) ;;
        for_each ts (fun _ tag => tags_dict_append e tag) tt ;;
        ret (num_pages, pages_with_tags)
      else ret (num_pages, pages_with_tags)
    else ret (num_pages, pages_with_tags).

Definition update_tags_dict (config : mkdocs_config) : M unit :=
  modify (with_self (set_tags_dict [])) ;;
  es <- refs ;;
  counts <- for_each es update_tags_dict_page (0, 0) ;;
  d <- gets (fun w => tags_dict (self w)) ;;
  nprint (MsgSummary (fst counts) (snd counts) (length d)) ;;
  v <- gets (fun w => verbose (self w)) ;;
  when (v && (0 <? length d)) (vprint (MsgTags d)).

(** [e["title"] = "Untitled"] on the dictionary behind [e]. *)
Definition set_untitled (e : nat) : M unit :=
  modify (with_self (fun p =>
    set_metadata
      (alter (fmap (insert "title" (PStr "Untitled"))) e (metadata p)) p)).

Definition generate_tags_page (data : tag_index) : M string :=
  t <- gets (fun w => tags_template (self w)) ;;
  templ <- lift (get_template t) ;;
  items <- lift (py_sorted lower_key data) ;;
  ms <- gets (fun w => metadata (self w)) ;;
  lift (render templ (with_pages ms items)).

(** [sorted(self.metadata, key=lambda e: e.get("year", 5000) if e else 0)],
    as references. *)
Definition sorted_meta (ms : list (option (gmap string pyval)))
  : outcome (list nat) :=
  py_sorted (fun e => Returned (year_key (mjoin (ms !! e))))
            (seq 0 (length ms)).

(** The body of the loop of [generate_tags_file], for the entry [e]. *)
Definition tag_dict_page (tag_dict : tag_index) (e : nat) : M tag_index :=
  m <- deref e ;;
  if falsy m then ret tag_dict
  else
    when (bool_decide (default ∅ m !! "title" = None)) (set_untitled e) ;;
    m <- deref e ;;
    let tags := get_tags (default ∅ m) in
    if Py.is_not_none tags then
      ts <- lift (Py.iter tags) ;;
      for_each ts
        (fun tag_dict tag => lift (index_append tag_dict tag e))
        tag_dict
    else ret tag_dict.

Definition generate_tags_file : M unit :=
  ms <- gets (fun w => metadata (self w)) ;;
  sorted_meta <- lift (sorted_meta ms) ;;
  tag_dict <- for_each sorted_meta tag_dict_page [] ;;
  t <- generate_tags_page tag_dict ;;
  folder <- gets (fun w => tags_folder (self w)) ;;
  filename <- gets (fun w => tags_filename (self w)) ;;
  modify (with_written (fun l => l ++ [(path_join folder filename, t)])).

Definition on_files (config : mkdocs_config) : M unit :=
  fs <- gets files ;;
  for_each fs
    (fun _ f =>
       if PyStr.endswith ".md" (src_path f) then
         vprint (MsgReading (src_path f)) ;;
         m <- lift (get_metadata yaml_load read_file
                      (src_path f) (docs_dir config)) ;;
         modify (with_self (fun p => set_metadata (metadata p ++ [m]) p))
       else ret tt)
    tt ;;
  update_tags_dict config ;;
  create <- gets (fun w => tags_create_target (self w)) ;;
  when create
    (generate_tags_file ;;
     add <- gets (fun w => tags_add_target (self w)) ;;
     when add
       (filename <- gets (fun w => tags_filename (self w)) ;;
        folder <- gets (fun w => tags_folder (self w)) ;;
        target <- gets (fun w => tags_target_folder (self w)) ;;
        target <- lift (match target with
                        | Some s => Returned s
                        | None => Raised TypeError
                        end) ;;
        let newfile :=
          {| src_path := filename;
             src_dir := folder;
             dest_dir := path_join (site_dir config) target;
             use_directory_urls := false |} in
        modify (with_files (fun l => l ++ [newfile])))).

(** [on_page_markdown] returns nothing, which leaves the markdown to the
    host as it was; the page comes back with ['all_tags'] set. *)
Definition on_page_markdown
  (p : TagsPlugin) (markdown : string) (page : Page) (config : mkdocs_config)
  (fs : list File) : option string * Page :=
  (None,
   {| page_file := page_file page;
      page_markdown := page_markdown page;
      page_meta := <["all_tags" := AllTags (tags_dict p)]> (page_meta page) |}).

(** One build, as the host drives it: a fresh plugin object, then
    [on_config], then [on_files] over the host's files. *)
Definition build (cfg : plugin_config) (config : mkdocs_config)
  (fs : list File) : world * outcome unit :=
  (on_config cfg config ;; on_files config) (start fs).

End Plugin.

(** * The vocabulary of the properties *)

(** Keys of one kind: [toK] reads a key of that kind and [ltK] is the
    strict order Python's [<] implements on it.  [p] does not sort after
    [q]: *)
Definition key_le {K X} (toK : pyval -> option K) (ltK : K -> K -> bool)
  (p q : pyval * X) : Prop :=
  exists a b, toK p.1 = Some a /\ toK q.1 = Some b /\ ltK b a = false.

Definition keyed {K X} (toK : pyval -> option K) (p : pyval * X) : Prop :=
  is_Some (toK p.1).

Definition has_key {K X} (toK : pyval -> option K) (k : K) (p : pyval * X)
  : Prop :=
  toK p.1 = Some k.

#[global]
Instance has_key_dec {K} `{EqDecision K} {X} (toK : pyval -> option K)
  (k : K) (p : pyval * X) : Decision (has_key toK k p).
Proof. unfold has_key. apply _. Defined.

(** The key of an item under the key function [key], when it is of the
    kind [toK] reads. *)
Definition item_key {K X} (toK : pyval -> option K)
  (key : X -> outcome pyval) (x : X) : option K :=
  match key x with
  | Returned v => toK v
  | Raised _ => None
  end.

Definition item_le {K X} (toK : pyval -> option K) (ltK : K -> K -> bool)
  (key : X -> outcome pyval) (x y : X) : Prop :=
  exists a b,
    item_key toK key x = Some a /\ item_key toK key y = Some b /\
    ltK b a = false.

Definition as_str (v : pyval) : option string :=
  match v with
  | PStr s => Some s
  | _ => None
  end.

(** The name of a tag that is a string, and its comparison key. *)
Definition tag_name {B} (t : pyval * B) : string := default "" (as_str t.1).

Definition lower_name {B} (t : pyval * B) : string := PyStr.lower (tag_name t).

(** The class of a hashable value under [dict] key equality. *)
Inductive key_class : Type :=
  | KNone
  | KInt (n : Z)
  | KStr (s : string).

Definition class_of (v : pyval) : option key_class :=
  match v with
  | PNone => Some KNone
  | PBool b => Some (KInt (if b then 1 else 0))
  | PInt n => Some (KInt n)
  | PStr s => Some (KStr s)
  | PList _ | PDict _ => None
  end.

(** How often the tag [T] occurs in a list of tags. *)
Definition count_key (T : pyval) (ts : list pyval) : nat :=
  length (filter (fun t => Py.key_eq T t = true) ts).

(** The tags a page is listed under: the items of its [tags] value, none
    for a placeholder, an absent key or [None]. *)
Definition indexed_tags (o : option (gmap string pyval)) : list pyval :=
  if falsy o then []
  else match Py.iter (get_tags (default ∅ o)) with
       | Returned ts => ts
       | Raised _ => []
       end.

(** The bucket of [T] after the pages [es] have been indexed in turn. *)
Definition expected_bucket (ms : list (option (gmap string pyval)))
  (T : pyval) (es : list nat) : list nat :=
  flat_map (fun e => replicate (count_key T (indexed_tags (mjoin (ms !! e)))) e) es.

(** The value under [tags] of an entry of [self.metadata], if any. *)
Definition tags_field (o : option (gmap string pyval)) : option pyval :=
  o ≫= (fun m => m !! "tags").

(** Two states of [self.metadata] whose pages have the same [tags]. *)
Definition same_tags (ms ms' : list (option (gmap string pyval))) : Prop :=
  length ms' = length ms /\
  forall e, tags_field (mjoin (ms' !! e)) = tags_field (mjoin (ms !! e)).

(** An entry the index builders go through without raising: a
    placeholder, or a page whose [tags] is absent, [None] or a list of
    hashable values. *)
Definition tags_ok (o : option (gmap string pyval)) : Prop :=
  match tags_field o with
  | None | Some PNone => True
  | Some (PList ts) => Forall (fun t => Py.hashable t = true) ts
  | Some _ => False
  end.

(** The year a page is sorted by, when it is an integer: 0 for a
    placeholder, 5000 for a page without [year]. *)
Definition year_of (o : option (gmap string pyval)) : option Z :=
  Py.as_int (year_key o).

Definition year_le (ms : list (option (gmap string pyval))) (i j : nat) : Prop :=
  exists a b,
    year_of (mjoin (ms !! i)) = Some a /\
    year_of (mjoin (ms !! j)) = Some b /\ (a <= b)%Z.

(** [i] comes before [j] in [l]. *)
Definition before {A} (l : list A) (i j : A) : Prop :=
  exists l1 l2 l3, l = l1 ++ i :: l2 ++ j :: l3.

(** A page with a [tags] value that yields at least one item. *)
Definition tagged (ms : list (option (gmap string pyval))) (e : nat) : Prop :=
  exists m v ts,
    ms !! e = Some (Some m) /\ m !! "tags" = Some v /\
    Py.iter v = Returned ts /\ ts <> [].

(** The index [generate_tags_file] builds and hands to the renderer, when
    the sort and the loop return: it is built over the world [w] into [d]. *)
Definition generated_index (w : world) (d : tag_index) : Prop :=
  exists l w',
    sorted_meta (metadata (self w)) = Returned l /\
    for_each l tag_dict_page [] w = (w', Returned d).

(** A line that strips to exactly [---]. *)
Definition is_delimiter (line : string) : bool :=
  String.eqb (PyStr.strip line) "---".

(** The number of delimiter lines of a file. *)
Definition delimiter_count (f : list string) : nat :=
  length (filter (fun line => is_delimiter line = true) f).

(** What [replace] does to one character of the file name. *)
Definition dash_to_space (c : ascii) : ascii :=
  if (Ascii.eqb c "-" || Ascii.eqb c "_")%bool then " "%char else c.

(** [c] keeps [P]: from a world where [P] holds it ends, returning or
    raising, in a world where [P] holds. *)
Definition keeps {A} (P : world -> Prop) (c : M A) : Prop :=
  forall w, P w -> P (c w).1.

(** Nothing generated and nothing registered, generation being off. *)
Definition untouched (fs : list File) (wr : list (string * string))
  (w : world) : Prop :=
  files w = fs /\ written w = wr /\ tags_create_target (self w) = false.

(** [c] neither reads nor writes the record of folders made. *)
Definition oblivious {A} (c : M A) : Prop :=
  forall g w, c (with_made_dirs g w) = (with_made_dirs g (c w).1, (c w).2).

(** ** The vocabulary of the further properties *)

(** A line that strips to nothing. *)
Definition is_blank (line : string) : bool :=
  negb (PyStr.truthy (PyStr.strip line)).

(** The heading a line gives when it is the first one with text after
    the front matter. *)
Definition heading_of (line : string) : option string :=
  let sline := PyStr.strip line in
  if PyStr.startswith "# " sline
  then Some (PyStr.lstrip_chars "# " sline) else None.

(** [a or b] on strings. *)
Definition or_else (a b : string) : string :=
  if PyStr.truthy a then a else b.

(** The plugin object with the options of [cfg] assigned, [target] being
    the target folder: an empty string option leaves the attribute as it
    was, and so does an absent or empty template. *)
Definition configured (cfg : plugin_config) (target : string)
  (p : TagsPlugin) : TagsPlugin :=
  {| metadata := metadata p;
     verbose := cfg_verbose cfg;
     tags_filename := or_else (cfg_tags_filename cfg) (tags_filename p);
     tags_folder := or_else (cfg_tags_folder cfg) (tags_folder p);
     tags_template :=
       match cfg_tags_template cfg with
       | Some t => if PyStr.truthy t then Some t else tags_template p
       | None => tags_template p
       end;
     tags_target_folder := Some target;
     tags_add_target := cfg_tags_add_target cfg;
     tags_create_target := cfg_tags_create_target cfg;
     tags_dict := tags_dict p |}.

(** A tag index as a [dict] holds it: the keys are hashable, no two of
    them are equal as keys, and no bucket is empty. *)
Definition well_formed (d : tag_index) : Prop :=
  NoDup (map (fun t => class_of t.1) d) /\
  Forall (fun t => Py.hashable t.1 = true /\ t.2 <> []) d.

(** An entry the index builders go through without raising: a
    placeholder, or a page whose [tags] is absent, is [None], or can be
    iterated and yields hashable items only. *)
Definition indexable (o : option (gmap string pyval)) : bool :=
  match tags_field o with
  | None | Some PNone => true
  | Some v =>
      match Py.iter v with
      | Returned ts => forallb Py.hashable ts
      | Raised _ => false
      end
  end.

(** What one entry adds to [num_pages] and to [pages_with_tags]. *)
Definition is_page (o : option (gmap string pyval)) : Prop := falsy o = false.

Definition has_tags (o : option (gmap string pyval)) : Prop :=
  0 < length (indexed_tags o).

(** An entry once [generate_tags_file] has gone past it: a page without
    [title] has the title [Untitled]. *)
Definition entitled (o : option (gmap string pyval))
  : option (gmap string pyval) :=
  if falsy o then o
  else (fun m => if bool_decide (m !! "title" = None)
                 then <["title" := PStr "Untitled"]> m else m) <$> o.

(** The store once the entries [es] have been gone past. *)
Definition entitled_at (es : list nat)
  (ms : list (option (gmap string pyval)))
  : list (option (gmap string pyval)) :=
  fold_left (fun ms e => alter entitled e ms) es ms.

(** The kinds of values [<] compares: numbers with numbers, strings with
    strings, sequences with sequences, and nothing else. *)
Inductive sort_kind : Type :=
  | KindNumber
  | KindString
  | KindSequence
  | KindOther.

Definition kind_of (v : pyval) : sort_kind :=
  match v with
  | PBool _ | PInt _ => KindNumber
  | PStr _ => KindString
  | PList _ => KindSequence
  | PNone | PDict _ => KindOther
  end.

(** A file [on_files] reads: its path ends in [.md]. *)
Definition is_markdown (f : File) : Prop :=
  PyStr.endswith ".md" (src_path f) = true.

(** * Inputs for the examples *)

(** PyYAML on the front matter block the examples use. *)
Definition example_yaml (text : string) : yaml_doc :=
  if String.eqb text ("tags: [x]" ++ LF)%string
  then YamlMapping {[ "tags" := PList [PStr "x"] ]}
  else YamlFails.

(** A source tree: a page with front matter and no title, a page whose
    front matter is never closed, and a page without front matter. *)
Definition example_tree (path name : string) : option (list string) :=
  if String.eqb name "foo-bar.md" then
    Some ["---" ++ LF; "tags: [x]" ++ LF; "---" ++ LF; "content"]%string
  else if String.eqb name "draft.md" then
    Some ["---" ++ LF; "tags: [x]" ++ LF]%string
  else if String.eqb name "plain.md" then
    Some ["just text" ++ LF]%string
  else None.

(** The same tree with one more file that is not markdown. *)
Definition example_tree' (path name : string) : option (list string) :=
  if String.eqb name "notes.txt" then Some ["notes" ++ LF]%string
  else example_tree path name.

(** A template that lists the tags with the titles of their pages. *)
Definition example_render (t : unit)
  (items : list (pyval * list (gmap string pyval))) : outcome string :=
  Returned
    (String.concat ";"
       (map (fun item =>
               (tag_name item ++ ":" ++
                String.concat ","
                  (map (fun m => default "" (m !! "title" ≫= as_str)) item.2))%string)
            items)).

Definition example_join (a b : string) : string := (a ++ "/" ++ b)%string.

Definition page_a : gmap string pyval :=
  list_to_map
    [("filename", PStr "a.md"); ("title", PStr "A");
     ("tags", PList [PStr "a"; PStr "B"; PStr "a"]); ("year", PInt 6000)].

Definition page_b : gmap string pyval :=
  list_to_map
    [("filename", PStr "b.md"); ("title", PStr "B"); ("tags", PList [PStr "B"])].

Definition page_c : gmap string pyval :=
  list_to_map [("filename", PStr "c.md"); ("title", PStr "C")].

Definition page_d : gmap string pyval :=
  list_to_map [("filename", PStr "d.md"); ("title", PStr "D"); ("tags", PNone)].

Definition page_e : gmap string pyval :=
  list_to_map
    [("filename", PStr "e.md"); ("title", PStr "E"); ("tags", PList []);
     ("year", PInt 1999)].

(** A plugin that has scanned five pages and one file without front
    matter. *)
Definition example_world : world :=
  with_self
    (set_metadata
       [Some page_a; None; Some page_b; Some page_c; Some page_d; Some page_e])
    (start []).

Definition example_config : mkdocs_config :=
  {| docs_dir := "docs"; site_dir := "site" |}.

(** Generation off, registration on. *)
Definition example_skip : plugin_config :=
  {| cfg_verbose := false;
     cfg_tags_filename := "tags.md";
     cfg_tags_folder := "generated";
     cfg_tags_template := None;
     cfg_tags_target_folder := ".";
     cfg_tags_add_target := true;
     cfg_tags_create_target := false |}.

Definition example_files : list File :=
  [ {| src_path := "foo-bar.md"; src_dir := "docs"; dest_dir := "site";
       use_directory_urls := true |};
    {| src_path := "notes.txt"; src_dir := "docs"; dest_dir := "site";
       use_directory_urls := true |};
    {| src_path := "plain.md"; src_dir := "docs"; dest_dir := "site";
       use_directory_urls := true |} ].

(** ** Inputs for the further properties *)

(** A file with text before its front matter and a heading after it. *)
Definition example_page : list string :=
  ["intro" ++ LF; "---" ++ LF; "tags: [a, B]" ++ LF; " --- " ++ LF;
   LF; "# My Page" ++ LF; "text"]%string.

(** Options that leave the file name and the template as they are. *)
Definition example_partial : plugin_config :=
  {| cfg_verbose := true;
     cfg_tags_filename := "";
     cfg_tags_folder := "out";
     cfg_tags_template := Some "";
     cfg_tags_target_folder := "topics";
     cfg_tags_add_target := true;
     cfg_tags_create_target := true |}.

(** Options with an empty target folder. *)
Definition example_no_target : plugin_config :=
  {| cfg_verbose := true;
     cfg_tags_filename := "index.md";
     cfg_tags_folder := "";
     cfg_tags_template := None;
     cfg_tags_target_folder := "";
     cfg_tags_add_target := true;
     cfg_tags_create_target := true |}.

(** A page whose [tags] is a plain string, a page without [title], and a
    page whose [year] is a string. *)
Definition page_s : gmap string pyval :=
  list_to_map
    [("filename", PStr "s.md"); ("title", PStr "S"); ("tags", PStr "aba")].

Definition page_u : gmap string pyval :=
  list_to_map [("filename", PStr "u.md"); ("tags", PList [PStr "x"])].

Definition page_y : gmap string pyval :=
  list_to_map
    [("filename", PStr "y.md"); ("title", PStr "Y"); ("year", PStr "2019")].

(** A plugin with the entries [ms] in its store. *)
Definition world_of (ms : list (option (gmap string pyval))) : world :=
  with_self (set_metadata ms) (start []).

(** The world [on_files] starts from in a build of the example files
    with the default options. *)
Definition example_configured : world :=
  (on_config (fun _ => false) default_config example_config
     (start example_files)).1.

(** A collection with a markdown file that is not in the source tree. *)
Definition example_missing : list File :=
  [ {| src_path := "missing.md"; src_dir := "docs"; dest_dir := "site";
       use_directory_urls := true |} ].

(** * Properties *)

(** ** Lists *)

Lemma filter_none {A} (P : A -> Prop) `{!forall x, Decision (P x)} (l : list A) :
  Forall (fun x => ~ P x) l -> filter P l = [].
Proof.
  induction 1 as [|x l Hx _ IH]; [done|].
  by rewrite filter_cons_False.
Qed.

(** ** Sorting *)

Section SortFacts.

(** Keys of one kind: [toK] reads a key of that kind, and on two such
    keys Python's [<] is the strict order [ltK]. *)
Context {K : Type} `{EqDecision K}.
Variable toK : pyval -> option K.
Variable ltK : K -> K -> bool.
Hypothesis lt_toK : forall a b ka kb,
  toK a = Some ka -> toK b = Some kb -> Py.lt a b = Some (ltK ka kb).
Hypothesis ltK_asym : forall a b, ltK a b = true -> ltK b a = false.
Hypothesis leK_trans : forall a b c,
  ltK b a = false -> ltK c b = false -> ltK c a = false.

Context {X : Type}.

Lemma ltK_irrefl a : ltK a a = false.
Proof.
  destruct (ltK a a) eqn:E; [|done]. by rewrite (ltK_asym _ _ E) in E.
Qed.

Lemma key_le_trans (p q r : pyval * X) :
  key_le toK ltK p q -> key_le toK ltK q r -> key_le toK ltK p r.
Proof.
  intros (a & b & Ha & Hb & Hab) (b' & c & Hb' & Hc & Hbc).
  rewrite Hb in Hb'. injection Hb' as <-.
  exists a, c. eauto.
Qed.

Lemma insert_by_key_spec (x : pyval * X) acc :
  keyed toK x -> Forall (keyed toK) acc ->
  StronglySorted (key_le toK ltK) acc ->
  exists r,
    insert_by_key x acc = Returned r /\
    r ≡ₚ x :: acc /\
    StronglySorted (key_le toK ltK) r /\
    forall k, filter (has_key toK k) r
              = filter (has_key toK k) acc ++ filter (has_key toK k) [x].
Proof.
  intros [kx Hx]. induction acc as [|y acc IH]; intros Hk Hs.
  - exists [x]. split_and!; [done|done|repeat constructor|done].
  - apply Forall_cons in Hk as [[ky Hy] Hk].
    apply StronglySorted_inv in Hs as [Hs Hy_le].
    simpl. rewrite (lt_toK _ _ _ _ Hx Hy).
    destruct (ltK kx ky) eqn:Hlt.
    + exists (x :: y :: acc).
      assert (Hxy : key_le toK ltK x y).
      { exists kx, ky. eauto. }
      assert (Hall : Forall (key_le toK ltK x) (y :: acc)).
      { constructor; [done|]. eapply Forall_impl; [exact Hy_le|].
        intros z Hz. by eapply key_le_trans. }
      split_and!; [done|done|by constructor; [constructor|]|].
      intros k.
      destruct (decide (has_key toK k x)) as [Hkx|Hkx];
        [|by rewrite !(filter_cons_False _ x), filter_nil, app_nil_r].
      rewrite !(filter_cons_True _ x), filter_nil by done.
      unfold has_key in Hkx. rewrite Hx in Hkx. injection Hkx as <-.
      assert (Hnone : filter (has_key toK kx) (y :: acc) = []).
      { apply filter_none. constructor.
        - unfold has_key. rewrite Hy. intros [= ->].
          by rewrite ltK_irrefl in Hlt.
        - eapply Forall_impl; [exact Hy_le|].
          intros z (a & b & Ha & Hb & Hab) Hz. unfold has_key in Hz.
          rewrite Hy in Ha. injection Ha as <-.
          rewrite Hz in Hb. injection Hb as <-.
          by rewrite Hlt in Hab. }
      by rewrite Hnone.
    + destruct (IH Hk Hs) as (r & -> & Hp & Hsr & Hf).
      exists (y :: r). split_and!.
      * done.
      * by rewrite Hp, Permutation_swap.
      * constructor; [done|]. rewrite Hp. constructor; [|done].
        exists ky, kx. eauto.
      * intros k. rewrite !(filter_cons _ y), Hf.
        by destruct (decide (has_key toK k y)).
Qed.

Lemma sort_decorated_spec (xs acc : list (pyval * X)) :
  Forall (keyed toK) xs -> Forall (keyed toK) acc ->
  StronglySorted (key_le toK ltK) acc ->
  exists r,
    sort_decorated xs acc = Returned r /\
    r ≡ₚ acc ++ xs /\
    StronglySorted (key_le toK ltK) r /\
    forall k, filter (has_key toK k) r
              = filter (has_key toK k) acc ++ filter (has_key toK k) xs.
Proof.
  revert acc. induction xs as [|x xs IH]; intros acc Hxs Hacc Hs.
  - exists acc. rewrite !app_nil_r. split_and!; try done.
    intros k. by rewrite filter_nil, app_nil_r.
  - apply Forall_cons in Hxs as [Hx Hxs].
    destruct (insert_by_key_spec x acc Hx Hacc Hs)
      as (acc' & E & Hp & Hs' & Hf).
    simpl. rewrite E.
    destruct (IH acc' Hxs) as (r & -> & Hp' & Hsr & Hf');
      [by rewrite Hp; constructor|done|].
    exists r. split_and!; try done.
    + rewrite Hp', Hp. simpl. apply Permutation_middle.
    + intros k. by rewrite Hf', Hf, <- app_assoc, <- filter_app.
Qed.

(** The key of an item under the key function [key], when it is of the
    kind [toK] reads. *)
Variable key : X -> outcome pyval.

Lemma decorate_spec (xs : list X) :
  Forall (fun x => is_Some (item_key toK key x)) xs ->
  exists dxs,
    decorate key xs = Returned dxs /\
    map snd dxs = xs /\
    Forall (fun p => key p.2 = Returned p.1) dxs /\
    Forall (keyed toK) dxs.
Proof.
  induction 1 as [|x xs [k Hx] _ (dxs & E & Hm & Hk & Hd)].
  - by exists [].
  - unfold item_key in Hx. simpl. destruct (key x) as [v|] eqn:Ev; [|done].
    rewrite E. exists ((v, x) :: dxs). split_and!; try done.
    + simpl. by rewrite Hm.
    + by constructor.
    + constructor; [|done]. by exists k.
Qed.

Lemma undecorate_sorted (r : list (pyval * X)) :
  Forall (fun p => key p.2 = Returned p.1) r ->
  StronglySorted (key_le toK ltK) r ->
  StronglySorted (item_le toK ltK key) (map snd r).
Proof.
  assert (Hle : forall p q : pyval * X,
             key p.2 = Returned p.1 -> key q.2 = Returned q.1 ->
             key_le toK ltK p q -> item_le toK ltK key p.2 q.2).
  { intros p q Hp Hq (a & b & Ha & Hb & Hab). exists a, b.
    unfold item_key. by rewrite Hp, Hq. }
  induction r as [|p r IH]; intros Hk Hs; [constructor|].
  apply Forall_cons in Hk as [Hp Hk].
  apply StronglySorted_inv in Hs as [Hs Hall].
  simpl. constructor; [by apply IH|].
  apply Forall_fmap, Forall_forall. intros q Hq.
  rewrite Forall_forall in Hk, Hall. apply Hle; auto.
Qed.

Lemma undecorate_filter (r : list (pyval * X)) k :
  Forall (fun p => key p.2 = Returned p.1) r ->
  filter (fun x => item_key toK key x = Some k) (map snd r)
  = map snd (filter (has_key toK k) r).
Proof.
  induction 1 as [|p r Hp _ IH]; [done|]. simpl.
  assert (Hiff : item_key toK key p.2 = Some k <-> has_key toK k p).
  { unfold item_key, has_key. by rewrite Hp. }
  rewrite (filter_cons _ p.2), (filter_cons _ p), IH.
  destruct (decide (has_key toK k p)) as [H1|H1];
    destruct (decide (item_key toK key p.2 = Some k)) as [H2|H2]; tauto || done.
Qed.

(** [sorted(xs, key=key)] when every key is of the one kind: it returns
    a permutation of [xs] in ascending order of the keys, items with
    equal keys in the order they had in [xs]. *)
Lemma py_sorted_spec (xs : list X) :
  Forall (fun x => is_Some (item_key toK key x)) xs ->
  exists r,
    py_sorted key xs = Returned r /\
    r ≡ₚ xs /\
    StronglySorted (item_le toK ltK key) r /\
    forall k, filter (fun x => item_key toK key x = Some k) r
              = filter (fun x => item_key toK key x = Some k) xs.
Proof.
  intros Hxs.
  destruct (decorate_spec xs Hxs) as (dxs & E & Hm & Hk & Hd).
  destruct (sort_decorated_spec dxs [] Hd) as (r & E' & Hp & Hs & Hf);
    [constructor|constructor|].
  simpl in Hp.
  assert (Hkr : Forall (fun p => key p.2 = Returned p.1) r) by by rewrite Hp.
  unfold py_sorted. rewrite E, E'. exists (map snd r). split_and!.
  - done.
  - by rewrite Hp, Hm.
  - by apply undecorate_sorted.
  - intros k. rewrite undecorate_filter, Hf by done.
    rewrite filter_nil. simpl. by rewrite <- undecorate_filter, Hm.
Qed.

End SortFacts.

(** *** The order of strings *)

Lemma ascii_compare_refl (a : ascii) : Ascii.compare a a = Eq.
Proof. unfold Ascii.compare. apply N.compare_refl. Qed.

Lemma ascii_compare_lt_trans (a b c : ascii) :
  Ascii.compare a b = Lt -> Ascii.compare b c = Lt -> Ascii.compare a c = Lt.
Proof.
  unfold Ascii.compare. rewrite !N.compare_lt_iff. apply N.lt_trans.
Qed.

Lemma string_compare_le_trans (a b c : string) :
  String.compare a b <> Gt -> String.compare b c <> Gt ->
  String.compare a c <> Gt.
Proof.
  revert b c. induction a as [|x a IH]; intros [|y b] [|z c]; simpl; try done.
  destruct (Ascii.compare x y) eqn:Exy; [| |done];
    (destruct (Ascii.compare y z) eqn:Eyz; [| |done]).
  - apply Ascii.compare_eq_iff in Exy as ->.
    apply Ascii.compare_eq_iff in Eyz as ->.
    rewrite ascii_compare_refl. apply IH.
  - apply Ascii.compare_eq_iff in Exy as ->. by rewrite Eyz.
  - apply Ascii.compare_eq_iff in Eyz as <-. by rewrite Exy.
  - by rewrite (ascii_compare_lt_trans _ _ _ Exy Eyz).
Qed.

Lemma string_ltb_asym (a b : string) :
  String.ltb a b = true -> String.ltb b a = false.
Proof.
  unfold String.ltb. rewrite (String.compare_antisym b a).
  by destruct (String.compare a b).
Qed.

Lemma string_ltb_le_trans (a b c : string) :
  String.ltb b a = false -> String.ltb c b = false -> String.ltb c a = false.
Proof.
  unfold String.ltb. intros Hab Hbc.
  pose proof (string_compare_le_trans a b c) as H.
  rewrite (String.compare_antisym b a) in Hab.
  rewrite (String.compare_antisym c b) in Hbc.
  rewrite (String.compare_antisym c a).
  destruct (String.compare a b), (String.compare b c), (String.compare a c);
    simpl in *; try done; exfalso; by apply H.
Qed.

Lemma string_ltb_leb (a b : string) :
  String.ltb b a = false <-> String.leb a b = true.
Proof.
  unfold String.ltb, String.leb. rewrite (String.compare_antisym b a).
  by destruct (String.compare a b).
Qed.

(** *** The two kinds of keys the plugin sorts by *)

Lemma lt_strings (a b : pyval) (s t : string) :
  as_str a = Some s -> as_str b = Some t -> Py.lt a b = Some (String.ltb s t).
Proof. destruct a, b; simpl; congruence. Qed.

Lemma lt_ints (a b : pyval) (x y : Z) :
  Py.as_int a = Some x -> Py.as_int b = Some y -> Py.lt a b = Some (Z.ltb x y).
Proof. destruct a, b; simpl; try done; congruence. Qed.

Lemma Z_ltb_asym (a b : Z) : Z.ltb a b = true -> Z.ltb b a = false.
Proof. lia. Qed.

Lemma Z_ltb_le_trans (a b c : Z) :
  Z.ltb b a = false -> Z.ltb c b = false -> Z.ltb c a = false.
Proof. lia. Qed.

Lemma StronglySorted_weaken {A} (R S : A -> A -> Prop) (l : list A) :
  (forall x y, x ∈ l -> y ∈ l -> R x y -> S x y) ->
  StronglySorted R l -> StronglySorted S l.
Proof.
  induction l as [|x l IH]; intros HRS Hs; [constructor|].
  apply StronglySorted_inv in Hs as [Hs Hall]. constructor.
  - apply IH; [|done]. intros ????. apply HRS; by constructor.
  - rewrite Forall_forall in Hall |- *. intros y Hy.
    apply HRS; [by constructor|by constructor|by apply Hall].
Qed.

Lemma filter_ext_Forall {A} (P Q : A -> Prop)
  `{!forall x, Decision (P x), !forall x, Decision (Q x)} (l : list A) :
  Forall (fun x => P x <-> Q x) l -> filter P l = filter Q l.
Proof.
  induction 1 as [|x l Hx _ IH]; [done|].
  rewrite !filter_cons, IH.
  destruct (decide (P x)), (decide (Q x)); tauto || done.
Qed.

(** ** The rendered tag sequence *)

Lemma lower_key_item {B} (t : pyval * B) (s : string) :
  as_str t.1 = Some s ->
  item_key as_str lower_key t = Some (lower_name t).
Proof.
  unfold item_key, lower_key, lower_name, tag_name.
  destruct t as [[] ?]; simpl; congruence.
Qed.

(** [sorted(data.items(), key=lambda t: t[0].lower())] on an index whose
    tags are strings. *)
Lemma sorted_items_spec (data : tag_index) :
  Forall (fun t => is_Some (as_str t.1)) data ->
  exists items,
    py_sorted lower_key data = Returned items /\
    items ≡ₚ data /\
    StronglySorted
      (fun a b => String.leb (lower_name a) (lower_name b) = true) items /\
    forall k, filter (fun t => lower_name t = k) items
              = filter (fun t => lower_name t = k) data.
Proof.
  intros Hstr.
  assert (Hkeys : Forall (fun t => item_key as_str lower_key t
                                   = Some (lower_name t)) data).
  { eapply Forall_impl; [exact Hstr|]. intros t [s Hs].
    by eapply lower_key_item. }
  destruct (py_sorted_spec as_str String.ltb lt_strings string_ltb_asym
              string_ltb_le_trans lower_key data)
    as (items & E & Hp & Hs & Hf).
  { eapply Forall_impl; [exact Hkeys|]. intros t ->. by eexists. }
  assert (Hkeys' : Forall (fun t => item_key as_str lower_key t
                                    = Some (lower_name t)) items)
    by by rewrite Hp.
  exists items. split_and!; [done|done| |].
  - eapply StronglySorted_weaken; [|exact Hs].
    intros x y Hx Hy (a & b & Ha & Hb & Hab).
    rewrite Forall_forall in Hkeys'.
    rewrite (Hkeys' x Hx) in Ha. rewrite (Hkeys' y Hy) in Hb.
    injection Ha as <-. injection Hb as <-.
    by apply string_ltb_leb.
  - intros k.
    rewrite <- (filter_ext_Forall (fun x => item_key as_str lower_key x = Some k)
                  (fun t => lower_name t = k) items).
    + rewrite Hf. apply filter_ext_Forall.
      eapply Forall_impl; [exact Hkeys|]. intros t ->. naive_solver.
    + eapply Forall_impl; [exact Hkeys'|]. intros t ->. naive_solver.
Qed.

(** ** Tag indices *)

Lemma key_eq_class (a b : pyval) :
  Py.key_eq a b = true <->
  exists k, class_of a = Some k /\ class_of b = Some k.
Proof.
  destruct a as [|[]| | | |], b as [|[]| | | |]; cbn -[Z.eqb String.eqb];
    rewrite ?Z.eqb_eq, ?String.eqb_eq;
    (split; [intros H; try done; subst; eauto
            |intros (k & H1 & H2); by simplify_eq]).
Qed.

Lemma hashable_class (v : pyval) :
  Py.hashable v = true <-> is_Some (class_of v).
Proof. destruct v; simpl; split; (done || by intros [? [=]] || by eexists). Qed.

Lemma key_eq_refl (a : pyval) : Py.hashable a = true -> Py.key_eq a a = true.
Proof. rewrite hashable_class, key_eq_class. intros [k ?]. eauto. Qed.

Lemma key_eq_sym (a b : pyval) : Py.key_eq a b = Py.key_eq b a.
Proof.
  apply eq_true_iff_eq. rewrite !key_eq_class.
  split; intros (k & ? & ?); eauto.
Qed.

Lemma key_eq_trans (a b c : pyval) :
  Py.key_eq a b = true -> Py.key_eq b c = true -> Py.key_eq a c = true.
Proof.
  rewrite !key_eq_class. intros (k & Ha & Hb) (k' & Hb' & Hc).
  rewrite Hb in Hb'. injection Hb' as <-. eauto.
Qed.

Lemma bucket_append_spec (d : tag_index) (tag T : pyval) (e : nat) :
  bucket (bucket_append d tag e) T
  = bucket d T ++ (if Py.key_eq T tag then [e] else []).
Proof.
  induction d as [|[tag' es] d IH]; simpl.
  - by destruct (Py.key_eq T tag).
  - destruct (Py.key_eq tag tag') eqn:E1; simpl;
      destruct (Py.key_eq T tag') eqn:E2; try done.
    + by rewrite (key_eq_trans _ _ _ E2 (eq_trans (key_eq_sym _ _) E1)).
    + destruct (Py.key_eq T tag) eqn:E3; [|by rewrite app_nil_r].
      by rewrite (key_eq_trans _ _ _ E3 E1) in E2.
    + destruct (Py.key_eq T tag) eqn:E3; [|by rewrite app_nil_r].
      rewrite key_eq_sym in E3.
      by rewrite (key_eq_trans _ _ _ E3 E2) in E1.
Qed.

Lemma count_key_cons (T t : pyval) (ts : list pyval) :
  count_key T (t :: ts)
  = (if Py.key_eq T t then 1 else 0) + count_key T ts.
Proof.
  unfold count_key. rewrite filter_cons.
  destruct (Py.key_eq T t); by case_decide.
Qed.

(** Appending a page under each of its tags in turn. *)
Lemma fold_bucket_append (ts : list pyval) (d : tag_index) (T : pyval) (e : nat) :
  bucket (fold_left (fun d t => bucket_append d t e) ts d) T
  = bucket d T ++ replicate (count_key T ts) e.
Proof.
  revert d. induction ts as [|t ts IH]; intros d; simpl.
  - by rewrite app_nil_r.
  - rewrite IH, bucket_append_spec, count_key_cons, <- app_assoc.
    by destruct (Py.key_eq T t).
Qed.

Lemma count_occ_replicate (e e' n : nat) :
  count_occ Nat.eq_dec (replicate n e') e = if decide (e' = e) then n else 0.
Proof.
  induction n as [|n IH]; simpl; [by case_decide|].
  rewrite IH. destruct (Nat.eq_dec e' e); by case_decide.
Qed.

Lemma count_occ_expected ms T es e :
  NoDup es -> e ∈ es ->
  count_occ Nat.eq_dec (expected_bucket ms T es) e
  = count_key T (indexed_tags (mjoin (ms !! e))).
Proof.
  unfold expected_bucket.
  induction 1 as [|e' es Hni Hnd IH]; [by intros ?%elem_of_nil|].
  simpl. rewrite count_occ_app, count_occ_replicate.
  intros [->|Hin]%elem_of_cons.
  - rewrite decide_True by done.
    assert (count_occ Nat.eq_dec
              (flat_map (fun e0 => replicate
                 (count_key T (indexed_tags (mjoin (ms !! e0)))) e0) es) e' = 0) as ->; [|lia].
    apply count_occ_not_In. rewrite in_flat_map. intros (x & Hx & Hin).
    apply list_elem_of_In, elem_of_replicate in Hin as [-> _].
    by apply list_elem_of_In in Hx.
  - rewrite decide_False by (intros ->; done). by rewrite IH.
Qed.

Lemma elem_of_expected ms T es e :
  e ∈ expected_bucket ms T es ->
  e ∈ es /\ 0 < count_key T (indexed_tags (mjoin (ms !! e))).
Proof.
  unfold expected_bucket. rewrite list_elem_of_In, in_flat_map.
  intros (x & Hx & Hin).
  apply list_elem_of_In, elem_of_replicate in Hin as [-> Hn].
  split; [by apply list_elem_of_In|lia].
Qed.

(** ** Running computations *)

Lemma bind_run {A B} (c : M A) (k : A -> M B) (w : world) :
  bind c k w
  = match c w with
    | (w', Returned a) => k a w'
    | (w', Raised e) => (w', Raised e)
    end.
Proof. done. Qed.

Lemma bind_returned {A B} (c : M A) (k : A -> M B) (w w' : world) (b : B) :
  bind c k w = (w', Returned b) <->
  exists a w1, c w = (w1, Returned a) /\ k a w1 = (w', Returned b).
Proof.
  rewrite bind_run. destruct (c w) as [w1 [a|e]]; split.
  - eauto.
  - by intros (? & ? & [= <- <-] & ?).
  - done.
  - by intros (? & ? & [=] & ?).
Qed.

Lemma bind_gets {A B} (f : world -> A) (k : A -> M B) (w : world) :
  bind (gets f) k w = k (f w) w.
Proof. done. Qed.

Lemma bind_ext {A B} (c c' : M A) (k k' : A -> M B) (w : world) :
  c w = c' w -> (forall a w1, k a w1 = k' a w1) -> bind c k w = bind c' k' w.
Proof.
  intros Hc Hk. rewrite !bind_run, Hc.
  destruct (c' w) as [w1 [a|e]]; [apply Hk|done].
Qed.

(** A property of the world that every step of a loop keeps is kept by
    the loop, however it ends. *)
Lemma for_each_keeps {X A} (P : world -> Prop) (body : A -> X -> M A) xs :
  (forall acc x w, P w -> P (body acc x w).1) ->
  forall acc w, P w -> P (for_each xs body acc w).1.
Proof.
  intros Hbody. induction xs as [|x xs IH]; intros acc w Hw; [done|].
  simpl. rewrite bind_run. specialize (Hbody acc x w Hw).
  destruct (body acc x w) as [w1 [a|e]]; [by apply IH|done].
Qed.

Lemma bind_keeps {A B} (P : world -> Prop) (c : M A) (k : A -> M B) w :
  P (c w).1 -> (forall a w1, P w1 -> P (k a w1).1) -> P (bind c k w).1.
Proof.
  intros Hc Hk. rewrite bind_run. destruct (c w) as [w1 [a|e]]; [by apply Hk|done].
Qed.

Lemma with_self_set_tags_dict_id (w : world) :
  with_self (set_tags_dict (tags_dict (self w))) w = w.
Proof. by destruct w as [[] ? ? ? ?]. Qed.

Lemma with_self_set_tags_dict_twice (d d' : tag_index) (w : world) :
  with_self (set_tags_dict d') (with_self (set_tags_dict d) w)
  = with_self (set_tags_dict d') w.
Proof. done. Qed.

(** ** The index of [update_tags_dict] *)

Lemma len_zero_iter (v : pyval) :
  Py.len v = Returned 0 -> Py.iter v = Returned [].
Proof.
  destruct v as [| | |s|xs|kvs]; simpl; try done.
  - by destruct s.
  - by destruct xs.
  - by destruct kvs.
Qed.

Lemma tags_dict_append_run (e : nat) (tag : pyval) (w : world) :
  tags_dict_append e tag w
  = if Py.hashable tag
    then (with_self (set_tags_dict (bucket_append (tags_dict (self w)) tag e)) w,
          Returned tt)
    else (w, Raised TypeError).
Proof.
  unfold tags_dict_append, index_append, bind, gets, lift, modify.
  by destruct (Py.hashable tag).
Qed.

Lemma tags_dict_append_loop (e : nat) (ts : list pyval) (w w' : world) :
  for_each ts (fun _ tag => tags_dict_append e tag) tt w = (w', Returned tt) ->
  w' = with_self
         (set_tags_dict
            (fold_left (fun d t => bucket_append d t e) ts (tags_dict (self w))))
         w.
Proof.
  revert w. induction ts as [|t ts IH]; intros w; simpl.
  - intros [= <-]. by rewrite with_self_set_tags_dict_id.
  - rewrite bind_run, tags_dict_append_run.
    destruct (Py.hashable t); [|done].
    intros ->%IH. done.
Qed.

Lemma update_tags_dict_page_spec (counts counts' : nat * nat) (e : nat)
  (w w' : world) :
  update_tags_dict_page counts e w = (w', Returned counts') ->
  exists d,
    w' = with_self (set_tags_dict d) w /\
    forall T, bucket d T
              = bucket (tags_dict (self w)) T
                ++ replicate
                     (count_key T (indexed_tags (mjoin (metadata (self w) !! e))))
                     e.
Proof.
  unfold update_tags_dict_page, indexed_tags. destruct counts as [n p].
  rewrite bind_run. unfold deref at 1, gets at 1.
  destruct (falsy (mjoin (metadata (self w) !! e))) eqn:Hf.
  { intros [= <- <-]. exists (tags_dict (self w)).
    split; [by rewrite with_self_set_tags_dict_id|].
    intros T. by rewrite app_nil_r. }
  set (tags := get_tags (default ∅ (mjoin (metadata (self w) !! e)))).
  destruct (Py.is_not_none tags) eqn:Hnn.
  2:{ intros [= <- <-]. exists (tags_dict (self w)).
      split; [by rewrite with_self_set_tags_dict_id|].
      intros T. destruct tags; try done. simpl. by rewrite app_nil_r. }
  rewrite bind_run. unfold lift at 1.
  destruct (Py.len tags) as [k|] eqn:Hlen; [|done].
  destruct (0 <? k) eqn:Hk.
  2:{ intros [= <- <-]. exists (tags_dict (self w)).
      split; [by rewrite with_self_set_tags_dict_id|].
      intros T. apply Nat.ltb_ge in Hk. assert (k = 0) as -> by lia.
      rewrite (len_zero_iter _ Hlen). simpl. by rewrite app_nil_r. }
  rewrite bind_run. unfold lift at 1.
  destruct (Py.iter tags) as [ts|] eqn:Hit; [|done].
  rewrite bind_run.
  destruct (for_each ts _ tt w) as [w1 [[]|]] eqn:Hloop; [|done].
  intros [= <- <-]. apply tags_dict_append_loop in Hloop as ->.
  eexists. split; [done|]. intros T. apply fold_bucket_append.
Qed.

Lemma update_tags_dict_loop_spec (es : list nat) (counts counts' : nat * nat)
  (w w' : world) :
  for_each es update_tags_dict_page counts w = (w', Returned counts') ->
  exists d,
    w' = with_self (set_tags_dict d) w /\
    forall T, bucket d T
              = bucket (tags_dict (self w)) T
                ++ expected_bucket (metadata (self w)) T es.
Proof.
  revert counts w. induction es as [|e es IH]; intros counts w; simpl.
  - intros [= <- <-]. exists (tags_dict (self w)).
    split; [by rewrite with_self_set_tags_dict_id|].
    intros T. by rewrite app_nil_r.
  - rewrite bind_run.
    destruct (update_tags_dict_page counts e w) as [w1 [c1|]] eqn:Hpage; [|done].
    apply update_tags_dict_page_spec in Hpage as (d1 & -> & Hd1).
    intros (d & -> & Hd)%IH. exists d. split; [done|].
    intros T. rewrite Hd. simpl. rewrite Hd1. unfold expected_bucket.
    by rewrite <- app_assoc.
Qed.

(** What [update_tags_dict] leaves in [self.tags_dict] when it returns:
    each bucket lists the pages of [self.metadata] in order, a page once
    for every occurrence of the tag in its list. *)
Lemma update_tags_dict_spec (config : mkdocs_config) (w w' : world) :
  update_tags_dict config w = (w', Returned tt) ->
  metadata (self w') = metadata (self w) /\
  forall T, bucket (tags_dict (self w')) T
            = expected_bucket (metadata (self w)) T
                (seq 0 (length (metadata (self w)))).
Proof.
  unfold update_tags_dict, refs.
  rewrite bind_run. unfold modify at 1.
  rewrite bind_run. unfold gets at 1.
  rewrite bind_run.
  destruct (for_each _ update_tags_dict_page (0, 0) _) as [w1 [c|]] eqn:Hloop;
    [|done].
  apply update_tags_dict_loop_spec in Hloop as (d & -> & Hd).
  unfold nprint, vprint, when, bind, gets, modify, ret. simpl.
  intros Hw'.
  assert (self w' = set_tags_dict d (self w)) as ->.
  { destruct (verbose (self w)) eqn:Hv; simpl in Hw';
      [destruct (0 <? length d); simpl in Hw'; rewrite ?Hv in Hw'|];
      by injection Hw' as <-. }
  split; [done|]. intros T. by rewrite Hd.
Qed.

(** ** The index of [generate_tags_file] *)

Lemma same_tags_refl ms : same_tags ms ms.
Proof. done. Qed.

Lemma same_tags_trans ms1 ms2 ms3 :
  same_tags ms1 ms2 -> same_tags ms2 ms3 -> same_tags ms1 ms3.
Proof.
  intros [Hl1 H1] [Hl2 H2]. split; [congruence|].
  intros e. by rewrite H2, H1.
Qed.

Lemma indexed_tags_field (o : option (gmap string pyval)) :
  indexed_tags o
  = match tags_field o with
    | Some v => match Py.iter v with Returned ts => ts | Raised _ => [] end
    | None => []
    end.
Proof.
  unfold indexed_tags, tags_field, get_tags. destruct o as [m|]; simpl; [|done].
  case_bool_decide as Hm.
  - subst m. by rewrite lookup_empty.
  - by destruct (m !! "tags").
Qed.

Lemma expected_bucket_same_tags ms ms' T es :
  same_tags ms ms' -> expected_bucket ms' T es = expected_bucket ms T es.
Proof.
  intros [_ H]. unfold expected_bucket.
  induction es as [|e es IH]; [done|]. simpl.
  by rewrite !indexed_tags_field, H, <- !indexed_tags_field, IH.
Qed.

Lemma get_tags_insert_title (v : pyval) (m : gmap string pyval) :
  get_tags (<["title" := v]> m) = get_tags m.
Proof. unfold get_tags. by rewrite lookup_insert_ne. Qed.

Lemma same_tags_untitled ms e :
  same_tags ms (alter (fmap (insert "title" (PStr "Untitled"))) e ms).
Proof.
  split; [by rewrite length_alter|]. intros e'.
  destruct (decide (e = e')) as [<-|Hne].
  - rewrite list_lookup_alter_eq. destruct (ms !! e) as [[m|]|]; simpl; try done.
    by rewrite lookup_insert_ne.
  - by rewrite list_lookup_alter_ne.
Qed.

Lemma with_self_set_metadata_id (w : world) :
  with_self (set_metadata (metadata (self w))) w = w.
Proof. by destruct w as [[] ? ? ? ?]. Qed.

Lemma index_append_loop (e : nat) (ts : list pyval) (d d' : tag_index)
  (w w' : world) :
  for_each ts (fun tag_dict tag => lift (index_append tag_dict tag e)) d w
  = (w', Returned d') ->
  w' = w /\ d' = fold_left (fun d t => bucket_append d t e) ts d.
Proof.
  revert d. induction ts as [|t ts IH]; intros d; simpl.
  - by intros [= <- <-].
  - rewrite bind_run. unfold lift at 1, index_append.
    destruct (Py.hashable t); [|done]. apply IH.
Qed.

Lemma tag_dict_page_spec (d d' : tag_index) (e : nat) (w w' : world) :
  tag_dict_page d e w = (w', Returned d') ->
  exists ms',
    w' = with_self (set_metadata ms') w /\
    same_tags (metadata (self w)) ms' /\
    forall T, bucket d' T
              = bucket d T
                ++ replicate
                     (count_key T (indexed_tags (mjoin (metadata (self w) !! e))))
                     e.
Proof.
  unfold tag_dict_page. rewrite bind_run. unfold deref at 1, gets at 1.
  unfold indexed_tags.
  destruct (falsy (mjoin (metadata (self w) !! e))) eqn:Hf.
  { intros [= <- <-]. exists (metadata (self w)).
    split_and!; [by rewrite with_self_set_metadata_id|done|].
    intros T. by rewrite app_nil_r. }
  destruct (metadata (self w) !! e) as [[m|]|] eqn:He; try done.
  simpl in Hf |- *. rewrite bind_run.
  assert (Hw1 : exists ms1 m1,
            when (bool_decide (m !! "title" = None)) (set_untitled e) w
            = (with_self (set_metadata ms1) w, Returned tt) /\
            same_tags (metadata (self w)) ms1 /\
            ms1 !! e = Some (Some m1) /\ get_tags m1 = get_tags m).
  { unfold when. destruct (bool_decide (m !! "title" = None)).
    - eexists _, _. split; [done|]. split; [apply same_tags_untitled|].
      rewrite list_lookup_alter_eq, He. split; [done|].
      apply get_tags_insert_title.
    - exists (metadata (self w)), m.
      unfold ret. by rewrite with_self_set_metadata_id. }
  destruct Hw1 as (ms1 & m1 & -> & Hsame & He1 & Htags).
  rewrite bind_run. unfold deref at 1, gets at 1. simpl.
  rewrite He1. simpl. rewrite Htags.
  destruct (Py.is_not_none (get_tags m)) eqn:Hnn.
  2:{ intros [= <- <-]. exists ms1. split_and!; [done|done|].
      intros T. destruct (get_tags m); try done. simpl. by rewrite app_nil_r. }
  rewrite bind_run. unfold lift at 1.
  destruct (Py.iter (get_tags m)) as [ts|] eqn:Hit; [|done].
  intros [-> ->]%index_append_loop.
  exists ms1. split_and!; [done|done|]. intros T. apply fold_bucket_append.
Qed.

Lemma tag_dict_loop_spec (es : list nat) (d d' : tag_index) (w w' : world) :
  for_each es tag_dict_page d w = (w', Returned d') ->
  exists ms',
    w' = with_self (set_metadata ms') w /\
    same_tags (metadata (self w)) ms' /\
    forall T, bucket d' T
              = bucket d T ++ expected_bucket (metadata (self w)) T es.
Proof.
  revert d w. induction es as [|e es IH]; intros d w; simpl.
  - intros [= <- <-]. exists (metadata (self w)).
    split_and!; [by rewrite with_self_set_metadata_id|done|].
    intros T. by rewrite app_nil_r.
  - rewrite bind_run.
    destruct (tag_dict_page d e w) as [w1 [d1|]] eqn:Hpage; [|done].
    apply tag_dict_page_spec in Hpage as (ms1 & -> & Hsame1 & Hd1).
    intros (ms' & -> & Hsame & Hd)%IH. exists ms'. split_and!.
    + done.
    + by eapply same_tags_trans.
    + intros T. rewrite Hd, Hd1. simpl.
      rewrite (expected_bucket_same_tags _ _ _ _ Hsame1).
      unfold expected_bucket. by rewrite <- app_assoc.
Qed.

(** ** Stores the builders go through without raising *)

Lemma tags_ok_lookup ms e :
  Forall tags_ok ms -> tags_ok (mjoin (ms !! e)).
Proof.
  intros Hok. destruct (ms !! e) as [o|] eqn:He; [|done].
  rewrite Forall_forall in Hok. apply Hok. by eapply list_elem_of_lookup_2.
Qed.

Lemma tags_ok_same_tags ms ms' :
  same_tags ms ms' ->
  (forall e, tags_ok (mjoin (ms !! e))) -> forall e, tags_ok (mjoin (ms' !! e)).
Proof. intros [_ H] Hok e. unfold tags_ok. rewrite H. apply Hok. Qed.

Lemma tags_dict_append_loop_returns (e : nat) (ts : list pyval) (w : world) :
  Forall (fun t => Py.hashable t = true) ts ->
  exists w',
    for_each ts (fun _ tag => tags_dict_append e tag) tt w = (w', Returned tt).
Proof.
  intros Hts. revert w. induction Hts as [|t ts Ht _ IH]; intros w; simpl.
  - by eexists.
  - rewrite bind_run, tags_dict_append_run, Ht. apply IH.
Qed.

Lemma index_append_loop_returns (e : nat) (ts : list pyval) (d : tag_index)
  (w : world) :
  Forall (fun t => Py.hashable t = true) ts ->
  exists d',
    for_each ts (fun tag_dict tag => lift (index_append tag_dict tag e)) d w
    = (w, Returned d').
Proof.
  intros Hts. revert d. induction Hts as [|t ts Ht _ IH]; intros d; simpl.
  - by eexists.
  - rewrite bind_run. unfold lift at 1, index_append. rewrite Ht. apply IH.
Qed.

Lemma update_tags_dict_page_returns (counts : nat * nat) (e : nat) (w : world) :
  tags_ok (mjoin (metadata (self w) !! e)) ->
  exists w' counts',
    update_tags_dict_page counts e w = (w', Returned counts').
Proof.
  unfold tags_ok, tags_field, update_tags_dict_page, deref.
  destruct counts as [n p]. rewrite bind_run. unfold gets at 1.
  destruct (metadata (self w) !! e) as [[m|]|]; simpl;
    try (intros _; by eexists _, _).
  case_bool_decide; [intros _; by eexists _, _|]. unfold get_tags.
  destruct (m !! "tags") as [[| | | |ts|]|]; simpl;
    try done; try (intros _; by eexists _, _).
  intros Hts. unfold bind at 1, lift at 1. simpl.
  destruct ts as [|t ts]; simpl; [by eexists _, _|].
  rewrite bind_run. unfold lift at 1. rewrite bind_run.
  destruct (tags_dict_append_loop_returns e (t :: ts) w Hts) as [w' ->].
  by eexists _, _.
Qed.

Lemma update_tags_dict_loop_returns (es : list nat) (counts : nat * nat)
  (w : world) :
  (forall e, tags_ok (mjoin (metadata (self w) !! e))) ->
  exists w' counts',
    for_each es update_tags_dict_page counts w = (w', Returned counts').
Proof.
  revert counts w. induction es as [|e es IH]; intros counts w Hok; simpl.
  - by eexists _, _.
  - rewrite bind_run.
    destruct (update_tags_dict_page_returns counts e w (Hok e))
      as (w1 & c1 & Hpage).
    rewrite Hpage.
    apply update_tags_dict_page_spec in Hpage as (d & -> & _).
    by apply IH.
Qed.

(** [update_tags_dict] returns on a store of such entries. *)
Lemma update_tags_dict_returns (config : mkdocs_config) (w : world) :
  Forall tags_ok (metadata (self w)) ->
  exists w', update_tags_dict config w = (w', Returned tt).
Proof.
  intros Hok. unfold update_tags_dict, refs.
  rewrite bind_run. unfold modify at 1. rewrite bind_gets, bind_run.
  destruct (update_tags_dict_loop_returns
              (seq 0 (length (metadata (self (with_self (set_tags_dict []) w)))))
              (0, 0) (with_self (set_tags_dict []) w))
    as (w1 & c1 & ->).
  { intros e. by apply tags_ok_lookup. }
  unfold nprint, vprint, when, bind, gets, modify, ret. simpl.
  destruct (verbose (self w1)) eqn:Hv; simpl;
    [destruct (0 <? length (tags_dict (self w1))); simpl; rewrite ?Hv|];
    by eexists.
Qed.

Lemma tag_dict_page_returns (d : tag_index) (e : nat) (w : world) :
  tags_ok (mjoin (metadata (self w) !! e)) ->
  exists w' d', tag_dict_page d e w = (w', Returned d').
Proof.
  unfold tags_ok, tags_field, tag_dict_page, deref.
  rewrite bind_run. unfold gets at 1.
  destruct (metadata (self w) !! e) as [[m|]|] eqn:He; simpl;
    try (intros _; by eexists _, _).
  case_bool_decide; [intros _; by eexists _, _|].
  intros Hok. rewrite bind_run.
  assert (exists w1 m1,
            when (bool_decide (m !! "title" = None)) (set_untitled e) w
            = (w1, Returned tt) /\
            metadata (self w1) !! e = Some (Some m1) /\
            m1 !! "tags" = m !! "tags") as (w1 & m1 & -> & He1 & Htags).
  { unfold when. destruct (bool_decide (m !! "title" = None)).
    - eexists _, _. split; [done|]. simpl.
      rewrite list_lookup_alter_eq, He. split; [done|].
      by rewrite lookup_insert_ne.
    - by exists w, m. }
  rewrite bind_run. unfold gets at 1. rewrite He1. simpl.
  unfold get_tags. rewrite Htags.
  destruct (m !! "tags") as [[| | | |ts|]|]; simpl;
    try done; try by eexists _, _.
  rewrite bind_run. unfold lift at 1.
  destruct (index_append_loop_returns e ts d w1 Hok) as [d' ->].
  by eexists _, _.
Qed.

Lemma tag_dict_loop_returns (es : list nat) (d : tag_index) (w : world) :
  (forall e, tags_ok (mjoin (metadata (self w) !! e))) ->
  exists w' d', for_each es tag_dict_page d w = (w', Returned d').
Proof.
  revert d w. induction es as [|e es IH]; intros d w Hok; simpl.
  - by eexists _, _.
  - rewrite bind_run.
    destruct (tag_dict_page_returns d e w (Hok e)) as (w1 & d1 & Hpage).
    rewrite Hpage.
    apply tag_dict_page_spec in Hpage as (ms1 & -> & Hsame & _).
    apply IH. simpl. by eapply tags_ok_same_tags.
Qed.

(** ** The order of [sorted_meta] *)

Lemma sorted_before {A} (R : A -> A -> Prop) (l : list A) (i j : A) :
  StronglySorted R l -> i ∈ l -> j ∈ l -> i <> j -> ~ R j i -> before l i j.
Proof.
  intros Hs (l1 & l2 & ->)%list_elem_of_split Hj Hne Hji.
  apply elem_of_app in Hj as [Hj|Hj].
  - exfalso. apply list_elem_of_split in Hj as (a & b & ->).
    rewrite <- app_assoc in Hs. apply StronglySorted_app_1_r in Hs.
    apply StronglySorted_inv in Hs as [_ Hall].
    rewrite Forall_forall in Hall. apply Hji, Hall.
    apply elem_of_app. right. by left.
  - apply elem_of_cons in Hj as [->|Hj]; [done|].
    apply list_elem_of_split in Hj as (a & b & ->).
    by exists l1, a, b.
Qed.

Lemma year_of_page (m : gmap string pyval) :
  m <> ∅ -> year_of (Some m) = Py.as_int (default (PInt 5000) (m !! "year")).
Proof.
  intros Hm. unfold year_of, year_key. simpl.
  by rewrite bool_decide_eq_false_2.
Qed.

Lemma sorted_meta_spec (ms : list (option (gmap string pyval))) :
  Forall (fun o => is_Some (year_of o)) ms ->
  exists l,
    sorted_meta ms = Returned l /\
    l ≡ₚ seq 0 (length ms) /\
    StronglySorted (year_le ms) l /\
    forall k, filter (fun e => year_of (mjoin (ms !! e)) = Some k) l
              = filter (fun e => year_of (mjoin (ms !! e)) = Some k)
                       (seq 0 (length ms)).
Proof.
  intros Hint. unfold sorted_meta.
  destruct (py_sorted_spec Py.as_int Z.ltb lt_ints Z_ltb_asym Z_ltb_le_trans
              (fun e => Returned (year_key (mjoin (ms !! e))))
              (seq 0 (length ms)))
    as (l & E & Hp & Hs & Hf).
  { apply Forall_forall. intros e He%elem_of_seq.
    destruct (lookup_lt_is_Some_2 ms e) as [o Ho]; [lia|].
    unfold item_key. rewrite Ho. simpl.
    rewrite Forall_forall in Hint. apply Hint.
    by eapply list_elem_of_lookup_2. }
  exists l. split_and!; [done|done| |done].
  eapply StronglySorted_weaken; [|exact Hs].
  intros i j _ _ (a & b & Ha & Hb & Hab). exists a, b.
  split_and!; [done|done|lia].
Qed.

(** ** The two tag indices *)

Lemma indexed_tags_list (m : gmap string pyval) (ts : list pyval) :
  m !! "tags" = Some (PList ts) -> indexed_tags (Some m) = ts.
Proof.
  intros Hm. unfold indexed_tags, get_tags. simpl.
  rewrite bool_decide_eq_false_2; [by rewrite Hm|].
  intros ->. by rewrite lookup_empty in Hm.
Qed.

Lemma indexed_tags_absent (m : gmap string pyval) :
  m !! "tags" = None \/ m !! "tags" = Some (PList []) \/ m !! "tags" = Some PNone ->
  indexed_tags (Some m) = [].
Proof.
  unfold indexed_tags, get_tags. simpl. case_bool_decide; [done|].
  by intros [->|[->| ->]].
Qed.

(** Whatever the keys, a sort that returns has permuted its input. *)
Lemma insert_by_key_perm {X} (x : pyval * X) acc r :
  insert_by_key x acc = Returned r -> r ≡ₚ x :: acc.
Proof.
  revert r. induction acc as [|y acc IH]; intros r; simpl.
  - by intros [= <-].
  - destruct (Py.lt x.1 y.1) as [[]|]; [by intros [= <-]| |done].
    destruct (insert_by_key x acc) as [r'|]; [|done].
    intros [= <-]. by rewrite (IH r'), Permutation_swap.
Qed.

Lemma sort_decorated_perm {X} (xs acc r : list (pyval * X)) :
  sort_decorated xs acc = Returned r -> r ≡ₚ acc ++ xs.
Proof.
  revert acc. induction xs as [|x xs IH]; intros acc; simpl.
  - intros [= <-]. by rewrite app_nil_r.
  - destruct (insert_by_key x acc) as [acc'|] eqn:E; [|done].
    intros ->%IH. rewrite (insert_by_key_perm _ _ _ E). simpl.
    apply Permutation_middle.
Qed.

Lemma decorate_snd {X} (key : X -> outcome pyval) (xs : list X) dxs :
  decorate key xs = Returned dxs -> map snd dxs = xs.
Proof.
  revert dxs. induction xs as [|x xs IH]; intros dxs; simpl.
  - by intros [= <-].
  - destruct (key x) as [k|]; [|done].
    destruct (decorate key xs) as [r|]; [|done].
    intros [= <-]. simpl. by rewrite (IH r).
Qed.

Lemma py_sorted_perm {X} (key : X -> outcome pyval) (xs r : list X) :
  py_sorted key xs = Returned r -> r ≡ₚ xs.
Proof.
  unfold py_sorted.
  destruct (decorate key xs) as [dxs|] eqn:Ed; [|done].
  destruct (sort_decorated dxs []) as [r'|] eqn:Er; [|done].
  intros [= <-]. apply sort_decorated_perm in Er. simpl in Er.
  by rewrite Er, (decorate_snd _ _ _ Ed).
Qed.

Lemma generated_index_spec (w : world) (d : tag_index) :
  generated_index w d ->
  exists l,
    sorted_meta (metadata (self w)) = Returned l /\
    l ≡ₚ seq 0 (length (metadata (self w))) /\
    forall T, bucket d T = expected_bucket (metadata (self w)) T l.
Proof.
  intros (l & w' & Hl & Hloop). exists l. split; [done|].
  apply tag_dict_loop_spec in Hloop as (ms' & _ & _ & Hd).
  split; [|done]. by apply py_sorted_perm in Hl.
Qed.

(** [generate_tags_file] gets as far as an index on a store of such
    entries whose years are integers. *)
Lemma generated_index_exists (w : world) :
  Forall tags_ok (metadata (self w)) ->
  Forall (fun o => is_Some (year_of o)) (metadata (self w)) ->
  exists d, generated_index w d.
Proof.
  intros Hok (l & Hl & _)%sorted_meta_spec.
  destruct (tag_dict_loop_returns l [] w) as (w' & d & Hloop).
  { intros e. by apply tags_ok_lookup. }
  exists d, l, w'. done.
Qed.

Lemma lookup_page_ref {A} (ms : list A) (e : nat) (x : A) :
  ms !! e = Some x -> e ∈ seq 0 (length ms).
Proof. intros H%lookup_lt_Some. apply elem_of_seq. lia. Qed.

(** C1. For every page of [self.metadata] with a list of tags and every
    tag [T], the bucket of [T] holds the page's reference as many times as
    [T] occurs in the page's list (no deduplication): in particular for
    a non-empty list and a tag [T] of it.  This holds of the index
    [update_tags_dict] leaves in [self.tags_dict] and of the index
    [generate_tags_file] builds for the generated page. *)
Theorem bucket_counts_tag_occurrences
  (config : mkdocs_config) (w : world) (e : nat) (m : gmap string pyval)
  (ts : list pyval) (T : pyval) :
  metadata (self w) !! e = Some (Some m) ->
  m !! "tags" = Some (PList ts) ->
  (forall w', update_tags_dict config w = (w', Returned tt) ->
     count_occ Nat.eq_dec (bucket (tags_dict (self w')) T) e = count_key T ts) /\
  (forall d, generated_index w d ->
     count_occ Nat.eq_dec (bucket d T) e = count_key T ts).
Proof.
  intros He Hm. split.
  - intros w' (_ & Hb)%update_tags_dict_spec. rewrite Hb.
    rewrite count_occ_expected, He; simpl.
    + by rewrite (indexed_tags_list _ _ Hm).
    + apply NoDup_seq.
    + by eapply lookup_page_ref.
  - intros d (l & _ & Hp & Hb)%generated_index_spec. rewrite Hb.
    rewrite count_occ_expected, He; simpl.
    + by rewrite (indexed_tags_list _ _ Hm).
    + rewrite Hp. apply NoDup_seq.
    + rewrite Hp. by eapply lookup_page_ref.
Qed.

Lemma expected_bucket_tagged ms T es e :
  e ∈ expected_bucket ms T es -> tagged ms e.
Proof.
  intros [_ Hpos]%elem_of_expected. unfold indexed_tags in Hpos.
  destruct (ms !! e) as [[m|]|] eqn:He; simpl in Hpos;
    try (unfold count_key in Hpos; simpl in Hpos; lia).
  case_bool_decide; [unfold count_key in Hpos; simpl in Hpos; lia|].
  unfold get_tags in Hpos.
  destruct (m !! "tags") as [v|] eqn:Hv; simpl in Hpos;
    [|unfold count_key in Hpos; simpl in Hpos; lia].
  destruct (Py.iter v) as [ts|] eqn:Hit;
    [|unfold count_key in Hpos; simpl in Hpos; lia].
  exists m, v, ts. split_and!; try done.
  intros ->. unfold count_key in Hpos. simpl in Hpos. lia.
Qed.

Lemma update_bucket_tagged (config : mkdocs_config) (w : world) e T w' :
  update_tags_dict config w = (w', Returned tt) ->
  e ∈ bucket (tags_dict (self w')) T -> tagged (metadata (self w)) e.
Proof.
  intros (_ & Hb)%update_tags_dict_spec. rewrite Hb.
  apply expected_bucket_tagged.
Qed.

Lemma generated_bucket_tagged (w : world) e T d :
  generated_index w d -> e ∈ bucket d T -> tagged (metadata (self w)) e.
Proof.
  intros (l & _ & _ & Hb)%generated_index_spec. rewrite Hb.
  apply expected_bucket_tagged.
Qed.

(** C2. A page whose metadata has no [tags] key or an empty [tags] list is
    in no bucket of either index, the one exposed to the pages and the
    year-sorted one of the generated page; put the other way round, every
    page in a bucket has a [tags] value with at least one item. *)
Theorem untagged_pages_in_no_bucket
  (config : mkdocs_config) (w : world) (e : nat) (T : pyval) :
  (forall m,
     metadata (self w) !! e = Some (Some m) ->
     m !! "tags" = None \/ m !! "tags" = Some (PList []) ->
     (forall w', update_tags_dict config w = (w', Returned tt) ->
        e ∉ bucket (tags_dict (self w')) T) /\
     (forall d, generated_index w d -> e ∉ bucket d T)) /\
  (forall w', update_tags_dict config w = (w', Returned tt) ->
     e ∈ bucket (tags_dict (self w')) T -> tagged (metadata (self w)) e) /\
  (forall d, generated_index w d ->
     e ∈ bucket d T -> tagged (metadata (self w)) e).
Proof.
  pose proof (update_bucket_tagged config w e T) as Hupd.
  pose proof (generated_bucket_tagged w e T) as Hgen.
  split_and!; [|done|done].
  intros m He Hm.
  assert (Hno : ~ tagged (metadata (self w)) e).
  { intros (m' & v & ts & He' & Hv & Hit & Hts).
    rewrite He in He'. injection He' as <-.
    destruct Hm as [Hm|Hm]; rewrite Hm in Hv; [done|].
    injection Hv as <-. simpl in Hit. by injection Hit as <-. }
  split; [intros w' Hw' Hin|intros d Hd Hin]; apply Hno;
    [by eapply Hupd|by eapply Hgen].
Qed.

(** C9. A page whose front matter maps [tags] to [None] (a bare [tags:]
    line) is treated as a page without tags by both builders: the loop
    body of [update_tags_dict] counts the page and leaves the world as it
    is, the loop body of [generate_tags_file] leaves the index as it is,
    neither raises, and the page is in no bucket of either index.  Both
    builders return on every store whose pages have [tags] absent, [None]
    or a list of hashable values (and whose years are integers, for the
    sort of [generate_tags_file]). *)
Theorem null_tags_skipped
  (config : mkdocs_config) (w : world) (e : nat) (m : gmap string pyval) :
  metadata (self w) !! e = Some (Some m) ->
  m !! "tags" = Some PNone ->
  (forall counts,
     update_tags_dict_page counts e w = (w, Returned (S counts.1, counts.2))) /\
  (forall d, exists w', tag_dict_page d e w = (w', Returned d)) /\
  (forall w' T, update_tags_dict config w = (w', Returned tt) ->
     e ∉ bucket (tags_dict (self w')) T) /\
  (forall d T, generated_index w d -> e ∉ bucket d T) /\
  tags_ok (Some m) /\
  (Forall tags_ok (metadata (self w)) ->
     exists w', update_tags_dict config w = (w', Returned tt)) /\
  (Forall tags_ok (metadata (self w)) ->
   Forall (fun o => is_Some (year_of o)) (metadata (self w)) ->
     exists d, generated_index w d).
Proof.
  intros He Hm.
  assert (Hne : m <> ∅) by (intros ->; by rewrite lookup_empty in Hm).
  assert (Hno : ~ tagged (metadata (self w)) e).
  { intros (m' & v & ts & He' & Hv & Hit & Hts).
    rewrite He in He'. injection He' as <-.
    rewrite Hm in Hv. by injection Hv as <-. }
  split_and!.
  - intros [n p]. unfold update_tags_dict_page, deref, gets.
    rewrite bind_run, He. simpl. rewrite bool_decide_eq_false_2 by done.
    unfold get_tags. by rewrite Hm.
  - intros d. unfold tag_dict_page, deref. rewrite bind_run. unfold gets at 1.
    rewrite He. simpl. rewrite bool_decide_eq_false_2 by done.
    rewrite bind_run. unfold when, set_untitled, modify, ret.
    destruct (bool_decide (m !! "title" = None)); rewrite bind_run;
      unfold gets; simpl; rewrite ?list_lookup_alter_eq, He; simpl;
      unfold get_tags; rewrite ?lookup_insert_ne by done; rewrite Hm; simpl;
      eauto.
  - intros w' T Hw' Hin. apply Hno. by eapply update_bucket_tagged.
  - intros d T Hd Hin. apply Hno. by eapply generated_bucket_tagged.
  - unfold tags_ok, tags_field. simpl. by rewrite Hm.
  - apply update_tags_dict_returns.
  - apply generated_index_exists.
Qed.

(** C6 (as amended). [generate_tags_file] sorts the pages by [year] in
    ascending order before it builds its index, pages with equal years
    staying in the order of [self.metadata], and a page without [year]
    counts as year 5000: it comes after every page whose year is below 5000
    and before every page whose year is above 5000.  The buckets of the
    generated index list their pages in that order.  (Years are integers
    here; a placeholder for a file without front matter counts as year 0.) *)
Theorem year_sort_order (ms : list (option (gmap string pyval))) :
  Forall (fun o => is_Some (year_of o)) ms ->
  exists l,
    sorted_meta ms = Returned l /\
    l ≡ₚ seq 0 (length ms) /\
    StronglySorted (year_le ms) l /\
    (forall k, filter (fun e => year_of (mjoin (ms !! e)) = Some k) l
               = filter (fun e => year_of (mjoin (ms !! e)) = Some k)
                        (seq 0 (length ms))) /\
    (forall j mj,
       ms !! j = Some (Some mj) -> mj <> ∅ -> mj !! "year" = None ->
       year_of (Some mj) = Some 5000%Z /\
       forall i y,
         i < length ms -> year_of (mjoin (ms !! i)) = Some y ->
         ((y < 5000)%Z -> before l i j) /\ ((5000 < y)%Z -> before l j i)) /\
    (forall w d,
       metadata (self w) = ms -> generated_index w d ->
       forall T, bucket d T = expected_bucket ms T l).
Proof.
  intros Hint.
  destruct (sorted_meta_spec ms Hint) as (l & Hl & Hp & Hs & Hf).
  exists l. split_and!; try done.
  - intros j mj Hj Hne Hyear.
    assert (Hyj : year_of (Some mj) = Some 5000%Z).
    { by rewrite year_of_page, Hyear. }
    split; [done|]. intros i y Hi Hy.
    assert (Hjl : j ∈ l) by (rewrite Hp; by eapply lookup_page_ref).
    assert (Hil : i ∈ l) by (rewrite Hp; apply elem_of_seq; lia).
    split; intros Hlt.
    + apply (sorted_before (year_le ms)); try done.
      * intros ->. rewrite Hj in Hy. simpl in Hy. rewrite Hyj in Hy.
        injection Hy as <-. lia.
      * intros (a & b & Ha & Hb & Hab). rewrite Hj in Ha. simpl in Ha.
        rewrite Hyj in Ha. rewrite Hy in Hb.
        injection Ha as <-. injection Hb as <-. lia.
    + apply (sorted_before (year_le ms)); try done.
      * intros ->. rewrite Hj in Hy. simpl in Hy. rewrite Hyj in Hy.
        injection Hy as <-. lia.
      * intros (a & b & Ha & Hb & Hab). rewrite Hj in Hb. simpl in Hb.
        rewrite Hyj in Hb. rewrite Hy in Ha.
        injection Ha as <-. injection Hb as <-. lia.
  - intros w d <- (l' & Hl' & _ & Hb)%generated_index_spec.
    rewrite Hl in Hl'. by injection Hl' as <-.
Qed.

(** ** Rendering *)

Lemma decorate_keys {X} (key : X -> outcome pyval) (xs : list X) dxs :
  decorate key xs = Returned dxs ->
  Forall (fun x => exists k, key x = Returned k) xs.
Proof.
  revert dxs. induction xs as [|x xs IH]; intros dxs; simpl; [by constructor|].
  destruct (key x) as [k|] eqn:E; [|done].
  destruct (decorate key xs) as [r|]; [|done].
  intros _. constructor; [by exists k|by eapply IH].
Qed.

Lemma py_sorted_lower_key_strings (data items : tag_index) :
  py_sorted lower_key data = Returned items ->
  Forall (fun t => is_Some (as_str t.1)) data.
Proof.
  unfold py_sorted.
  destruct (decorate lower_key data) as [dxs|] eqn:E; [|done].
  intros _. eapply Forall_impl; [by eapply decorate_keys|].
  intros [tag es] [k Hk]. unfold lower_key in Hk. simpl in *.
  by destruct tag.
Qed.

Section RenderFacts.

Variable template : Type.
Variable get_template : option string -> outcome template.
Variable render :
  template -> list (pyval * list (gmap string pyval)) -> outcome string.

Lemma generate_tags_page_world (data : tag_index) (w : world) :
  (generate_tags_page template get_template render data w).1 = w.
Proof.
  unfold generate_tags_page, bind, gets, lift.
  destruct (get_template _); [|done].
  destruct (py_sorted lower_key data); [|done].
  by destruct (render _ _).
Qed.

(** The index [generate_tags_file] renders is the one [generated_index]
    describes, and the text it writes is the rendering of that index. *)
Lemma generate_tags_file_index path_join (w w' : world) :
  generate_tags_file path_join template get_template render w
  = (w', Returned tt) ->
  exists d w1 t,
    generated_index w d /\
    generate_tags_page template get_template render d w1 = (w1, Returned t) /\
    written w'
    = written w
      ++ [(path_join (tags_folder (self w)) (tags_filename (self w)), t)].
Proof.
  unfold generate_tags_file. rewrite bind_gets, bind_run. unfold lift at 1.
  destruct (sorted_meta (metadata (self w))) as [l|] eqn:Hl; [|done].
  rewrite bind_run.
  destruct (for_each l tag_dict_page [] w) as [w1 [d|]] eqn:Hloop; [|done].
  rewrite bind_run.
  pose proof (generate_tags_page_world d w1) as Hw.
  destruct (generate_tags_page template get_template render d w1)
    as [w2 [t|]] eqn:Hpage; [|done].
  simpl in Hw. subst w2.
  unfold bind, gets, modify. intros [= <-].
  exists d, w1, t. split_and!; [by exists l, w1|done|].
  apply tag_dict_loop_spec in Hloop as (ms' & -> & _). done.
Qed.

(** C5. The renderer hands the template the (tag, pages) pairs of the
    index sorted in ascending order of the lower-cased tag; the pairs
    are those of the index, so each tag keeps its casing; and tags that
    are equal once lower-cased stay in the order in which the index
    holds them.  (The sort returns when every tag is a string; [lower]
    raises [AttributeError] on any other tag.) *)
Theorem rendered_tags_sorted (data : tag_index) :
  (Forall (fun t => is_Some (as_str t.1)) data ->
     exists items, py_sorted lower_key data = Returned items) /\
  (forall items,
     py_sorted lower_key data = Returned items ->
     (forall w templ,
        get_template (tags_template (self w)) = Returned templ ->
        generate_tags_page template get_template render data w
        = (w, render templ (with_pages (metadata (self w)) items))) /\
     items ≡ₚ data /\
     StronglySorted
       (fun a b => String.leb (lower_name a) (lower_name b) = true) items /\
     forall k, filter (fun t => lower_name t = k) items
               = filter (fun t => lower_name t = k) data).
Proof.
  split.
  { intros (items & E & _)%sorted_items_spec. by exists items. }
  intros items E.
  destruct (sorted_items_spec data) as (items' & E' & Hp & Hs & Hf).
  { by eapply py_sorted_lower_key_strings. }
  rewrite E in E'. injection E' as <-.
  split_and!; try done.
  intros w templ Ht.
  unfold generate_tags_page, bind, gets, lift. by rewrite Ht, E.
Qed.

End RenderFacts.

(** ** The page hook *)

(** C10. [on_page_markdown] sets [all_tags] in the page's metadata to the
    plugin's tag index and changes nothing else: every other key of the
    metadata, the page's markdown and its file are as before, and the hook
    returns nothing, so the host keeps the markdown it passed. *)
Theorem on_page_markdown_frame
  (p : TagsPlugin) (markdown : string) (page : Page) (config : mkdocs_config)
  (fs : list File) :
  let result := (on_page_markdown p markdown page config fs).1 in
  let page' := (on_page_markdown p markdown page config fs).2 in
  result = None /\
  page_meta page' !! "all_tags" = Some (AllTags (tags_dict p)) /\
  delete "all_tags" (page_meta page') = delete "all_tags" (page_meta page) /\
  page_markdown page' = page_markdown page /\
  page_file page' = page_file page.
Proof.
  simpl. split_and!; try done.
  - by rewrite lookup_insert_eq.
  - by rewrite delete_insert_eq.
Qed.

(** ** Front matter extraction *)

Lemma delimiter_count_zero (f : list string) :
  delimiter_count f = 0 -> Forall (fun line => is_delimiter line = false) f.
Proof.
  unfold delimiter_count. induction f as [|line f IH]; [done|].
  rewrite filter_cons. destruct (is_delimiter line) eqn:E.
  - rewrite decide_True by done. done.
  - rewrite decide_False by done. intros ?%IH. by constructor.
Qed.

(** Below the second delimiter the loop runs to the end of a file without
    delimiters, capturing every line once it is past the first one. *)
Lemma extract_yaml_loop_no_delimiter (f : list string) (c : nat)
  (result : list string) :
  c < 2 ->
  Forall (fun line => is_delimiter line = false) f ->
  extract_yaml_loop f c result
  = (if c =? 1 then result ++ f else result, None).
Proof.
  intros Hc Hf. revert result.
  induction Hf as [|line f Hline _ IH]; intros result; simpl.
  - destruct (c =? 1); by rewrite ?app_nil_r.
  - unfold is_delimiter in Hline. rewrite Hline.
    assert ((c =? 2) = false) as -> by (apply Nat.eqb_neq; lia). simpl.
    rewrite IH. destruct (c =? 1); [by rewrite <- app_assoc|done].
Qed.

Lemma extract_yaml_loop_first_delimiter (pre post : list string) (d : string) :
  Forall (fun line => is_delimiter line = false) pre ->
  is_delimiter d = true ->
  Forall (fun line => is_delimiter line = false) post ->
  extract_yaml_loop (pre ++ d :: post) 0 [] = (post, None).
Proof.
  intros Hpre Hd Hpost.
  induction Hpre as [|line pre Hline _ IH]; simpl.
  - unfold is_delimiter in Hd. rewrite Hd.
    by rewrite extract_yaml_loop_no_delimiter by (done || lia).
  - unfold is_delimiter in Hline. by rewrite Hline.
Qed.

Section ExtractorFacts.

Variable yaml_load : string -> yaml_doc.
Variable read_file : string -> string -> option (list string).

Lemma get_metadata_none_iff (name path : string) (f : list string) :
  read_file path name = Some f ->
  get_metadata yaml_load read_file name path = Returned None
  <-> (extract_yaml f).1 = "".
Proof.
  intros Hf. unfold get_metadata. rewrite Hf.
  destruct (extract_yaml f) as [metadata title]. simpl.
  destruct metadata as [|a s]; simpl; [done|].
  destruct (yaml_load _) as [|m|v]; try done.
  by destruct (<["filename":=PStr name]> m !! "title").
Qed.

(** C3 (as amended). A file in which no line strips to [---] gives no
    metadata and no error.  With one such line every line after it is
    captured, and the extractor gives no metadata only when the captured
    text is empty; otherwise the text goes to the YAML loader like
    terminated front matter. *)
Theorem no_delimiter_no_metadata (name path : string) (f : list string) :
  read_file path name = Some f ->
  (delimiter_count f = 0 ->
     get_metadata yaml_load read_file name path = Returned None) /\
  (forall pre d post,
     f = pre ++ d :: post -> is_delimiter d = true ->
     delimiter_count pre = 0 -> delimiter_count post = 0 ->
     extract_yaml f = (String.concat "" post, None) /\
     (get_metadata yaml_load read_file name path = Returned None
      <-> String.concat "" post = "")).
Proof.
  intros Hf. split.
  - intros Hz%delimiter_count_zero.
    apply (get_metadata_none_iff _ _ _ Hf). unfold extract_yaml.
    by rewrite extract_yaml_loop_no_delimiter by (done || lia).
  - intros pre d post -> Hd Hpre%delimiter_count_zero Hpost%delimiter_count_zero.
    assert (E : extract_yaml (pre ++ d :: post) = (String.concat "" post, None)).
    { unfold extract_yaml. by rewrite extract_yaml_loop_first_delimiter. }
    split; [done|]. rewrite (get_metadata_none_iff _ _ _ Hf). by rewrite E.
Qed.

End ExtractorFacts.

Lemma get_map_chars (g : ascii -> ascii) (s : string) (i : nat) :
  String.get i (PyStr.map_chars g s) = g <$> String.get i s.
Proof.
  revert i. induction s as [|c s IH]; intros [|i]; simpl; by try apply IH.
Qed.

Lemma get_derived_title (name : string) (i : nat) :
  String.get i (PyStr.replace_char "_" " " (PyStr.replace_char "-" " " name))
  = dash_to_space <$> String.get i name.
Proof.
  unfold PyStr.replace_char. rewrite !get_map_chars.
  destruct (String.get i name) as [c|]; simpl; [|done].
  f_equal. unfold dash_to_space.
  destruct (Ascii.eqb c "-") eqn:E1; simpl; [done|].
  by destruct (Ascii.eqb c "_").
Qed.

Section TitleFacts.

Variable yaml_load : string -> yaml_doc.
Variable read_file : string -> string -> option (list string).

(** C4 (as amended). When the parsed front matter has no [title] key,
    the title is the heading captured after the closing delimiter if
    there is one and it is not empty; otherwise it is built from the
    file name as passed (extension included): every [-] and [_] becomes
    a space, and the result is capitalized only if it is all
    lower-case.  So [foo-bar.md] with front matter, no [title] and no
    heading gets the title "Foo bar.md". *)
Theorem default_title
  (name path : string) (f : list string) (text : string)
  (candidate : option string) (meta : gmap string pyval) :
  read_file path name = Some f ->
  extract_yaml f = (text, candidate) ->
  text <> "" ->
  yaml_load text = YamlMapping meta ->
  meta !! "title" = None ->
  let derived :=
    PyStr.replace_char "_" " " (PyStr.replace_char "-" " " name) in
  let title :=
    match candidate with
    | Some t => if PyStr.truthy t then t else title_of_name name
    | None => title_of_name name
    end in
  get_metadata yaml_load read_file name path
  = Returned
      (Some (<["title" := PStr title]> (<["filename" := PStr name]> meta))) /\
  title_of_name name
  = (if String.eqb (PyStr.lower derived) derived
     then PyStr.capitalize derived else derived) /\
  (forall i, String.get i derived = dash_to_space <$> String.get i name) /\
  title_of_name "foo-bar.md" = "Foo bar.md".
Proof.
  intros Hf He Ht Hy Hm. simpl. split_and!; [|done|apply get_derived_title|done].
  unfold get_metadata. rewrite Hf, He.
  destruct text as [|a s]; [done|]. simpl. rewrite Hy.
  rewrite lookup_insert_ne, Hm by done.
  destruct candidate as [[|c t]|]; done.
Qed.

End TitleFacts.

(** ** What a hook leaves alone *)

Lemma keeps_ret {A} P (a : A) : keeps P (ret a).
Proof. by intros w. Qed.

Lemma keeps_lift {A} P (o : outcome A) : keeps P (lift o).
Proof. by intros w. Qed.

Lemma keeps_gets {A} P (f : world -> A) : keeps P (gets f).
Proof. by intros w. Qed.

Lemma keeps_modify P (f : world -> world) :
  (forall w, P w -> P (f w)) -> keeps P (modify f).
Proof. intros Hf w. apply Hf. Qed.

Lemma keeps_bind {A B} P (c : M A) (k : A -> M B) :
  keeps P c -> (forall a, keeps P (k a)) -> keeps P (bind c k).
Proof.
  intros Hc Hk w Hw. apply bind_keeps; [by apply Hc|]. intros a. apply Hk.
Qed.

Lemma keeps_when P (b : bool) (c : M unit) : keeps P c -> keeps P (when b c).
Proof. intros Hc. destruct b; [done|apply keeps_ret]. Qed.

Lemma keeps_for_each {X A} P (body : A -> X -> M A) (xs : list X) (acc : A) :
  (forall acc x, keeps P (body acc x)) -> keeps P (for_each xs body acc).
Proof. intros Hbody w. by apply for_each_keeps. Qed.

(** Steps through a computation built from the combinators above, leaving
    the side conditions of [modify]. *)
Ltac keeps_step :=
  lazymatch goal with
  | |- keeps _ ?c =>
      lazymatch c with
      | ret _ => apply keeps_ret
      | lift _ => apply keeps_lift
      | gets _ => apply keeps_gets
      | bind _ _ => apply keeps_bind
      | when _ _ => apply keeps_when
      | for_each _ _ _ => apply keeps_for_each
      | modify _ => apply keeps_modify
      | (if ?b then _ else _) => destruct b
      | (match ?x with _ => _ end) => destruct x
      end
  | |- forall _, _ => intro
  end.

Ltac keeps_auto := repeat keeps_step.

Lemma update_tags_dict_keeps (P : world -> Prop) (config : mkdocs_config) :
  (forall d w, P w -> P (with_self (set_tags_dict d) w)) ->
  (forall msg w, P w -> P (with_stdout (fun out => out ++ [msg]) w)) ->
  keeps P (update_tags_dict config).
Proof.
  intros Hd Hout.
  unfold update_tags_dict, update_tags_dict_page, tags_dict_append, refs,
    deref, nprint, vprint.
  keeps_auto; auto.
Qed.

Section HookFacts.

Variable yaml_load : string -> yaml_doc.
Variable read_file : string -> string -> option (list string).
Variable folder_exists : string -> bool.
Variable path_join : string -> string -> string.
Variable template : Type.
Variable get_template : option string -> outcome template.
Variable render :
  template -> list (pyval * list (gmap string pyval)) -> outcome string.

Lemma on_files_skips (config : mkdocs_config) fs wr :
  keeps (untouched fs wr)
    (on_files yaml_load read_file path_join template get_template render
       config).
Proof.
  unfold on_files. apply keeps_bind; [apply keeps_gets|]. intros fs0.
  apply keeps_bind.
  { unfold vprint. keeps_auto; auto. }
  intros _. apply keeps_bind.
  { apply update_tags_dict_keeps; auto. }
  intros _ w Hw. unfold bind, gets. simpl.
  pose proof Hw as (_ & _ & ->). done.
Qed.

Lemma on_config_returns (cfg : plugin_config) (config : mkdocs_config) (w : world) :
  cfg_tags_target_folder cfg <> "" \/ is_Some (tags_target_folder (self w)) ->
  exists w1, on_config folder_exists cfg config w = (w1, Returned tt).
Proof.
  intros Htarget.
  unfold on_config, bind, gets, modify, lift, path_or, when, nprint, ret.
  simpl.
  assert (exists v,
            (if PyStr.truthy (cfg_tags_target_folder cfg)
             then Returned (cfg_tags_target_folder cfg)
             else match tags_target_folder (self w) with
                  | Some s => Returned s
                  | None => Raised TypeError
                  end) = Returned v) as [v ->].
  { destruct (cfg_tags_target_folder cfg) as [|a s]; simpl.
    - destruct Htarget as [?|[v ->]]; [congruence|eexists; reflexivity].
    - eexists; reflexivity. }
  destruct (PyStr.truthy (cfg_tags_filename cfg));
    destruct (PyStr.truthy (cfg_tags_folder cfg)); simpl;
    repeat (match goal with
            | |- context [match cfg_tags_template cfg with _ => _ end] =>
                destruct (cfg_tags_template cfg)
            | |- context [if ?b then _ else _] => destruct b
            end; simpl);
    eexists; reflexivity.
Qed.

Lemma on_config_warns (cfg : plugin_config) (config : mkdocs_config)
  (w w1 : world) :
  cfg_tags_add_target cfg = true ->
  cfg_tags_create_target cfg = false ->
  on_config folder_exists cfg config w = (w1, Returned tt) ->
  stdout w1 = stdout w ++ [WARNING] /\
  untouched (files w) (written w) w1.
Proof.
  intros Hadd Hcreate.
  unfold on_config, bind, gets, modify, lift, path_or, when, nprint, ret.
  simpl. rewrite Hadd, Hcreate.
  destruct (PyStr.truthy (cfg_tags_filename cfg));
    destruct (PyStr.truthy (cfg_tags_folder cfg)); simpl;
    (destruct (PyStr.truthy (cfg_tags_target_folder cfg));
     [|destruct (tags_target_folder (self w)); [|done]]); simpl;
    repeat (match goal with
            | |- context [match cfg_tags_template cfg with _ => _ end] =>
                destruct (cfg_tags_template cfg)
            | |- context [if ?b then _ else _] => destruct b
            end; simpl);
    by intros [= <-].
Qed.

(** C7. With [tags_add_target] on and [tags_create_target] off,
    [on_config] prints the warning before it returns, and [on_files] after
    it, however it ends, has written no file and has added no file to the
    host's collection.  ([on_config] returns unless the configured
    [tags_target_folder] is empty with none set before: [Path(None)] then
    raises [TypeError] ahead of the warning.) *)
Theorem add_without_create_warns_and_skips
  (cfg : plugin_config) (config : mkdocs_config) (w : world) :
  cfg_tags_add_target cfg = true ->
  cfg_tags_create_target cfg = false ->
  (cfg_tags_target_folder cfg <> "" \/ is_Some (tags_target_folder (self w)) ->
     exists w1, on_config folder_exists cfg config w = (w1, Returned tt)) /\
  (forall w1,
     on_config folder_exists cfg config w = (w1, Returned tt) ->
     stdout w1 = stdout w ++ [WARNING] /\
     let w2 :=
       (on_files yaml_load read_file path_join template get_template render
          config w1).1 in
     written w2 = written w /\ files w2 = files w).
Proof.
  intros Hadd Hcreate. split; [apply on_config_returns|].
  intros w1 Hw1.
  destruct (on_config_warns cfg config w w1 Hadd Hcreate Hw1) as [Hout Hun].
  split; [done|].
  by destruct (on_files_skips config _ _ w1 Hun) as (? & ? & _).
Qed.

End HookFacts.

(** ** Two builds of the same sources *)

Lemma oblivious_ret {A} (a : A) : oblivious (ret a).
Proof. done. Qed.

Lemma oblivious_lift {A} (o : outcome A) : oblivious (lift o).
Proof. done. Qed.

Lemma oblivious_gets {A} (f : world -> A) :
  (forall g w, f (with_made_dirs g w) = f w) -> oblivious (gets f).
Proof. intros Hf g w. unfold gets. simpl. by rewrite Hf. Qed.

Lemma oblivious_modify (f : world -> world) :
  (forall g w, f (with_made_dirs g w) = with_made_dirs g (f w)) ->
  oblivious (modify f).
Proof. intros Hf g w. unfold modify. simpl. by rewrite Hf. Qed.

Lemma oblivious_bind {A B} (c : M A) (k : A -> M B) :
  oblivious c -> (forall a, oblivious (k a)) -> oblivious (bind c k).
Proof.
  intros Hc Hk g w. rewrite !bind_run, Hc.
  destruct (c w) as [w1 [a|e]]; simpl; [apply Hk|done].
Qed.

Lemma oblivious_when (b : bool) (c : M unit) :
  oblivious c -> oblivious (when b c).
Proof. intros Hc. destruct b; [done|apply oblivious_ret]. Qed.

Lemma oblivious_for_each {X A} (body : A -> X -> M A) (xs : list X) (acc : A) :
  (forall acc x, oblivious (body acc x)) -> oblivious (for_each xs body acc).
Proof.
  intros Hbody. revert acc. induction xs as [|x xs IH]; intros acc; simpl.
  - apply oblivious_ret.
  - apply oblivious_bind; [apply Hbody|apply IH].
Qed.

Ltac oblivious_step :=
  lazymatch goal with
  | |- oblivious ?c =>
      lazymatch c with
      | ret _ => apply oblivious_ret
      | lift _ => apply oblivious_lift
      | gets _ => apply oblivious_gets; reflexivity
      | bind _ _ => apply oblivious_bind
      | when _ _ => apply oblivious_when
      | for_each _ _ _ => apply oblivious_for_each
      | modify _ => apply oblivious_modify; reflexivity
      | (if ?b then _ else _) => destruct b
      | (match ?x with _ => _ end) => destruct x
      end
  | |- forall _, _ => intro
  end.

Ltac oblivious_auto := repeat oblivious_step.

Lemma for_each_ext_in {X A} (body body' : A -> X -> M A) (xs : list X)
  (acc : A) (w : world) :
  (forall acc x w, x ∈ xs -> body acc x w = body' acc x w) ->
  for_each xs body acc w = for_each xs body' acc w.
Proof.
  revert acc w. induction xs as [|x xs IH]; intros acc w Hext; [done|].
  simpl. rewrite !bind_run, Hext by by left.
  destruct (body' acc x w) as [w1 [a|e]]; [|done].
  apply IH. intros ????. apply Hext. by right.
Qed.

Lemma on_config_keeps_files folder_exists (cfg : plugin_config)
  (config : mkdocs_config) (fs : list File) :
  keeps (fun w => files w = fs) (on_config folder_exists cfg config).
Proof. unfold on_config, nprint. keeps_auto; auto. Qed.

Section BuildFacts.

Variable yaml_load : string -> yaml_doc.
Variable path_join : string -> string -> string.
Variable template : Type.
Variable get_template : option string -> outcome template.
Variable render :
  template -> list (pyval * list (gmap string pyval)) -> outcome string.

Lemma on_files_oblivious read_file (config : mkdocs_config) :
  oblivious
    (on_files yaml_load read_file path_join template get_template render
       config).
Proof.
  unfold on_files, update_tags_dict, update_tags_dict_page,
    tags_dict_append, generate_tags_file, generate_tags_page, tag_dict_page,
    set_untitled, refs, deref, nprint, vprint.
  oblivious_auto.
Qed.

(** [on_files] reads the source tree only at the markdown files of the
    host's collection. *)
Lemma on_files_ext read1 read2 (config : mkdocs_config) (w : world) :
  (forall f, f ∈ files w -> PyStr.endswith ".md" (src_path f) = true ->
     read1 (docs_dir config) (src_path f)
     = read2 (docs_dir config) (src_path f)) ->
  on_files yaml_load read1 path_join template get_template render config w
  = on_files yaml_load read2 path_join template get_template render config w.
Proof.
  intros Hagree. unfold on_files. rewrite !bind_gets.
  apply bind_ext; [|done]. apply for_each_ext_in.
  intros [] f w' Hf. destruct (PyStr.endswith ".md" (src_path f)) eqn:E; [|done].
  unfold get_metadata. by rewrite (Hagree f Hf E).
Qed.

Lemma on_config_folders present1 present2 (cfg : plugin_config)
  (config : mkdocs_config) (w : world) :
  on_config present2 cfg config w
  = (with_made_dirs
       (fun _ => made_dirs (on_config present2 cfg config w).1)
       (on_config present1 cfg config w).1,
     (on_config present1 cfg config w).2).
Proof.
  unfold on_config, bind, gets, modify, lift, path_or, when, nprint, ret.
  simpl.
  destruct (PyStr.truthy (cfg_tags_filename cfg)); simpl;
    destruct (PyStr.truthy (cfg_tags_folder cfg)); simpl;
    destruct (PyStr.truthy (cfg_tags_target_folder cfg)); simpl;
    try (destruct (tags_target_folder (self w)); simpl; [|reflexivity]);
    repeat match goal with
           | |- context [present1 ?s] => destruct (present1 s); simpl
           | |- context [present2 ?s] => destruct (present2 s); simpl
           | |- context [bool_decide ?P] => destruct (bool_decide P); simpl
           end;
    destruct (cfg_tags_template cfg) as [t|]; simpl;
    try destruct (PyStr.truthy t); simpl;
    destruct (cfg_tags_add_target cfg), (cfg_tags_create_target cfg);
    reflexivity.
Qed.

(** C8. Two builds with the same configuration over the same host files
    whose markdown sources read the same, each on a fresh plugin object,
    end the same way and write the same text to the same path, whatever
    else differs on disk (such as the generated folder being there
    already the second time).  They also print the same and leave the same
    plugin state and file collection.  (The YAML loader and the template
    engine are the same functions of their inputs in both builds.) *)
Theorem same_sources_same_output
  read1 read2 present1 present2
  (cfg : plugin_config) (config : mkdocs_config) (fs : list File) :
  (forall f, f ∈ fs -> PyStr.endswith ".md" (src_path f) = true ->
     read1 (docs_dir config) (src_path f)
     = read2 (docs_dir config) (src_path f)) ->
  let run1 :=
    build yaml_load read1 present1 path_join template get_template render
      cfg config fs in
  let run2 :=
    build yaml_load read2 present2 path_join template get_template render
      cfg config fs in
  written run1.1 = written run2.1 /\
  run1.2 = run2.2 /\
  stdout run1.1 = stdout run2.1 /\
  files run1.1 = files run2.1 /\
  self run1.1 = self run2.1.
Proof.
  intros Hagree. unfold build. simpl. rewrite !bind_run.
  rewrite (on_config_folders present1 present2).
  assert (Hfs : files (on_config present1 cfg config (start fs)).1 = fs).
  { by apply (on_config_keeps_files present1 cfg config fs). }
  destruct (on_config present1 cfg config (start fs)) as [w1 [[]|e]];
    simpl in *; [|done].
  rewrite on_files_oblivious. rewrite <- (on_files_ext read1 read2).
  - done.
  - by rewrite Hfs.
Qed.

End BuildFacts.

(** * Examples *)

Example extract_yaml_example :
  extract_yaml ["intro" ++ LF; "---" ++ LF; "tags: [a, B]" ++ LF; " --- " ++ LF;
                LF; "# My Page" ++ LF; "text"]%string
  = (("tags: [a, B]" ++ LF)%string, Some "My Page").
Proof. reflexivity. Qed.

Example title_of_name_example :
  title_of_name "my_first-Post.md" = "my first Post.md" /\
  title_of_name "my_first-post.md" = "My first post.md".
Proof. split; reflexivity. Qed.

Example update_tags_dict_example :
  tags_dict (self (update_tags_dict example_config example_world).1)
  = [(PStr "a", [0; 0]); (PStr "B", [0; 2])] /\
  stdout (update_tags_dict example_config example_world).1 = [MsgSummary 5 2 2].
Proof. split; vm_compute; reflexivity. Qed.

Example sorted_meta_example :
  sorted_meta (metadata (self example_world)) = Returned [1; 5; 2; 3; 4; 0].
Proof. vm_compute. reflexivity. Qed.

Example build_example :
  let run := build example_yaml example_tree (fun _ => false) example_join
               unit (fun _ => Returned tt) example_render
               default_config example_config example_files in
  run.2 = Returned tt /\
  written run.1 = [("generated/tags.md", "x:Foo bar.md")] /\
  made_dirs run.1 = ["generated"] /\
  stdout run.1 = [MsgSummary 1 1 1] /\
  map src_path (files run.1)
  = ["foo-bar.md"; "notes.txt"; "plain.md"; "tags.md"].
Proof. vm_compute. repeat split. Qed.

(** * The claims on the examples *)

(** Page 0 lists the tag [a] twice and is twice in its bucket, in both
    indices. *)
Lemma bucket_counts_example :
  let w' := (update_tags_dict example_config example_world).1 in
  update_tags_dict example_config example_world = (w', Returned tt) /\
  count_occ Nat.eq_dec (bucket (tags_dict (self w')) (PStr "a")) 0 = 2 /\
  forall d, generated_index example_world d ->
            count_occ Nat.eq_dec (bucket d (PStr "a")) 0 = 2.
Proof.
  pose proof (bucket_counts_tag_occurrences example_config example_world 0
                page_a [PStr "a"; PStr "B"; PStr "a"] (PStr "a")
                eq_refl eq_refl) as [Hupd Hgen].
  split_and!.
  - vm_compute. reflexivity.
  - apply Hupd. vm_compute. reflexivity.
  - exact Hgen.
Defined.

(** Page 3 has no [tags] key and is in no bucket. *)
Lemma untagged_example :
  let w' := (update_tags_dict example_config example_world).1 in
  update_tags_dict example_config example_world = (w', Returned tt) /\
  (3 ∉ bucket (tags_dict (self w')) (PStr "B")) /\
  forall d, generated_index example_world d -> 3 ∉ bucket d (PStr "B").
Proof.
  pose proof (untagged_pages_in_no_bucket example_config example_world 3
                (PStr "B")) as [H _].
  destruct (H page_c eq_refl (or_introl eq_refl)) as [Hupd Hgen].
  split_and!.
  - vm_compute. reflexivity.
  - apply Hupd. vm_compute. reflexivity.
  - exact Hgen.
Defined.

(** Page 4 has [tags: null]; both builders return on the example store. *)
Lemma null_tags_example :
  (forall counts,
     update_tags_dict_page counts 4 example_world
     = (example_world, Returned (S counts.1, counts.2))) /\
  (forall d, exists w', tag_dict_page d 4 example_world = (w', Returned d)) /\
  (forall T w',
     update_tags_dict example_config example_world = (w', Returned tt) ->
     4 ∉ bucket (tags_dict (self w')) T) /\
  (forall T d, generated_index example_world d -> 4 ∉ bucket d T) /\
  (exists w', update_tags_dict example_config example_world = (w', Returned tt)) /\
  (exists d, generated_index example_world d).
Proof.
  destruct (null_tags_skipped example_config example_world 4 page_d
              eq_refl eq_refl)
    as (Hupd & Hgen & Hnb & Hng & _ & Hreturns & Hindex).
  assert (Hok : Forall tags_ok (metadata (self example_world))).
  { repeat constructor. }
  split_and!; [exact Hupd|exact Hgen|intros T w'; apply Hnb
              |intros T d; apply Hng|by apply Hreturns|].
  apply Hindex; [exact Hok|].
  repeat constructor; eexists; vm_compute; reflexivity.
Defined.

(** C3, counterexample: [draft.md] opens its front matter and never closes
    it, so its delimiter counter ends at 1; yet the extractor returns
    metadata for it, with the tags of the unterminated block. *)
Lemma unterminated_front_matter_is_read :
  (delimiter_count <$> example_tree "docs" "draft.md") = Some 1 /\
  get_metadata example_yaml example_tree "draft.md" "docs" <> Returned None /\
  match get_metadata example_yaml example_tree "draft.md" "docs" with
  | Returned (Some m) => m !! "tags"
  | _ => None
  end = Some (PList [PStr "x"]).
Proof. split_and!; [reflexivity|by vm_compute|reflexivity]. Qed.

Lemma no_delimiter_example :
  get_metadata example_yaml example_tree "plain.md" "docs" = Returned None /\
  (get_metadata example_yaml example_tree "draft.md" "docs" = Returned None
   <-> String.concat "" ["tags: [x]" ++ LF]%string = "").
Proof.
  pose proof (no_delimiter_no_metadata example_yaml example_tree
                "plain.md" "docs" ["just text" ++ LF]%string eq_refl) as [H0 _].
  pose proof (no_delimiter_no_metadata example_yaml example_tree
                "draft.md" "docs" ["---" ++ LF; "tags: [x]" ++ LF]%string eq_refl)
    as [_ H1].
  split.
  - apply H0. reflexivity.
  - apply (H1 [] ("---" ++ LF)%string ["tags: [x]" ++ LF]%string);
      reflexivity.
Defined.

(** C4, counterexample: [foo-bar.md], with front matter, no [title] and no
    heading, gets the title "Foo bar.md", not "Foo bar". *)
Lemma foo_bar_title_keeps_extension :
  match get_metadata example_yaml example_tree "foo-bar.md" "docs" with
  | Returned (Some m) => m !! "title"
  | _ => None
  end = Some (PStr "Foo bar.md").
Proof. reflexivity. Qed.

Lemma default_title_example :
  get_metadata example_yaml example_tree "foo-bar.md" "docs"
  = Returned (Some (<["title" := PStr "Foo bar.md"]>
                      (<["filename" := PStr "foo-bar.md"]>
                         {[ "tags" := PList [PStr "x"] ]}))).
Proof.
  apply (default_title example_yaml example_tree "foo-bar.md" "docs"
           ["---" ++ LF; "tags: [x]" ++ LF; "---" ++ LF; "content"]%string
           ("tags: [x]" ++ LF)%string None {[ "tags" := PList [PStr "x"] ]});
    [reflexivity|reflexivity|discriminate|reflexivity|reflexivity].
Defined.

(** Three tags, two of them equal once lower-cased. *)
Lemma rendered_tags_example :
  let data := [(PStr "b", [0]); (PStr "B", [1]); (PStr "a", [0])] in
  let items := [(PStr "a", [0]); (PStr "b", [0]); (PStr "B", [1])] in
  py_sorted lower_key data = Returned items /\
  StronglySorted
    (fun a b => String.leb (lower_name a) (lower_name b) = true) items /\
  filter (fun t => lower_name t = "b") items
  = filter (fun t => lower_name t = "b") data.
Proof.
  pose proof (rendered_tags_sorted unit (fun _ => Returned tt) example_render
                [(PStr "b", [0]); (PStr "B", [1]); (PStr "a", [0])])
    as [_ H].
  destruct (H [(PStr "a", [0]); (PStr "b", [0]); (PStr "B", [1])] eq_refl)
    as (_ & _ & Hs & Hf).
  split_and!; [reflexivity|exact Hs|exact (Hf "b")].
Defined.

(** C6, counterexample: page 0 carries [year: 6000], page 1 has no
    [year]; the page without [year] is sorted first, not last. *)
Lemma year_above_sentinel_sorts_after :
  page_a !! "year" = Some (PInt 6000) /\
  page_b !! "year" = None /\
  sorted_meta [Some page_a; Some page_b] = Returned [1; 0].
Proof. split_and!; vm_compute; reflexivity. Qed.

Lemma year_sort_example :
  exists l,
    sorted_meta (metadata (self example_world)) = Returned l /\
    before l 5 2 /\ before l 2 0.
Proof.
  destruct (year_sort_order (metadata (self example_world)))
    as (l & Hl & _ & _ & _ & Hyear & _).
  { repeat constructor; eexists; vm_compute; reflexivity. }
  exists l. split; [done|].
  destruct (Hyear 2 page_b) as [_ Hb]; [reflexivity|by vm_compute|reflexivity|].
  split.
  - apply (Hb 5 1999%Z); [vm_compute; lia|vm_compute; reflexivity|lia].
  - apply (Hb 0 6000%Z); [vm_compute; lia|vm_compute; reflexivity|lia].
Defined.

Lemma add_without_create_example :
  exists w1,
    on_config (fun _ => false) example_skip example_config (start example_files)
    = (w1, Returned tt) /\
    stdout w1 = [WARNING] /\
    let w2 :=
      (on_files example_yaml example_tree example_join unit
         (fun _ => Returned tt) example_render example_config w1).1 in
    written w2 = [] /\ files w2 = example_files.
Proof.
  destruct (add_without_create_warns_and_skips example_yaml example_tree
              (fun _ => false) example_join unit (fun _ => Returned tt)
              example_render example_skip example_config (start example_files)
              eq_refl eq_refl) as [Hreturns Hwarns].
  destruct Hreturns as [w1 Hw1]; [left; discriminate|].
  exists w1. split; [exact Hw1|]. exact (Hwarns w1 Hw1).
Defined.

(** Two builds: the second finds the generated folder in place and one
    more file that is not markdown. *)
Lemma same_sources_example :
  let run1 :=
    build example_yaml example_tree (fun _ => false) example_join unit
      (fun _ => Returned tt) example_render default_config example_config
      example_files in
  let run2 :=
    build example_yaml example_tree' (fun _ => true) example_join unit
      (fun _ => Returned tt) example_render default_config example_config
      example_files in
  written run1.1 = written run2.1 /\
  run1.2 = run2.2 /\
  stdout run1.1 = stdout run2.1 /\
  files run1.1 = files run2.1 /\
  self run1.1 = self run2.1.
Proof.
  apply (same_sources_same_output example_yaml example_join unit
           (fun _ => Returned tt) example_render example_tree example_tree'
           (fun _ => false) (fun _ => true) default_config example_config
           example_files).
  intros f Hf E. apply list_elem_of_In in Hf. simpl in Hf.
  destruct Hf as [<-|[<-|[<-|[]]]]; try reflexivity.
  vm_compute in E. discriminate.
Defined.

(** * Further properties *)

(** ** The scan of [extract_yaml] *)

Lemma extract_yaml_loop_to_first_delimiter (pre rest : list string)
  (d : string) (result : list string) :
  Forall (fun line => is_delimiter line = false) pre ->
  is_delimiter d = true ->
  extract_yaml_loop (pre ++ d :: rest) 0 result
  = extract_yaml_loop rest 1 result.
Proof.
  intros Hpre Hd. induction Hpre as [|line pre Hline _ IH]; simpl.
  - unfold is_delimiter in Hd. by rewrite Hd.
  - unfold is_delimiter in Hline. by rewrite Hline.
Qed.

Lemma extract_yaml_loop_to_second_delimiter (body rest : list string)
  (d : string) (result : list string) :
  Forall (fun line => is_delimiter line = false) body ->
  is_delimiter d = true ->
  extract_yaml_loop (body ++ d :: rest) 1 result
  = extract_yaml_loop rest 2 (result ++ body).
Proof.
  intros Hbody Hd. revert result.
  induction Hbody as [|line body Hline _ IH]; intros result; simpl.
  - unfold is_delimiter in Hd. by rewrite Hd, app_nil_r.
  - unfold is_delimiter in Hline. rewrite Hline, IH. by rewrite <- app_assoc.
Qed.

(** Past the second delimiter nothing is captured any more. *)
Lemma extract_yaml_loop_captures_nothing (rest : list string) (c : nat)
  (result : list string) :
  2 <= c -> (extract_yaml_loop rest c result).1 = result.
Proof.
  revert c. induction rest as [|line rest IH]; intros c Hc; simpl; [done|].
  destruct (String.eqb (PyStr.strip line) "---"); [apply IH; lia|].
  destruct ((c =? 2) && PyStr.truthy (PyStr.strip line)); [done|].
  assert ((c =? 1) = false) as -> by (apply Nat.eqb_neq; lia).
  by apply IH.
Qed.

(** Past a third delimiter no heading is looked for any more. *)
Lemma extract_yaml_loop_no_heading (rest : list string) (c : nat)
  (result : list string) :
  3 <= c -> (extract_yaml_loop rest c result).2 = None.
Proof.
  revert c. induction rest as [|line rest IH]; intros c Hc; simpl; [done|].
  destruct (String.eqb (PyStr.strip line) "---"); [apply IH; lia|].
  assert ((c =? 2) = false) as -> by (apply Nat.eqb_neq; lia).
  assert ((c =? 1) = false) as -> by (apply Nat.eqb_neq; lia).
  simpl. by apply IH.
Qed.

Lemma is_blank_not_delimiter (line : string) :
  is_blank line = true -> is_delimiter line = false.
Proof.
  unfold is_blank, is_delimiter. by destruct (PyStr.strip line).
Qed.

Lemma extract_yaml_loop_skips_blanks (blanks rest : list string)
  (result : list string) :
  Forall (fun line => is_blank line = true) blanks ->
  extract_yaml_loop (blanks ++ rest) 2 result
  = extract_yaml_loop rest 2 result.
Proof.
  induction 1 as [|line blanks Hline _ IH]; simpl; [done|].
  pose proof (is_blank_not_delimiter _ Hline) as Hd.
  unfold is_delimiter in Hd. rewrite Hd.
  unfold is_blank in Hline. apply negb_true_iff in Hline. by rewrite Hline.
Qed.

(** X1. The text [extract_yaml] captures is exactly the lines between the
    first two delimiter lines, verbatim and in order: nothing before the
    first delimiter, neither delimiter, and nothing after the second one,
    whatever follows it. *)
Theorem captured_text_is_the_block
  (pre body rest : list string) (d1 d2 : string) :
  delimiter_count pre = 0 ->
  is_delimiter d1 = true ->
  delimiter_count body = 0 ->
  is_delimiter d2 = true ->
  (extract_yaml (pre ++ d1 :: body ++ d2 :: rest)).1 = String.concat "" body.
Proof.
  intros Hpre%delimiter_count_zero Hd1 Hbody%delimiter_count_zero Hd2.
  unfold extract_yaml.
  rewrite extract_yaml_loop_to_first_delimiter by done.
  rewrite extract_yaml_loop_to_second_delimiter by done.
  pose proof (extract_yaml_loop_captures_nothing rest 2 ([] ++ body)) as H.
  destruct (extract_yaml_loop rest 2 ([] ++ body)) as [result title].
  simpl in *. by rewrite H.
Qed.

(** X2. After the second delimiter blank lines are skipped and only the
    first line with text is looked at: it gives the candidate title when
    it starts with [# ] (its text with the leading [#] and spaces
    removed), and no candidate otherwise; a third delimiter line in that
    place, or the end of the file, gives no candidate either, even if a
    heading follows further down. *)
Theorem heading_after_front_matter
  (pre body blanks : list string) (d1 d2 : string) :
  delimiter_count pre = 0 ->
  is_delimiter d1 = true ->
  delimiter_count body = 0 ->
  is_delimiter d2 = true ->
  Forall (fun line => is_blank line = true) blanks ->
  (extract_yaml (pre ++ d1 :: body ++ d2 :: blanks)).2 = None /\
  (forall h tail,
     is_blank h = false ->
     (extract_yaml (pre ++ d1 :: body ++ d2 :: blanks ++ h :: tail)).2
     = if is_delimiter h then None else heading_of h).
Proof.
  intros Hpre%delimiter_count_zero Hd1 Hbody%delimiter_count_zero Hd2 Hblanks.
  assert (Hrun : forall rest,
            (extract_yaml (pre ++ d1 :: body ++ d2 :: blanks ++ rest)).2
            = (extract_yaml_loop rest 2 ([] ++ body)).2).
  { intros rest. unfold extract_yaml.
    rewrite extract_yaml_loop_to_first_delimiter by done.
    rewrite extract_yaml_loop_to_second_delimiter by done.
    rewrite extract_yaml_loop_skips_blanks by done.
    by destruct (extract_yaml_loop rest 2 ([] ++ body)). }
  split.
  - specialize (Hrun []). rewrite app_nil_r in Hrun. by rewrite Hrun.
  - intros h tail Hh. rewrite Hrun. simpl.
    unfold is_delimiter, heading_of.
    destruct (String.eqb (PyStr.strip h) "---") eqn:Hd.
    + by apply extract_yaml_loop_no_heading.
    + unfold is_blank in Hh. apply negb_false_iff in Hh. by rewrite Hh.
Qed.

(** ** The candidate title *)

Lemma drop_while_split (p : ascii -> bool) (s : string) :
  exists prefix,
    s = (prefix ++ PyStr.drop_while p s)%string /\
    (forall i c, get i prefix = Some c -> p c = true) /\
    (forall c, get 0 (PyStr.drop_while p s) = Some c -> p c = false).
Proof.
  induction s as [|c s (prefix & Hs & Hp & Hrest)]; simpl.
  - by exists "".
  - destruct (p c) eqn:Hc.
    + exists (String c prefix).
      split_and!; [change (String c s = String c (prefix ++ PyStr.drop_while p s)%string); by f_equal| |done].
      intros [|i] d; simpl; [by intros [= <-]|apply Hp].
    + exists "". split_and!; [done|done|]. simpl. by intros d [= <-].
Qed.

Lemma length_drop_while (p : ascii -> bool) (s : string) :
  String.length (PyStr.drop_while p s) <= String.length s.
Proof.
  induction s as [|c s IH]; simpl; [done|]. destruct (p c); simpl; lia.
Qed.

Lemma startswith_hash_space (s : string) :
  PyStr.startswith "# " s = true <->
  exists s', s = String "#" (String " " s').
Proof.
  unfold PyStr.startswith. split.
  - destruct s as [|a [|b s]]; cbn [String.prefix]; try done.
    + by destruct (Ascii.ascii_dec "#" a).
    + destruct (Ascii.ascii_dec "#" a) as [<-|]; [|done].
      destruct (Ascii.ascii_dec " " b) as [<-|]; [|done]. by eexists.
  - intros [s' ->]. cbn [String.prefix].
    destruct (Ascii.ascii_dec "#" "#"); [|done].
    destruct (Ascii.ascii_dec " " " "); [|done].
    by destruct s'.
Qed.

(** X3. The candidate title of a heading line is what is left of the
    stripped line once every leading [#] and space is gone, not just the
    first [# ]: the line is a run of [#] and spaces followed by the
    candidate, and the candidate starts with neither. *)
Theorem candidate_title_shape (line t : string) :
  heading_of line = Some t ->
  exists run,
    PyStr.strip line = (run ++ t)%string /\
    PyStr.startswith "# " run = true /\
    (forall i c, get i run = Some c -> c = "#"%char \/ c = " "%char) /\
    (forall c, get 0 t = Some c -> c <> "#"%char /\ c <> " "%char).
Proof.
  unfold heading_of.
  destruct (PyStr.startswith "# " (PyStr.strip line)) eqn:Hstart; [|done].
  intros [= <-]. unfold PyStr.lstrip_chars.
  destruct (drop_while_split (fun c => PyStr.mem_char c "# ")
              (PyStr.strip line)) as (run & Hsplit & Hrun & Hrest).
  exists run. split_and!; [done| | |].
  - apply startswith_hash_space in Hstart as [s' Hs'].
    rewrite Hs' in Hsplit. clear Hrest Hrun.
    apply startswith_hash_space.
    pose proof (length_drop_while (fun c => PyStr.mem_char c "# ") s') as Hlen.
    simpl in Hlen.
    destruct run as [|a [|b run]].
    + cbv [append] in Hsplit.
      apply (f_equal String.length) in Hsplit. simpl in Hsplit. lia.
    + cbv [append] in Hsplit.
      apply (f_equal String.length) in Hsplit. simpl in Hsplit. lia.
    + cbv [append] in Hsplit. injection Hsplit as <- <- _. by eexists.
  - intros i c Hc. specialize (Hrun i c Hc). simpl in Hrun.
    rewrite orb_false_r in Hrun. apply orb_true_iff in Hrun as [H|H].
    + left. by apply Ascii.eqb_eq in H.
    + right. by apply Ascii.eqb_eq in H.
  - intros c Hc. specialize (Hrest c Hc). simpl in Hrest.
    rewrite orb_false_r in Hrest. apply orb_false_iff in Hrest as [H1 H2].
    apply Ascii.eqb_neq in H1, H2. done.
Qed.

(** ** The page dictionary [get_metadata] returns *)

Section EntryFacts.

Variable yaml_load : string -> yaml_doc.
Variable read_file : string -> string -> option (list string).

(** X4. A page dictionary that [get_metadata] returns records the file
    name under [filename] (over whatever the front matter says there), has
    a [title], is not empty, and otherwise holds the front matter as
    loaded: every other key, and a [title] the front matter gives, keep
    their values; a [title] that is filled in is a string. *)
Theorem get_metadata_entry (name path : string) (meta : gmap string pyval) :
  get_metadata yaml_load read_file name path = Returned (Some meta) ->
  exists f m0,
    read_file path name = Some f /\
    yaml_load (extract_yaml f).1 = YamlMapping m0 /\
    meta !! "filename" = Some (PStr name) /\
    is_Some (meta !! "title") /\
    falsy (Some meta) = false /\
    (forall k, k <> "filename" ->
               k <> "title" \/ is_Some (m0 !! "title") ->
               meta !! k = m0 !! k) /\
    (m0 !! "title" = None -> exists s, meta !! "title" = Some (PStr s)).
Proof.
  unfold get_metadata. intros Hget.
  destruct (read_file path name) as [f|]; [|done].
  destruct (extract_yaml f) as [text title] eqn:Hext.
  destruct (PyStr.truthy text); [|done].
  destruct (yaml_load text) as [|m0|] eqn:Hload; [done| |done].
  exists f, m0. rewrite Hext. simpl. split_and!; [done|done|..].
  - destruct (<["filename":=PStr name]> m0 !! "title") eqn:Htitle.
    + injection Hget as <-. by rewrite lookup_insert_eq.
    + injection Hget as <-.
      rewrite lookup_insert_ne by done. by rewrite lookup_insert_eq.
  - destruct (<["filename":=PStr name]> m0 !! "title") eqn:Htitle.
    + injection Hget as <-. by rewrite Htitle.
    + injection Hget as <-. rewrite lookup_insert_eq. by eexists.
  - assert (meta <> ∅) as Hne.
    { intros ->.
      destruct (<["filename":=PStr name]> m0 !! "title");
        injection Hget as Hget;
        by destruct (insert_non_empty _ _ _ Hget). }
    simpl. by rewrite bool_decide_eq_false.
  - intros k Hk Hkt.
    destruct (<["filename":=PStr name]> m0 !! "title") eqn:Htitle.
    + injection Hget as <-. by rewrite lookup_insert_ne.
    + injection Hget as <-.
      rewrite lookup_insert_ne in Htitle by done.
      destruct Hkt as [Hkt|[v Hv]]; [|congruence].
      by rewrite !lookup_insert_ne.
  - intros Hnone.
    destruct (<["filename":=PStr name]> m0 !! "title") eqn:Htitle.
    + rewrite lookup_insert_ne in Htitle by done. congruence.
    + injection Hget as <-. rewrite lookup_insert_eq. by eexists.
Qed.

End EntryFacts.

(** ** The title built from the file name *)

Lemma length_map_chars (f : ascii -> ascii) (s : string) :
  String.length (PyStr.map_chars f s) = String.length s.
Proof. induction s as [|c s IH]; simpl; congruence. Qed.

Lemma map_chars_id (f : ascii -> ascii) (s : string) :
  (forall i c, get i s = Some c -> f c = c) -> PyStr.map_chars f s = s.
Proof.
  induction s as [|c s IH]; intros Hf; simpl; [done|].
  rewrite (Hf 0 c) by done. f_equal. apply IH. intros i d Hd.
  by apply (Hf (S i)).
Qed.

Lemma upper_char_cases (c : ascii) :
  PyStr.upper_char c = c \/ PyStr.lower_char (PyStr.upper_char c) <> PyStr.upper_char c.
Proof.
  destruct c as [[] [] [] [] [] [] [] []]; vm_compute; (by left) || (by right).
Qed.

Lemma upper_char_not_dash (c : ascii) :
  c <> "-"%char -> c <> "_"%char ->
  PyStr.upper_char c <> "-"%char /\ PyStr.upper_char c <> "_"%char.
Proof.
  destruct c as [[] [] [] [] [] [] [] []]; vm_compute; done.
Qed.

Lemma lower_char_not_dash (c : ascii) :
  c <> "-"%char -> c <> "_"%char ->
  PyStr.lower_char c <> "-"%char /\ PyStr.lower_char c <> "_"%char.
Proof.
  destruct c as [[] [] [] [] [] [] [] []]; vm_compute; done.
Qed.

Lemma dash_to_space_not_dash (c : ascii) :
  dash_to_space c <> "-"%char /\ dash_to_space c <> "_"%char.
Proof.
  destruct c as [[] [] [] [] [] [] [] []]; vm_compute; done.
Qed.

(** What [title_of_name] does to the derived string: nothing, or an upper
    case first character when the string has no upper case letter. *)
Lemma title_of_name_cases (name : string) :
  let derived :=
    PyStr.replace_char "_" " " (PyStr.replace_char "-" " " name) in
  title_of_name name = derived \/
  exists c s, derived = String c s /\ PyStr.lower s = s /\
              title_of_name name = String (PyStr.upper_char c) s.
Proof.
  intros derived. unfold title_of_name. fold derived.
  destruct (String.eqb (PyStr.lower derived) derived) eqn:Hlow; [|by left].
  apply String.eqb_eq in Hlow. destruct derived as [|c s]; [by left|].
  right. exists c, s. simpl in Hlow. injection Hlow as Hc Hs.
  split_and!; [done|done|]. simpl. unfold PyStr.lower. by rewrite Hs.
Qed.

Lemma derived_no_dash (name : string) (i : nat) (c : ascii) :
  get i (PyStr.replace_char "_" " " (PyStr.replace_char "-" " " name)) = Some c ->
  c <> "-"%char /\ c <> "_"%char.
Proof.
  rewrite get_derived_title. destruct (get i name) as [d|]; [|done].
  simpl. intros [= <-]. apply dash_to_space_not_dash.
Qed.

Lemma replace_char_absent (a b : ascii) (s : string) :
  (forall i c, get i s = Some c -> c <> a) -> PyStr.replace_char a b s = s.
Proof.
  intros Hs. apply map_chars_id. intros i c Hc.
  destruct (Ascii.eqb c a) eqn:Heq; [|done].
  apply Ascii.eqb_eq in Heq. by destruct (Hs i c Hc).
Qed.

(** X5. The title built from a file name has the length of the name, no
    [-] and no [_], and the characters of the name from the second one on
    (with [-] and [_] as spaces): only the first character can be changed
    by the capitalisation.  Building a title from a title changes
    nothing. *)
Theorem title_of_name_shape (name : string) :
  String.length (title_of_name name) = String.length name /\
  (forall i c, get i (title_of_name name) = Some c ->
               c <> "-"%char /\ c <> "_"%char) /\
  (forall i, get (S i) (title_of_name name) = dash_to_space <$> get (S i) name) /\
  title_of_name (title_of_name name) = title_of_name name.
Proof.
  pose proof (title_of_name_cases name) as Hcases.
  pose proof (derived_no_dash name) as Hclean.
  pose proof (get_derived_title name) as Hget.
  set (derived := PyStr.replace_char "_" " " (PyStr.replace_char "-" " " name))
    in *.
  assert (Hlen : String.length derived = String.length name).
  { unfold derived, PyStr.replace_char. by rewrite !length_map_chars. }
  assert (Hno : forall i c, get i (title_of_name name) = Some c ->
                            c <> "-"%char /\ c <> "_"%char).
  { destruct Hcases as [->|(c & s & Hd & Hs & ->)]; [done|].
    intros [|i] d; simpl.
    - intros [= <-]. apply upper_char_not_dash; apply (Hclean 0 c);
        by rewrite Hd.
    - intros Hi. apply (Hclean (S i)). by rewrite Hd. }
  split_and!; [| done | |].
  - destruct Hcases as [->|(c & s & Hd & Hs & ->)]; [done|].
    rewrite <- Hlen, Hd. done.
  - intros i. rewrite <- Hget.
    destruct Hcases as [->|(c & s & Hd & Hs & ->)]; [done|].
    by rewrite Hd.
  - set (t := title_of_name name) in *.
    assert (Hfix : PyStr.replace_char "_" " " (PyStr.replace_char "-" " " t) = t).
    { rewrite (replace_char_absent "-" " " t)
        by (intros i c Hc; by apply (Hno i c)).
      apply replace_char_absent. intros i c Hc. by apply (Hno i c). }
    unfold title_of_name at 1. rewrite Hfix.
    destruct (String.eqb (PyStr.lower t) t) eqn:Hlow; [|done].
    apply String.eqb_eq in Hlow.
    destruct Hcases as [Ht|(c & s & Hd & Hs & Ht)].
    + assert (Heq : t = PyStr.capitalize derived).
      { unfold t, title_of_name. fold derived. rewrite <- Ht.
        by rewrite (proj2 (String.eqb_eq _ _) Hlow). }
      rewrite Ht at 1. done.
    + rewrite Ht in Hlow |- *. simpl in Hlow |- *.
      injection Hlow as Hc _. rewrite Hs.
      destruct (upper_char_cases c) as [Hup|Hup]; [|done].
      f_equal. by rewrite Hup in *.
Qed.

(** ** [on_config] *)

Section ConfigFacts.

Variable folder_exists : string -> bool.

Lemma on_config_run (cfg : plugin_config) (config : mkdocs_config)
  (w w1 : world) :
  on_config folder_exists cfg config w = (w1, Returned tt) ->
  exists target,
    path_or (cfg_tags_target_folder cfg) (tags_target_folder (self w))
    = Returned target /\
    let p := configured cfg target (self w) in
    w1 = {| self := p;
            files := files w;
            stdout :=
              if tags_add_target p && negb (tags_create_target p)
              then stdout w ++ [WARNING] else stdout w;
            made_dirs :=
              if negb (folder_exists (tags_folder p)
                       || bool_decide (tags_folder p ∈ made_dirs w))
              then made_dirs w ++ [tags_folder p] else made_dirs w;
            written := written w |}.
Proof.
  unfold on_config, bind, gets, modify, lift, path_or, when, nprint, ret,
    configured, or_else.
  simpl.
  destruct (PyStr.truthy (cfg_tags_filename cfg));
    destruct (PyStr.truthy (cfg_tags_folder cfg)); simpl;
    (destruct (PyStr.truthy (cfg_tags_target_folder cfg));
     [|destruct (tags_target_folder (self w)); [|done]]); simpl;
    repeat (match goal with
            | |- context [match cfg_tags_template cfg with _ => _ end] =>
                destruct (cfg_tags_template cfg)
            | |- context [if ?b then _ else _] => destruct b
            end; simpl);
    intros [= <-]; eexists; (split; [reflexivity|]); reflexivity.
Qed.

(** X6. When [on_config] returns, every option of the configuration is
    assigned to the plugin, an empty [tags_filename], [tags_folder] or
    [tags_target_folder] and an absent or empty [tags_template] leaving
    the attribute as it was; the pages read and the tag index are not
    touched.  The tags folder is made when it neither exists nor was made
    before, the warning is printed when registration is on and generation
    off, and nothing else is printed, made, written or registered. *)
Theorem on_config_effect (cfg : plugin_config) (config : mkdocs_config)
  (w w1 : world) :
  on_config folder_exists cfg config w = (w1, Returned tt) ->
  let p := self w in
  let p1 := self w1 in
  verbose p1 = cfg_verbose cfg /\
  tags_filename p1 = or_else (cfg_tags_filename cfg) (tags_filename p) /\
  tags_folder p1 = or_else (cfg_tags_folder cfg) (tags_folder p) /\
  tags_target_folder p1
  = Some (or_else (cfg_tags_target_folder cfg)
            (default "" (tags_target_folder p))) /\
  tags_template p1
  = match cfg_tags_template cfg with
    | Some t => if PyStr.truthy t then Some t else tags_template p
    | None => tags_template p
    end /\
  tags_add_target p1 = cfg_tags_add_target cfg /\
  tags_create_target p1 = cfg_tags_create_target cfg /\
  metadata p1 = metadata p /\
  tags_dict p1 = tags_dict p /\
  made_dirs w1
  = made_dirs w ++
    (if folder_exists (tags_folder p1)
        || bool_decide (tags_folder p1 ∈ made_dirs w)
     then [] else [tags_folder p1]) /\
  stdout w1
  = stdout w ++
    (if cfg_tags_add_target cfg && negb (cfg_tags_create_target cfg)
     then [WARNING] else []) /\
  files w1 = files w /\
  written w1 = written w.
Proof.
  intros (target & Htarget & ->)%on_config_run. simpl.
  split_and!; try done.
  - f_equal. unfold path_or, or_else in *.
    destruct (PyStr.truthy (cfg_tags_target_folder cfg)); [congruence|].
    destruct (tags_target_folder (self w)); simpl; congruence.
  - destruct (folder_exists _ || bool_decide _); simpl;
      by rewrite ?app_nil_r.
  - destruct (cfg_tags_add_target cfg && negb (cfg_tags_create_target cfg));
      by rewrite ?app_nil_r.
Qed.

(** X7. With an empty [tags_target_folder] option and no target folder set
    before, [on_config] raises [TypeError] at [Path(None)]: the verbosity,
    the file name and the tags folder have been assigned by then, and
    nothing else has happened: no other attribute is assigned, no folder
    is made and no warning is printed. *)
Theorem on_config_empty_target (cfg : plugin_config) (config : mkdocs_config)
  (w : world) :
  cfg_tags_target_folder cfg = "" ->
  tags_target_folder (self w) = None ->
  on_config folder_exists cfg config w
  = (with_self
       (fun p =>
          set_tags_folder (or_else (cfg_tags_folder cfg) (tags_folder p))
            (set_tags_filename
               (or_else (cfg_tags_filename cfg) (tags_filename p))
               (set_verbose (cfg_verbose cfg) p))) w,
     Raised TypeError).
Proof.
  intros Hcfg Hold.
  unfold on_config, bind, gets, modify, lift, path_or, when, nprint, ret,
    or_else.
  simpl. rewrite Hcfg, Hold. simpl.
  destruct (PyStr.truthy (cfg_tags_filename cfg));
    destruct (PyStr.truthy (cfg_tags_folder cfg)); reflexivity.
Qed.

(** X8. [on_config] can be run again: after a run that returned, a second
    run with the same options returns too, and leaves the plugin, the
    folders made, the files written and the host's files as the first run
    left them.  It makes the tags folder at most once, and repeats only
    the warning. *)
Theorem on_config_again (cfg : plugin_config) (config : mkdocs_config)
  (w w1 : world) :
  on_config folder_exists cfg config w = (w1, Returned tt) ->
  exists w2,
    on_config folder_exists cfg config w1 = (w2, Returned tt) /\
    self w2 = self w1 /\
    made_dirs w2 = made_dirs w1 /\
    written w2 = written w1 /\
    files w2 = files w1 /\
    stdout w2
    = stdout w1 ++
      (if cfg_tags_add_target cfg && negb (cfg_tags_create_target cfg)
       then [WARNING] else []).
Proof.
  intros (target & Htarget & Hw1)%on_config_run.
  destruct (on_config_returns folder_exists cfg config w1) as [w2 Hrun].
  { right. rewrite Hw1. simpl. by eexists. }
  exists w2. split; [done|].
  apply on_config_run in Hrun as (target' & Htarget' & ->).
  assert (target' = target) as ->.
  { rewrite Hw1 in Htarget'. simpl in Htarget'.
    unfold path_or in *.
    destruct (PyStr.truthy (cfg_tags_target_folder cfg)); congruence. }
  assert (Hself : configured cfg target (self w1) = self w1).
  { rewrite Hw1. simpl. unfold configured, or_else. simpl.
    destruct (PyStr.truthy (cfg_tags_filename cfg));
      destruct (PyStr.truthy (cfg_tags_folder cfg));
      destruct (cfg_tags_template cfg) as [t|]; try destruct (PyStr.truthy t);
      reflexivity. }
  simpl. rewrite Hself. split_and!; try done.
  - rewrite Hw1. simpl.
    set (folder := or_else (cfg_tags_folder cfg) (tags_folder (self w))).
    assert (or_else (cfg_tags_folder cfg) folder = folder) as ->.
    { unfold folder, or_else. by destruct (PyStr.truthy (cfg_tags_folder cfg)). }
    destruct (folder_exists folder) eqn:Hex; simpl; [done|].
    destruct (bool_decide (folder ∈ made_dirs w)) eqn:Hin; simpl.
    + by rewrite Hin.
    + rewrite bool_decide_eq_true_2; [done|].
      apply elem_of_app. right. by apply list_elem_of_singleton.
  - destruct (cfg_tags_add_target cfg && negb (cfg_tags_create_target cfg));
      by rewrite ?app_nil_r.
Qed.

End ConfigFacts.

(** ** The shape of a tag index *)

Lemma bucket_append_classes (d : tag_index) (tag : pyval) (e : nat) :
  Py.hashable tag = true ->
  forall k, k ∈ map (fun t => class_of t.1) (bucket_append d tag e) <->
            k ∈ map (fun t => class_of t.1) d \/ k = class_of tag.
Proof.
  intros Htag k. induction d as [|[tag' es] d IH]; simpl.
  - rewrite list_elem_of_singleton, elem_of_nil. tauto.
  - destruct (Py.key_eq tag tag') eqn:Heq; simpl.
    + apply key_eq_class in Heq as (c & Hc & Hc').
      rewrite !elem_of_cons, Hc, Hc'. tauto.
    + rewrite !elem_of_cons, IH. tauto.
Qed.

Lemma bucket_append_well_formed (d : tag_index) (tag : pyval) (e : nat) :
  Py.hashable tag = true ->
  well_formed d -> well_formed (bucket_append d tag e).
Proof.
  intros Htag. induction d as [|[tag' es] d IH]; intros [Hnd Hall]; simpl.
  - split; [apply NoDup_singleton|]. repeat constructor; done.
  - change (NoDup (class_of tag' :: map (fun t => class_of t.1) d)) in Hnd.
    apply NoDup_cons in Hnd as [Hnotin Hnd].
    apply Forall_cons in Hall as [[Hhash Hne] Hall]. simpl in Hhash, Hne.
    destruct (Py.key_eq tag tag') eqn:Heq; simpl.
    + split; [simpl; apply NoDup_cons; by split|].
      apply Forall_cons. split; [|done]. split; [done|]. simpl.
      by destruct es.
    + destruct (IH (conj Hnd Hall)) as [Hnd' Hall'].
      split; [|by apply Forall_cons].
      apply NoDup_cons. split; [|done].
      rewrite bucket_append_classes by done. intros [?|Hk]; [done|].
      apply hashable_class in Htag as [c Hc].
      assert (Py.key_eq tag tag' = true); [|congruence].
      apply key_eq_class. exists c. simpl in Hk. split; congruence.
Qed.

Lemma well_formed_nil : well_formed [].
Proof. split; constructor. Qed.

Lemma index_append_well_formed (d d' : tag_index) (tag : pyval) (e : nat) :
  index_append d tag e = Returned d' -> well_formed d -> well_formed d'.
Proof.
  unfold index_append. destruct (Py.hashable tag) eqn:Htag; [|done].
  intros [= <-]. by apply bucket_append_well_formed.
Qed.

Lemma tags_dict_append_well_formed (e : nat) (tag : pyval) :
  keeps (fun w => well_formed (tags_dict (self w))) (tags_dict_append e tag).
Proof.
  intros w Hw. unfold tags_dict_append, bind, gets, lift, modify.
  destruct (index_append (tags_dict (self w)) tag e) as [d'|] eqn:Happ;
    simpl; [|done].
  by apply (index_append_well_formed _ _ _ _ Happ).
Qed.

Lemma update_tags_dict_page_well_formed (counts : nat * nat) (e : nat) :
  keeps (fun w => well_formed (tags_dict (self w)))
        (update_tags_dict_page counts e).
Proof.
  unfold update_tags_dict_page, deref. destruct counts as [n p].
  keeps_auto; try done. by apply tags_dict_append_well_formed.
Qed.

Lemma update_tags_dict_well_formed (config : mkdocs_config) (w : world) :
  well_formed (tags_dict (self (update_tags_dict config w).1)).
Proof.
  assert (Hrest : keeps (fun w => well_formed (tags_dict (self w)))
            (es <- refs ;;
             counts <- for_each es update_tags_dict_page (0, 0) ;;
             d <- gets (fun w => tags_dict (self w)) ;;
             nprint (MsgSummary (fst counts) (snd counts) (length d)) ;;
             v <- gets (fun w => verbose (self w)) ;;
             when (v && (0 <? length d)) (vprint (MsgTags d)))).
  { unfold refs, nprint, vprint.
    keeps_auto; try done. apply update_tags_dict_page_well_formed. }
  unfold update_tags_dict. rewrite bind_run. unfold modify at 1.
  cbv beta iota. apply Hrest. apply well_formed_nil.
Qed.

Lemma index_append_loop_well_formed (e : nat) (ts : list pyval)
  (d d' : tag_index) (w w' : world) :
  for_each ts (fun tag_dict tag => lift (index_append tag_dict tag e)) d w
  = (w', Returned d') ->
  well_formed d -> well_formed d'.
Proof.
  revert d w. induction ts as [|t ts IH]; intros d w; simpl.
  - by intros [= _ <-].
  - intros (d1 & w1 & Hstep & Hrest)%bind_returned Hd.
    unfold lift in Hstep. injection Hstep as _ Hstep.
    eapply IH; [done|]. by eapply index_append_well_formed.
Qed.

Lemma tag_dict_page_well_formed (d d' : tag_index) (e : nat) (w w' : world) :
  tag_dict_page d e w = (w', Returned d') ->
  well_formed d -> well_formed d'.
Proof.
  unfold tag_dict_page, deref. rewrite bind_gets.
  destruct (falsy _); [by intros [= _ <-]|].
  intros (? & w1 & _ & Hrest)%bind_returned. revert Hrest.
  rewrite bind_gets.
  destruct (Py.is_not_none _); [|by intros [= _ <-]].
  intros (ts & w2 & _ & Hloop)%bind_returned.
  by eapply index_append_loop_well_formed.
Qed.

Lemma tag_dict_loop_well_formed (es : list nat) (d d' : tag_index)
  (w w' : world) :
  for_each es tag_dict_page d w = (w', Returned d') ->
  well_formed d -> well_formed d'.
Proof.
  revert d w. induction es as [|e es IH]; intros d w; simpl.
  - by intros [= _ <-].
  - intros (d1 & w1 & Hstep & Hrest)%bind_returned Hd.
    eapply IH; [done|]. by eapply tag_dict_page_well_formed.
Qed.

Lemma well_formed_bucket (d : tag_index) (T : pyval) :
  well_formed d ->
  bucket d T <> [] <-> exists t, t ∈ d /\ Py.key_eq T t.1 = true.
Proof.
  intros [_ Hall]. induction Hall as [|[tag es] d [_ Hne] _ IH]; simpl.
  - split; [done|]. intros (t & Ht & _). by apply elem_of_nil in Ht.
  - simpl in Hne. destruct (Py.key_eq T tag) eqn:Heq.
    + split; [|done]. intros _. exists (tag, es). split; [left|done].
    + rewrite IH. split; intros (t & Ht & Hkey).
      * exists t. split; [by right|done].
      * apply elem_of_cons in Ht as [->|Ht]; [simpl in *; congruence|].
        by exists t.
Qed.

(** X9. Both tag indices are dictionaries: after [update_tags_dict],
    however it ends, and in the index [generate_tags_file] builds, every
    key is hashable, no two keys are equal as dictionary keys ([True] and
    [1] are one tag), and no bucket is empty; so a tag is a key exactly
    when some page is listed under it. *)
Theorem index_is_a_dict (config : mkdocs_config) (w : world) :
  let d := tags_dict (self (update_tags_dict config w).1) in
  (well_formed d /\
   forall T, bucket d T <> [] <-> exists t, t ∈ d /\ Py.key_eq T t.1 = true) /\
  (forall d', generated_index w d' ->
     well_formed d' /\
     forall T, bucket d' T <> [] <->
               exists t, t ∈ d' /\ Py.key_eq T t.1 = true).
Proof.
  pose proof (update_tags_dict_well_formed config w) as Hd.
  split; [split; [done|intros T; by apply well_formed_bucket]|].
  intros d' (l & w' & _ & Hloop).
  apply tag_dict_loop_well_formed in Hloop; [|apply well_formed_nil].
  split; [done|intros T; by apply well_formed_bucket].
Qed.

(** ** The two indices side by side *)

Lemma expected_bucket_perm ms T (l l' : list nat) :
  l ≡ₚ l' -> expected_bucket ms T l ≡ₚ expected_bucket ms T l'.
Proof.
  unfold expected_bucket. induction 1 as [|e l l' _ IH|e e' l|l l1 l2 _ IH1 _ IH2];
    simpl.
  - done.
  - by rewrite IH.
  - rewrite !app_assoc. f_equiv. apply Permutation_app_comm.
  - by rewrite IH1.
Qed.

Lemma expected_bucket_filter ms T (P : nat -> Prop) `{forall e, Decision (P e)}
  (es : list nat) :
  (forall e, e ∈ es -> ~ P e -> indexed_tags (mjoin (ms !! e)) = []) ->
  expected_bucket ms T (filter P es) = expected_bucket ms T es.
Proof.
  unfold expected_bucket. induction es as [|e es IH]; intros Hes; [done|].
  rewrite filter_cons. simpl.
  rewrite <- IH by (intros e' He'; apply Hes; by right).
  destruct (decide (P e)) as [|Hno]; [done|].
  rewrite (Hes e) by (done || by left). done.
Qed.

(** X10. The index [update_tags_dict] builds and the index
    [generate_tags_file] builds from the same pages list the same pages
    under every tag, each as often, in a possibly different order.  When
    the sort keys are integers and the pages listed under some tag all
    have one year, the order is the same too: the two indices have the
    same buckets. *)
Theorem indices_agree (config : mkdocs_config) (w w' : world) (d : tag_index) :
  update_tags_dict config w = (w', Returned tt) ->
  generated_index w d ->
  let ms := metadata (self w) in
  (forall T, bucket d T ≡ₚ bucket (tags_dict (self w')) T) /\
  (forall k,
     Forall (fun o => is_Some (year_of o)) ms ->
     (forall e, indexed_tags (mjoin (ms !! e)) <> [] ->
                year_of (mjoin (ms !! e)) = Some k) ->
     forall T, bucket d T = bucket (tags_dict (self w')) T).
Proof.
  intros (_ & Hupd)%update_tags_dict_spec Hgen ms.
  destruct (generated_index_spec _ _ Hgen) as (l & Hsort & Hperm & Hd).
  fold ms in Hupd, Hsort, Hperm, Hd. split.
  - intros T. rewrite Hupd, Hd. by apply expected_bucket_perm.
  - intros k Hints Hyear T. rewrite Hupd, Hd.
    destruct (sorted_meta_spec ms Hints) as (l' & Hsort' & _ & _ & Hstable).
    assert (l' = l) as -> by congruence.
    assert (Hskip : forall (es : list nat) e, e ∈ es ->
              ~ year_of (mjoin (ms !! e)) = Some k ->
              indexed_tags (mjoin (ms !! e)) = []).
    { intros _ e _ Hno.
      destruct (indexed_tags (mjoin (ms !! e))) eqn:Htags; [done|].
      destruct Hno. apply Hyear. by rewrite Htags. }
    rewrite <- (expected_bucket_filter ms T
                  (fun e => year_of (mjoin (ms !! e)) = Some k) l)
      by apply Hskip.
    rewrite <- (expected_bucket_filter ms T
                  (fun e => year_of (mjoin (ms !! e)) = Some k)
                  (seq 0 (length ms)))
      by apply Hskip.
    by rewrite Hstable.
Qed.

Lemma indexed_tags_iter (m : gmap string pyval) (v : pyval) (ts : list pyval) :
  m !! "tags" = Some v -> Py.iter v = Returned ts ->
  indexed_tags (Some m) = ts.
Proof.
  intros Hm Hv. unfold indexed_tags, get_tags. simpl.
  rewrite bool_decide_eq_false_2; [by rewrite Hm; simpl; rewrite Hv|].
  intros ->. by rewrite lookup_empty in Hm.
Qed.

(** X11. A [tags] value that is not a list is iterated all the same: a
    page is listed under each item that iterating its [tags] value
    yields, as often as the item occurs, in both indices.  For a plain
    string the items are its characters, for a mapping its keys. *)
Theorem scalar_tags_iterated
  (config : mkdocs_config) (w : world) (e : nat) (m : gmap string pyval)
  (v : pyval) (ts : list pyval) (T : pyval) :
  metadata (self w) !! e = Some (Some m) ->
  m !! "tags" = Some v ->
  Py.iter v = Returned ts ->
  (forall w', update_tags_dict config w = (w', Returned tt) ->
     count_occ Nat.eq_dec (bucket (tags_dict (self w')) T) e = count_key T ts) /\
  (forall d, generated_index w d ->
     count_occ Nat.eq_dec (bucket d T) e = count_key T ts) /\
  (forall s, v = PStr s -> ts = map PStr (PyStr.chars s)) /\
  (forall kvs, v = PDict kvs -> ts = map fst kvs).
Proof.
  intros He Hm Hv.
  pose proof (indexed_tags_iter _ _ _ Hm Hv) as Htags.
  split_and!.
  - intros w' (_ & Hb)%update_tags_dict_spec. rewrite Hb.
    rewrite count_occ_expected, He; simpl.
    + by rewrite Htags.
    + apply NoDup_seq.
    + by eapply lookup_page_ref.
  - intros d (l & _ & Hp & Hb)%generated_index_spec. rewrite Hb.
    rewrite count_occ_expected, He; simpl.
    + by rewrite Htags.
    + rewrite Hp. apply NoDup_seq.
    + rewrite Hp. by eapply lookup_page_ref.
  - intros s ->. simpl in Hv. congruence.
  - intros kvs ->. simpl in Hv. congruence.
Qed.

(** ** The outcome of [update_tags_dict] and its summary *)

Lemma refs_map {A} (ms : list (option A)) :
  map (fun e => mjoin (ms !! e)) (seq 0 (length ms)) = ms.
Proof.
  apply list_eq. intros i. rewrite list_lookup_fmap.
  destruct (decide (i < length ms)) as [Hi|Hi].
  - rewrite lookup_seq_lt by done. simpl.
    destruct (lookup_lt_is_Some_2 ms i Hi) as [o Ho]. by rewrite Ho.
  - rewrite lookup_seq_ge by lia. simpl.
    symmetry. apply lookup_ge_None. lia.
Qed.

Lemma forallb_refs {A} (f : option A -> bool) (ms : list (option A)) :
  forallb (fun e => f (mjoin (ms !! e))) (seq 0 (length ms)) = forallb f ms.
Proof.
  transitivity
    (forallb f (map (fun e => mjoin (ms !! e)) (seq 0 (length ms))));
    [|by rewrite refs_map].
  generalize (seq 0 (length ms)).
  intros l. induction l as [|e l IH]; simpl; congruence.
Qed.

Lemma filter_refs {A} (P : option A -> Prop) `{forall o, Decision (P o)}
  (ms : list (option A)) :
  length (filter (fun e => P (mjoin (ms !! e))) (seq 0 (length ms)))
  = length (filter P ms).
Proof.
  transitivity
    (length (filter P (map (fun e => mjoin (ms !! e)) (seq 0 (length ms)))));
    [|by rewrite refs_map].
  generalize (seq 0 (length ms)).
  intros l. induction l as [|e l IH]; simpl; [done|].
  rewrite !filter_cons. destruct (decide (P (mjoin (ms !! e)))); simpl; congruence.
Qed.

Lemma length_chars (s : string) : length (PyStr.chars s) = String.length s.
Proof. induction s; simpl; congruence. Qed.

Lemma len_iter (v : pyval) (ts : list pyval) :
  Py.iter v = Returned ts -> Py.len v = Returned (length ts).
Proof.
  destruct v; simpl; try done; intros [= <-];
    by rewrite ?length_map, ?length_chars.
Qed.

Lemma iter_len_raises (v : pyval) (ex : exn) :
  Py.iter v = Raised ex -> ex = TypeError /\ Py.len v = Raised TypeError.
Proof. destruct v; simpl; try done; by intros [= <-]. Qed.

Lemma forallb_Forall {A} (f : A -> bool) (l : list A) :
  forallb f l = true <-> Forall (fun x => f x = true) l.
Proof.
  induction l as [|x l IH]; simpl; [by split|].
  rewrite andb_true_iff, Forall_cons, IH. done.
Qed.

Lemma tags_dict_append_loop_run (e : nat) (ts : list pyval) (w : world) :
  forallb Py.hashable ts = true ->
  for_each ts (fun _ tag => tags_dict_append e tag) tt w
  = (with_self
       (set_tags_dict
          (fold_left (fun d t => bucket_append d t e) ts (tags_dict (self w))))
       w, Returned tt).
Proof.
  intros Hts.
  destruct (tags_dict_append_loop_returns e ts w) as [w' Hrun].
  { by apply forallb_Forall. }
  rewrite Hrun. by apply tags_dict_append_loop in Hrun as ->.
Qed.

Lemma tags_dict_append_loop_raises (e : nat) (ts : list pyval) (w : world) :
  forallb Py.hashable ts = false ->
  (for_each ts (fun _ tag => tags_dict_append e tag) tt w).2
  = Raised TypeError.
Proof.
  revert w. induction ts as [|t ts IH]; intros w; simpl; [done|].
  rewrite bind_run, tags_dict_append_run.
  destruct (Py.hashable t); simpl; [apply IH|done].
Qed.

(** One entry of the loop of [update_tags_dict]. *)
Lemma update_tags_dict_page_run (n p : nat) (e : nat) (w : world) :
  let o := mjoin (metadata (self w) !! e) in
  if indexable o then
    update_tags_dict_page (n, p) e w
    = (with_self
         (set_tags_dict
            (fold_left (fun d t => bucket_append d t e) (indexed_tags o)
               (tags_dict (self w))))
         w,
       Returned (if falsy o then n else S n,
                 if 0 <? length (indexed_tags o) then S p else p))
  else (update_tags_dict_page (n, p) e w).2 = Raised TypeError.
Proof.
  intros o. unfold update_tags_dict_page, deref. rewrite bind_gets. fold o.
  unfold indexable, indexed_tags, tags_field, get_tags.
  destruct (falsy o) eqn:Hfalsy.
  - assert (o ≫= (fun m => m !! "tags") = None) as ->.
    { destruct o as [m|]; [|done]. simpl in *.
      apply bool_decide_eq_true in Hfalsy as ->. apply lookup_empty. }
    simpl. by rewrite with_self_set_tags_dict_id.
  - destruct o as [m|]; [|done]. simpl.
    destruct (m !! "tags") as [v|]; simpl;
      [|by rewrite with_self_set_tags_dict_id].
    destruct (Py.iter v) as [ts|ex] eqn:Hiter.
    + assert (Py.is_not_none v = true) as Hnn by by destruct v.
      assert ((match v with
               | PNone => true
               | _ => forallb Py.hashable ts
               end) = forallb Py.hashable ts) as -> by by destruct v.
      rewrite Hnn. destruct ts as [|t ts].
      { rewrite bind_run. unfold lift at 1. rewrite (len_iter _ _ Hiter).
        simpl. by rewrite with_self_set_tags_dict_id. }
      destruct (forallb Py.hashable (t :: ts)) eqn:Hts.
      * rewrite bind_run. unfold lift at 1. rewrite (len_iter _ _ Hiter).
        cbn [length Nat.ltb Nat.leb]. rewrite bind_run. unfold lift at 1.
        rewrite bind_run. by rewrite tags_dict_append_loop_run.
      * rewrite bind_run. unfold lift at 1. rewrite (len_iter _ _ Hiter).
        cbn [length Nat.ltb Nat.leb]. rewrite bind_run. unfold lift at 1.
        rewrite bind_run.
        pose proof (tags_dict_append_loop_raises e (t :: ts) w Hts) as Hr.
        destruct (for_each (t :: ts) _ tt w) as [w' r']. simpl in Hr.
        by rewrite Hr.
    + apply iter_len_raises in Hiter as [-> Hlen].
      destruct v; try done; simpl.
      by rewrite with_self_set_tags_dict_id.
Qed.

Lemma update_tags_dict_loop_run (es : list nat) (n p : nat) (w : world) :
  let ms := metadata (self w) in
  if forallb (fun e => indexable (mjoin (ms !! e))) es then
    exists d,
      for_each es update_tags_dict_page (n, p) w
      = (with_self (set_tags_dict d) w,
         Returned
           (n + length (filter (fun e => is_page (mjoin (ms !! e))) es),
            p + length (filter (fun e => has_tags (mjoin (ms !! e))) es)))
  else (for_each es update_tags_dict_page (n, p) w).2 = Raised TypeError.
Proof.
  intros ms. revert n p w ms. induction es as [|e es IH]; intros n p w ms.
  - simpl. exists (tags_dict (self w)).
    by rewrite with_self_set_tags_dict_id, !Nat.add_0_r.
  - cbn [forallb for_each]. rewrite bind_run.
    pose proof (update_tags_dict_page_run n p e w) as Hpage.
    cbv zeta in Hpage. fold ms in Hpage.
    destruct (indexable (mjoin (ms !! e))) eqn:Hok; cbn [andb].
    + rewrite Hpage.
      set (w1 := with_self _ w).
      specialize (IH (if falsy (mjoin (ms !! e)) then n else S n)
                     (if 0 <? length (indexed_tags (mjoin (ms !! e)))
                      then S p else p) w1).
      cbv zeta in IH. change (metadata (self w1)) with ms in IH.
      destruct (forallb _ es); [|done].
      destruct IH as [d ->]. exists d. unfold w1.
      rewrite with_self_set_tags_dict_twice. do 2 f_equal.
      rewrite !filter_cons. unfold is_page, has_tags.
      f_equal.
      * destruct (decide (falsy (mjoin (ms !! e)) = false)) as [->|Hf]; simpl;
          [lia|].
        apply not_false_is_true in Hf. rewrite Hf. lia.
      * destruct (decide (0 < length (indexed_tags (mjoin (ms !! e)))))
          as [Hpos|Hpos]; simpl.
        -- apply Nat.ltb_lt in Hpos. rewrite Hpos. lia.
        -- apply Nat.ltb_nlt in Hpos. rewrite Hpos. lia.
    + destruct (update_tags_dict_page (n, p) e w) as [w1 r1].
      simpl in Hpage. by rewrite Hpage.
Qed.

(** [update_tags_dict] as a whole. *)
Lemma update_tags_dict_run (config : mkdocs_config) (w : world) :
  let ms := metadata (self w) in
  if forallb indexable ms then
    exists d,
      update_tags_dict config w
      = (with_stdout
           (fun out =>
              out ++
              MsgSummary (length (filter is_page ms))
                (length (filter has_tags ms)) (length d)
              :: (if verbose (self w) && (0 <? length d)
                  then [MsgTags d] else []))
           (with_self (set_tags_dict d) w),
         Returned tt)
  else (update_tags_dict config w).2 = Raised TypeError.
Proof.
  intros ms. set (w0 := with_self (set_tags_dict []) w).
  assert (Hstart :
            update_tags_dict config w
            = (counts <- for_each (seq 0 (length ms)) update_tags_dict_page
                           (0, 0) ;;
               d <- gets (fun w => tags_dict (self w)) ;;
               nprint (MsgSummary (fst counts) (snd counts) (length d)) ;;
               v <- gets (fun w => verbose (self w)) ;;
               when (v && (0 <? length d)) (vprint (MsgTags d))) w0).
  { unfold update_tags_dict, refs. rewrite bind_run. unfold modify at 1.
    by rewrite bind_gets. }
  rewrite Hstart, bind_run. clear Hstart.
  pose proof (update_tags_dict_loop_run
                (seq 0 (length (metadata (self w0)))) 0 0 w0) as Hloop.
  cbv zeta in Hloop. change (metadata (self w0)) with ms in Hloop.
  rewrite forallb_refs in Hloop.
  destruct (forallb indexable ms).
  - destruct Hloop as [d ->]. exists d.
    assert (length (filter (fun e => is_page (mjoin (ms !! e)))
                      (seq 0 (length ms)))
            = length (filter is_page ms)) as ->
      by exact (filter_refs is_page ms).
    assert (length (filter (fun e => has_tags (mjoin (ms !! e)))
                      (seq 0 (length ms)))
            = length (filter has_tags ms)) as ->
      by exact (filter_refs has_tags ms).
    simpl.
    unfold w0. rewrite with_self_set_tags_dict_twice.
    unfold nprint, vprint, when, bind, gets, modify, ret. simpl.
    destruct (verbose (self w)) eqn:Hv; simpl;
      [destruct (0 <? length d); simpl; rewrite ?Hv|];
      unfold with_stdout; simpl; by rewrite <- ?app_assoc.
  - destruct (for_each _ _ _ w0) as [w1 r1]. simpl in Hloop. by rewrite Hloop.
Qed.

(** X12. [update_tags_dict] returns exactly when every entry of the store
    can be indexed (a placeholder, or a page whose [tags] is absent,
    [None], or iterable with hashable items only), and raises [TypeError]
    otherwise: for a [tags] value that is a number or a boolean, and for a
    tag that is itself a list or a mapping. *)
Theorem update_tags_dict_outcome (config : mkdocs_config) (w : world) :
  (update_tags_dict config w).2
  = if forallb indexable (metadata (self w)) then Returned tt
    else Raised TypeError.
Proof.
  pose proof (update_tags_dict_run config w) as Hrun. cbv zeta in Hrun.
  destruct (forallb indexable (metadata (self w))); [|done].
  destruct Hrun as [d ->]. done.
Qed.

Lemma has_tags_tagged (ms : list (option (gmap string pyval))) (e : nat) :
  has_tags (mjoin (ms !! e)) <-> tagged ms e.
Proof.
  unfold has_tags, tagged, indexed_tags, get_tags. split.
  - destruct (ms !! e) as [[m|]|]; simpl; try lia.
    case_bool_decide; simpl; [lia|].
    destruct (m !! "tags") as [v|] eqn:Hv; simpl; [|lia].
    destruct (Py.iter v) as [ts|] eqn:Hts; simpl; [|lia].
    intros Hpos. exists m, v, ts. split_and!; try done.
    intros ->. simpl in Hpos. lia.
  - intros (m & v & ts & -> & Hv & Hts & Hne). simpl.
    rewrite bool_decide_eq_false_2
      by (intros ->; by rewrite lookup_empty in Hv).
    rewrite Hv. simpl. rewrite Hts. destruct ts; [done|simpl; lia].
Qed.

(** X13. The summary line [update_tags_dict] prints is right: it gives the
    number of pages in the store (the entries that are not placeholders),
    the number of pages listed under at least one tag, and the number of
    keys of the index.  It is the only line printed, unless the plugin is
    verbose and the index is not empty: then the index follows.  Nothing
    is written, made or registered. *)
Theorem summary_counts (config : mkdocs_config) (w w' : world) :
  update_tags_dict config w = (w', Returned tt) ->
  let ms := metadata (self w) in
  let d := tags_dict (self w') in
  stdout w'
  = stdout w ++
    MsgSummary (length (filter is_page ms)) (length (filter has_tags ms))
      (length d)
    :: (if verbose (self w) && (0 <? length d) then [MsgTags d] else []) /\
  (forall e, has_tags (mjoin (ms !! e)) <-> tagged ms e) /\
  files w' = files w /\ written w' = written w /\ made_dirs w' = made_dirs w.
Proof.
  intros Hrun ms d.
  pose proof (update_tags_dict_run config w) as Hclosed. cbv zeta in Hclosed.
  fold ms in Hclosed.
  destruct (forallb indexable ms).
  - destruct Hclosed as [d' Hclosed]. rewrite Hclosed in Hrun.
    injection Hrun as <-. simpl. split_and!; try done.
    intros e. apply has_tags_tagged.
  - rewrite Hrun in Hclosed. done.
Qed.

(** ** What [generate_tags_file] does to the store *)

Lemma alter_fixed {A} (f : A -> A) (l : list A) (i : nat) :
  (forall x, l !! i = Some x -> f x = x) -> alter f i l = l.
Proof.
  intros Hf. apply list_eq. intros j.
  destruct (decide (i = j)) as [->|Hij].
  - rewrite list_lookup_alter_eq. destruct (l !! j) as [x|] eqn:Hx; [|done].
    simpl. by rewrite Hf.
  - by rewrite list_lookup_alter_ne.
Qed.

Lemma alter_agree {A} (f g : A -> A) (l : list A) (i : nat) :
  (forall x, l !! i = Some x -> f x = g x) -> alter f i l = alter g i l.
Proof.
  intros Hf. apply list_eq. intros j.
  destruct (decide (i = j)) as [->|Hij].
  - rewrite !list_lookup_alter_eq. destruct (l !! j) as [x|] eqn:Hx; [|done].
    simpl. by rewrite Hf.
  - by rewrite !list_lookup_alter_ne.
Qed.

Lemma tags_field_entitled (o : option (gmap string pyval)) :
  tags_field (entitled o) = tags_field o.
Proof.
  unfold entitled. destruct (falsy o); [done|].
  destruct o as [m|]; [|done]. simpl.
  destruct (bool_decide (m !! "title" = None)); [|done].
  by rewrite lookup_insert_ne.
Qed.

Lemma falsy_entitled (o : option (gmap string pyval)) :
  falsy (entitled o) = falsy o.
Proof.
  unfold entitled. destruct (falsy o) eqn:Hf; [done|].
  destruct o as [m|]; [|done]. simpl in *.
  destruct (bool_decide (m !! "title" = None)); [|done].
  apply bool_decide_eq_false. apply insert_non_empty.
Qed.

Lemma entitled_twice (o : option (gmap string pyval)) :
  entitled (entitled o) = entitled o.
Proof.
  unfold entitled at 1. rewrite falsy_entitled.
  destruct (falsy o) eqn:Hf; [done|].
  unfold entitled. rewrite Hf. destruct o as [m|]; [|done]. simpl.
  destruct (bool_decide (m !! "title" = None)) eqn:Ht.
  - by rewrite bool_decide_eq_false_2 by by rewrite lookup_insert_eq.
  - by rewrite Ht.
Qed.

Lemma indexable_entitled (o : option (gmap string pyval)) :
  indexable (entitled o) = indexable o.
Proof. unfold indexable. by rewrite tags_field_entitled. Qed.

Lemma entitled_at_lookup (es : list nat) ms (i : nat) :
  entitled_at es ms !! i
  = if decide (i ∈ es) then entitled <$> ms !! i else ms !! i.
Proof.
  unfold entitled_at. revert ms.
  induction es as [|e es IH]; intros ms; cbn [fold_left].
  - rewrite decide_False; [done|]. apply not_elem_of_nil.
  - rewrite IH. destruct (decide (e = i)) as [->|Hei].
    + rewrite list_lookup_alter_eq, (decide_True (P := i ∈ i :: es)) by left.
      destruct (decide (i ∈ es)); [|done].
      destruct (ms !! i); [|done]. simpl. by rewrite entitled_twice.
    + rewrite list_lookup_alter_ne by done.
      destruct (decide (i ∈ es)) as [Hi|Hi].
      * by rewrite decide_True by by right.
      * rewrite decide_False; [done|]. intros [->|?]%elem_of_cons; done.
Qed.

Lemma entitled_at_refs (l : list nat) ms :
  l ≡ₚ seq 0 (length ms) -> entitled_at l ms = entitled <$> ms.
Proof.
  intros Hl. apply list_eq. intros i.
  rewrite entitled_at_lookup, list_lookup_fmap.
  destruct (decide (i ∈ l)) as [Hi|Hi]; [done|].
  destruct (ms !! i) as [o|] eqn:Ho; [|done].
  destruct Hi. rewrite Hl. by eapply lookup_page_ref.
Qed.

Lemma mjoin_entitled (x : option (option (gmap string pyval))) :
  mjoin (entitled <$> x) = entitled (mjoin x).
Proof. by destruct x. Qed.

Lemma index_append_loop_run (e : nat) (ts : list pyval) (d : tag_index)
  (w : world) :
  forallb Py.hashable ts = true ->
  for_each ts (fun tag_dict tag => lift (index_append tag_dict tag e)) d w
  = (w, Returned (fold_left (fun d t => bucket_append d t e) ts d)).
Proof.
  intros Hts.
  destruct (index_append_loop_returns e ts d w) as [d' Hrun].
  { by apply forallb_Forall. }
  rewrite Hrun. by apply index_append_loop in Hrun as [_ ->].
Qed.

Lemma index_append_loop_raises (e : nat) (ts : list pyval) (d : tag_index)
  (w : world) :
  forallb Py.hashable ts = false ->
  for_each ts (fun tag_dict tag => lift (index_append tag_dict tag e)) d w
  = (w, Raised TypeError).
Proof.
  revert d. induction ts as [|t ts IH]; intros d; simpl; [done|].
  rewrite bind_run. unfold lift at 1, index_append.
  destruct (Py.hashable t); simpl; [apply IH|done].
Qed.

(** One entry of the loop of [generate_tags_file]. *)
Lemma tag_dict_page_run (d : tag_index) (e : nat) (w : world) :
  let ms := metadata (self w) in
  let o := mjoin (ms !! e) in
  tag_dict_page d e w
  = (with_self (set_metadata (alter entitled e ms)) w,
     if indexable o
     then Returned (fold_left (fun d t => bucket_append d t e)
                      (indexed_tags o) d)
     else Raised TypeError).
Proof.
  intros ms o. unfold tag_dict_page, deref. rewrite bind_gets.
  fold ms. fold o.
  destruct (falsy o) eqn:Hfalsy.
  - assert (tags_field o = None) as Htags.
    { destruct o as [m|]; [|done]. simpl in *.
      apply bool_decide_eq_true in Hfalsy as ->. apply lookup_empty. }
    unfold indexable, indexed_tags. rewrite Htags, Hfalsy. simpl.
    rewrite alter_fixed; [unfold ms; by rewrite with_self_set_metadata_id|].
    intros x Hx. unfold o in Hfalsy. rewrite Hx in Hfalsy. simpl in Hfalsy.
    unfold entitled. by rewrite Hfalsy.
  - destruct (ms !! e) as [[m|]|] eqn:He; try done.
    simpl in o. subst o. simpl in Hfalsy.
    set (m1 := if bool_decide (m !! "title" = None)
               then <["title" := PStr "Untitled"]> m else m).
    assert (Hent : entitled (Some m) = Some m1).
    { unfold entitled. simpl. by rewrite Hfalsy. }
    assert (Hm1 : m1 !! "tags" = m !! "tags").
    { unfold m1. destruct (bool_decide (m !! "title" = None)); [|done].
      by rewrite lookup_insert_ne. }
    set (w1 := with_self (set_metadata (alter entitled e ms)) w).
    assert (Hw1 : when (bool_decide (default ∅ (Some m) !! "title" = None))
                    (set_untitled e) w = (w1, Returned tt)).
    { unfold when, w1. simpl. unfold m1 in Hent.
      destruct (bool_decide (m !! "title" = None)) eqn:Ht.
      - unfold set_untitled, modify, with_self, set_metadata. simpl.
        do 3 f_equal. fold ms.
        apply alter_agree. intros x Hx. rewrite He in Hx.
        injection Hx as <-. by rewrite Hent.
      - unfold ret. f_equal. fold ms.
        rewrite alter_fixed; [unfold ms; by rewrite with_self_set_metadata_id|].
        intros x Hx. rewrite He in Hx. injection Hx as <-. by rewrite Hent. }
    rewrite bind_run, Hw1, bind_gets.
    assert (mjoin (metadata (self w1) !! e) = Some m1) as ->.
    { unfold w1. simpl. fold ms.
      by rewrite list_lookup_alter_eq, He; simpl; rewrite Hent. }
    unfold indexable, indexed_tags, tags_field, get_tags. simpl.
    rewrite Hfalsy, Hm1.
    destruct (m !! "tags") as [v|]; simpl; [|done].
    destruct (Py.iter v) as [ts|ex] eqn:Hiter.
    + assert (Py.is_not_none v = true) as -> by by destruct v.
      assert ((match v with
               | PNone => true
               | _ => forallb Py.hashable ts
               end) = forallb Py.hashable ts) as -> by by destruct v.
      rewrite bind_run. unfold lift at 1.
      destruct (forallb Py.hashable ts) eqn:Hts.
      * by rewrite index_append_loop_run.
      * by rewrite index_append_loop_raises.
    + apply iter_len_raises in Hiter as [-> _].
      destruct v; try done.
Qed.

Lemma with_self_set_metadata_twice
  (ms ms' : list (option (gmap string pyval))) (w : world) :
  with_self (set_metadata ms') (with_self (set_metadata ms) w)
  = with_self (set_metadata ms') w.
Proof. done. Qed.

Lemma indexable_alter (ms : list (option (gmap string pyval))) (e i : nat) :
  indexable (mjoin (alter entitled e ms !! i)) = indexable (mjoin (ms !! i)).
Proof.
  destruct (decide (e = i)) as [->|Hei].
  - by rewrite list_lookup_alter_eq, mjoin_entitled, indexable_entitled.
  - by rewrite list_lookup_alter_ne.
Qed.

Lemma tag_dict_loop_run (es : list nat) (d : tag_index) (w : world) :
  let ms := metadata (self w) in
  if forallb (fun e => indexable (mjoin (ms !! e))) es then
    exists d',
      for_each es tag_dict_page d w
      = (with_self (set_metadata (entitled_at es ms)) w, Returned d')
  else (for_each es tag_dict_page d w).2 = Raised TypeError.
Proof.
  intros ms. revert d w ms. induction es as [|e es IH]; intros d w ms.
  - simpl. exists d. unfold ms. by rewrite with_self_set_metadata_id.
  - cbn [forallb for_each]. rewrite bind_run, tag_dict_page_run. fold ms.
    destruct (indexable (mjoin (ms !! e))) eqn:Hok; cbn [andb]; [|done].
    set (w1 := with_self (set_metadata (alter entitled e ms)) w).
    specialize (IH (fold_left (fun d t => bucket_append d t e)
                      (indexed_tags (mjoin (ms !! e))) d) w1).
    cbv zeta in IH. change (metadata (self w1)) with (alter entitled e ms) in IH.
    assert (forallb (fun e0 => indexable (mjoin (alter entitled e ms !! e0))) es
            = forallb (fun e0 => indexable (mjoin (ms !! e0))) es) as Hsame.
    { clear. induction es as [|i es IH]; simpl; [done|].
      by rewrite indexable_alter, IH. }
    rewrite Hsame in IH.
    destruct (forallb _ es); [|done].
    destruct IH as [d' ->]. exists d'. done.
Qed.

(** Where the loop of [generate_tags_file] leaves the world, however it
    ends: with the titles of the entries it went past filled in. *)
Lemma tag_dict_loop_world (es : list nat) (d : tag_index) (w : world) :
  exists es',
    (for_each es tag_dict_page d w).1
    = with_self (set_metadata (entitled_at es' (metadata (self w)))) w.
Proof.
  revert d w. induction es as [|e es IH]; intros d w.
  - exists []. simpl. by rewrite with_self_set_metadata_id.
  - cbn [for_each]. rewrite bind_run, tag_dict_page_run.
    set (ms := metadata (self w)).
    set (w1 := with_self (set_metadata (alter entitled e ms)) w).
    destruct (indexable (mjoin (ms !! e))); [|by exists [e]].
    destruct (IH (fold_left (fun d t => bucket_append d t e)
                    (indexed_tags (mjoin (ms !! e))) d) w1) as [es' ->].
    by exists (e :: es').
Qed.

Lemma forallb_perm {A} (f : A -> bool) (l l' : list A) :
  l ≡ₚ l' -> forallb f l = forallb f l'.
Proof.
  intros Hl. apply eq_true_iff_eq. rewrite !forallb_Forall. by rewrite Hl.
Qed.

(** X14. [generate_tags_file] gets as far as an index exactly when the
    sort by year returns and every entry of the store can be indexed. *)
Theorem generated_index_iff (w : world) :
  (exists d, generated_index w d) <->
  (exists l, sorted_meta (metadata (self w)) = Returned l) /\
  forallb indexable (metadata (self w)) = true.
Proof.
  set (ms := metadata (self w)).
  assert (Hall : forall l, sorted_meta ms = Returned l ->
            forallb (fun e => indexable (mjoin (ms !! e))) l
            = forallb indexable ms).
  { intros l Hl. rewrite <- forallb_refs. apply forallb_perm.
    by apply py_sorted_perm in Hl. }
  split.
  - intros (d & l & w' & Hl & Hloop). split; [by exists l|].
    rewrite <- (Hall l Hl).
    pose proof (tag_dict_loop_run l [] w) as Hrun. cbv zeta in Hrun.
    fold ms in Hrun. destruct (forallb _ l); [done|].
    rewrite Hloop in Hrun. done.
  - intros [[l Hl] Hok].
    pose proof (tag_dict_loop_run l [] w) as Hrun. cbv zeta in Hrun.
    fold ms in Hrun. rewrite (Hall l Hl), Hok in Hrun.
    destruct Hrun as [d Hrun]. exists d, l. eauto.
Qed.

Section FileFacts.

Variable path_join : string -> string -> string.
Variable template : Type.
Variable get_template : option string -> outcome template.
Variable render :
  template -> list (pyval * list (gmap string pyval)) -> outcome string.

Lemma generate_tags_file_returned (w w' : world) :
  generate_tags_file path_join template get_template render w
  = (w', Returned tt) ->
  exists t,
    w' = with_written
           (fun l =>
              l ++ [(path_join (tags_folder (self w)) (tags_filename (self w)),
                     t)])
           (with_self (set_metadata (entitled <$> metadata (self w))) w).
Proof.
  unfold generate_tags_file. rewrite bind_gets, bind_run. unfold lift at 1.
  destruct (sorted_meta (metadata (self w))) as [l|] eqn:Hl; [|done].
  rewrite bind_run.
  pose proof (tag_dict_loop_run l [] w) as Hrun. cbv zeta in Hrun.
  destruct (forallb _ l).
  - destruct Hrun as [d ->]. rewrite bind_run.
    rewrite entitled_at_refs by by apply py_sorted_perm in Hl.
    set (w1 := with_self _ w).
    pose proof (generate_tags_page_world template get_template render d w1)
      as Hw.
    destruct (generate_tags_page template get_template render d w1)
      as [w2 [t|]]; [|done].
    simpl in Hw. subst w2.
    unfold bind, gets, modify. intros [= <-]. by exists t.
  - destruct (for_each l tag_dict_page [] w) as [w1 r1]. simpl in Hrun.
    by rewrite Hrun.
Qed.

Lemma generate_tags_file_raised (w : world) (ex : exn) :
  (generate_tags_file path_join template get_template render w).2
  = Raised ex ->
  exists es,
    (generate_tags_file path_join template get_template render w).1
    = with_self (set_metadata (entitled_at es (metadata (self w)))) w.
Proof.
  destruct (generate_tags_file path_join template get_template render w)
    as [w' r] eqn:Hrun.
  simpl. intros ->. revert Hrun.
  unfold generate_tags_file. rewrite bind_gets, bind_run. unfold lift at 1.
  destruct (sorted_meta (metadata (self w))) as [l|] eqn:Hl.
  - rewrite bind_run.
    destruct (tag_dict_loop_world l [] w) as [es Hw1].
    destruct (for_each l tag_dict_page [] w) as [w1 [d|]]; simpl in Hw1;
      subst w1; [|intros [= <- _]; by exists es].
    rewrite bind_run.
    set (w1 := with_self _ w).
    pose proof (generate_tags_page_world template get_template render d w1)
      as Hw.
    destruct (generate_tags_page template get_template render d w1)
      as [w2 [t|]]; simpl in Hw; subst w2; [|intros [= <- _]; by exists es].
    unfold bind, gets, modify. done.
  - intros [= <- _]. exists []. simpl. by rewrite with_self_set_metadata_id.
Qed.

(** X15. When [generate_tags_file] returns, every page of the store that
    had no [title] has the title [Untitled], and no entry is changed
    otherwise: placeholders, empty dictionaries and pages with a [title]
    are as before, and so are all other keys.  One file has been written,
    at the tags file name under the tags folder, and nothing else of the
    plugin, of the host's files, of the output or of the folders has
    changed. *)
Theorem generate_tags_file_effect (w w' : world) :
  generate_tags_file path_join template get_template render w
  = (w', Returned tt) ->
  metadata (self w') = entitled <$> metadata (self w) /\
  (forall o, falsy o = true -> entitled o = o) /\
  (forall m, is_Some (m !! "title") -> entitled (Some m) = Some m) /\
  (forall m, m <> ∅ -> m !! "title" = None ->
             entitled (Some m) = Some (<["title" := PStr "Untitled"]> m)) /\
  (exists t,
     written w'
     = written w ++
       [(path_join (tags_folder (self w)) (tags_filename (self w)), t)]) /\
  set_metadata (metadata (self w)) (self w') = self w /\
  files w' = files w /\ stdout w' = stdout w /\ made_dirs w' = made_dirs w.
Proof.
  intros [t ->]%generate_tags_file_returned. simpl. split_and!; try done.
  - intros o Ho. unfold entitled. by rewrite Ho.
  - intros m [v Hv]. unfold entitled.
    destruct (falsy (Some m)); [done|]. simpl.
    rewrite bool_decide_eq_false_2; [done|]. by rewrite Hv.
  - intros m Hm Ht. unfold entitled. simpl.
    rewrite bool_decide_eq_false_2 by done. simpl.
    by rewrite bool_decide_eq_true_2.
  - by exists t.
  - by destruct (self w).
Qed.

(** X16. When [generate_tags_file] raises, nothing has been written,
    printed, made or registered, and the plugin is as before but for the
    titles: an entry of the store is as it was, or has had its title
    filled in. *)
Theorem generate_tags_file_raises (w : world) (ex : exn) :
  (generate_tags_file path_join template get_template render w).2
  = Raised ex ->
  let w' := (generate_tags_file path_join template get_template render w).1 in
  written w' = written w /\ files w' = files w /\ stdout w' = stdout w /\
  made_dirs w' = made_dirs w /\
  set_metadata (metadata (self w)) (self w') = self w /\
  length (metadata (self w')) = length (metadata (self w)) /\
  forall i,
    metadata (self w') !! i = metadata (self w) !! i \/
    metadata (self w') !! i = entitled <$> metadata (self w) !! i.
Proof.
  intros [es Hw']%generate_tags_file_raised. simpl. rewrite Hw'. simpl.
  split_and!; try done.
  - by destruct (self w).
  - apply Nat.le_antisymm.
    + apply Nat.nlt_ge. intros Hlt.
      destruct (lookup_lt_is_Some_2 _ _ Hlt) as [o Ho].
      rewrite entitled_at_lookup in Ho.
      rewrite lookup_ge_None_2 in Ho by done. by destruct (decide _).
    + apply Nat.nlt_ge. intros Hlt.
      destruct (lookup_lt_is_Some_2 _ _ Hlt) as [o Ho].
      pose proof (entitled_at_lookup es (metadata (self w))
                    (length (entitled_at es (metadata (self w))))) as Hl.
      rewrite Ho in Hl. rewrite lookup_ge_None_2 in Hl by done.
      by destruct (decide _).
  - intros i. rewrite entitled_at_lookup. destruct (decide (i ∈ es)); auto.
Qed.

End FileFacts.

(** ** Sorts that raise *)

Lemma lt_kind (a b : pyval) (r : bool) :
  Py.lt a b = Some r -> kind_of a = kind_of b.
Proof. destruct a, b; simpl; done. Qed.

Lemma insert_by_key_head {X} (x y : pyval * X) (acc r : list (pyval * X)) :
  insert_by_key x (y :: acc) = Returned r -> kind_of x.1 = kind_of y.1.
Proof.
  simpl. destruct (Py.lt x.1 y.1) as [b|] eqn:Hlt; [|done].
  intros _. by eapply lt_kind.
Qed.

Lemma insert_by_key_raises {X} (x : pyval * X) (acc : list (pyval * X))
  (ex : exn) :
  insert_by_key x acc = Raised ex -> ex = TypeError.
Proof.
  induction acc as [|y acc IH]; simpl; [done|].
  destruct (Py.lt x.1 y.1) as [[]|]; [done| |congruence].
  destruct (insert_by_key x acc); [done|]. intros [= <-]. by apply IH.
Qed.

Lemma insert_by_key_kinds {X} (x : pyval * X) (acc r : list (pyval * X))
  (k : sort_kind) :
  insert_by_key x acc = Returned r ->
  kind_of x.1 = k ->
  Forall (fun y => kind_of y.1 = k) acc ->
  Forall (fun y => kind_of y.1 = k) r /\ r <> [].
Proof.
  intros Hins Hx. revert r Hins.
  induction acc as [|y acc IH]; intros r; simpl.
  - intros [= <-] _. split; [by constructor|done].
  - destruct (Py.lt x.1 y.1) as [[]|]; [| |done].
    + intros [= <-] Hacc. split; [by constructor|done].
    + destruct (insert_by_key x acc) as [r'|]; [|done].
      intros [= <-] [Hy Hacc]%Forall_cons.
      split; [|done]. constructor; [done|]. by apply IH.
Qed.

Lemma sort_decorated_kinds {X} (xs acc r : list (pyval * X)) (k : sort_kind) :
  sort_decorated xs acc = Returned r ->
  acc <> [] ->
  Forall (fun y => kind_of y.1 = k) acc ->
  Forall (fun y => kind_of y.1 = k) xs.
Proof.
  revert acc. induction xs as [|x xs IH]; intros acc; simpl; [by constructor|].
  destruct (insert_by_key x acc) as [acc'|] eqn:Hins; [|done].
  intros Hsort Hne Hacc.
  assert (kind_of x.1 = k) as Hx.
  { destruct acc as [|y acc]; [done|].
    apply insert_by_key_head in Hins. apply Forall_cons in Hacc as [Hy _].
    congruence. }
  destruct (insert_by_key_kinds _ _ _ _ Hins Hx Hacc) as [Hacc' Hne'].
  constructor; [done|]. by eapply IH.
Qed.

Lemma sort_decorated_raises {X} (xs acc : list (pyval * X)) (ex : exn) :
  sort_decorated xs acc = Raised ex -> ex = TypeError.
Proof.
  revert acc. induction xs as [|x xs IH]; intros acc; simpl; [done|].
  destruct (insert_by_key x acc) eqn:Hins; [apply IH|].
  intros [= <-]. by eapply insert_by_key_raises.
Qed.

(** A sort that returns has compared keys of one kind only. *)
Lemma sort_decorated_one_kind {X} (xs r : list (pyval * X)) :
  sort_decorated xs [] = Returned r ->
  forall x y, x ∈ xs -> y ∈ xs -> kind_of x.1 = kind_of y.1.
Proof.
  destruct xs as [|x0 xs]; simpl.
  - intros _ x y Hx. by apply elem_of_nil in Hx.
  - intros Hsort.
    assert (Forall (fun y => kind_of y.1 = kind_of x0.1) (x0 :: xs)) as Hall.
    { constructor; [done|].
      eapply sort_decorated_kinds; [done|done|by constructor]. }
    rewrite Forall_forall in Hall. intros x y Hx Hy.
    by rewrite (Hall x Hx), (Hall y Hy).
Qed.

Lemma decorate_total {X} (f : X -> pyval) (xs : list X) :
  decorate (fun x => Returned (f x)) xs = Returned (map (fun x => (f x, x)) xs).
Proof. induction xs as [|x xs IH]; simpl; [done|]. by rewrite IH. Qed.

Lemma sorted_meta_one_kind ms (i j : nat) oi oj :
  ms !! i = Some oi -> ms !! j = Some oj ->
  kind_of (year_key oi) <> kind_of (year_key oj) ->
  sorted_meta ms = Raised TypeError.
Proof.
  intros Hi Hj Hkinds. unfold sorted_meta, py_sorted.
  rewrite decorate_total.
  set (dxs := map (fun e => (year_key (mjoin (ms !! e)), e))
                (seq 0 (length ms))).
  destruct (sort_decorated dxs []) as [r|ex] eqn:Hsort.
  - destruct Hkinds.
    assert (forall e o, ms !! e = Some o -> (year_key o, e) ∈ dxs) as Hin.
    { intros e o He. unfold dxs. apply list_elem_of_fmap.
      exists e. rewrite He. split; [done|]. by eapply lookup_page_ref. }
    apply (sort_decorated_one_kind _ _ Hsort (year_key oi, i) (year_key oj, j));
      by eapply Hin.
  - by apply sort_decorated_raises in Hsort as ->.
Qed.

Section SortErrors.

Variable path_join : string -> string -> string.
Variable template : Type.
Variable get_template : option string -> outcome template.
Variable render :
  template -> list (pyval * list (gmap string pyval)) -> outcome string.

(** X17. Years of different kinds cannot be sorted: when two entries of
    the store have sort keys of different kinds, as a page whose [year] is
    a string next to a page without [year] (key 5000) or next to a
    placeholder (key 0), the sort raises [TypeError], and
    [generate_tags_file] raises it without touching anything. *)
Theorem mixed_years_raise (w : world) (i j : nat)
  (oi oj : option (gmap string pyval)) :
  metadata (self w) !! i = Some oi ->
  metadata (self w) !! j = Some oj ->
  kind_of (year_key oi) <> kind_of (year_key oj) ->
  sorted_meta (metadata (self w)) = Raised TypeError /\
  generate_tags_file path_join template get_template render w
  = (w, Raised TypeError).
Proof.
  intros Hi Hj Hkinds.
  pose proof (sorted_meta_one_kind _ _ _ _ _ Hi Hj Hkinds) as Hsort.
  split; [done|].
  unfold generate_tags_file. rewrite bind_gets, bind_run. unfold lift at 1.
  by rewrite Hsort.
Qed.

Lemma decorate_lower_key_raises (data : tag_index) (t : pyval * list nat) :
  t ∈ data -> as_str t.1 = None ->
  decorate lower_key data = Raised AttributeError.
Proof.
  intros Ht Hstr. induction data as [|t' data IH]; [by apply elem_of_nil in Ht|].
  simpl. unfold lower_key at 1.
  destruct (t'.1) as [| | |s| |] eqn:Hk; try done.
  apply elem_of_cons in Ht as [->|Ht]; [by rewrite Hk in Hstr|].
  by rewrite IH.
Qed.

(** X18. A tag that is not a string cannot be rendered: when the template
    is found and some key of the index is not a string (a number, a
    boolean or [None], which [update_tags_dict] indexes like any other
    tag), [generate_tags_page] raises [AttributeError] at [lower], before
    the template is rendered. *)
Theorem non_string_tag_raises (data : tag_index) (t : pyval * list nat)
  (w : world) (templ : template) :
  t ∈ data ->
  as_str t.1 = None ->
  get_template (tags_template (self w)) = Returned templ ->
  generate_tags_page template get_template render data w
  = (w, Raised AttributeError).
Proof.
  intros Ht Hstr Htempl.
  unfold generate_tags_page. rewrite bind_gets, bind_run. unfold lift at 1.
  rewrite Htempl, bind_run. unfold lift at 1, py_sorted.
  by rewrite (decorate_lower_key_raises data t).
Qed.

End SortErrors.

(** ** [on_files] *)

Section OnFilesFacts.

Variable yaml_load : string -> yaml_doc.
Variable read_file : string -> string -> option (list string).
Variable path_join : string -> string -> string.
Variable template : Type.
Variable get_template : option string -> outcome template.
Variable render :
  template -> list (pyval * list (gmap string pyval)) -> outcome string.

(** The scanning loop of [on_files]. *)
Lemma scan_run (config : mkdocs_config) (fs : list File) (w w1 : world) :
  for_each fs
    (fun _ f =>
       if PyStr.endswith ".md" (src_path f) then
         vprint (MsgReading (src_path f)) ;;
         m <- lift (get_metadata yaml_load read_file
                      (src_path f) (docs_dir config)) ;;
         modify (with_self (fun p => set_metadata (metadata p ++ [m]) p))
       else ret tt)
    tt w
  = (w1, Returned tt) ->
  exists news,
    Forall2
      (fun f m =>
         get_metadata yaml_load read_file (src_path f) (docs_dir config)
         = Returned m)
      (filter is_markdown fs) news /\
    self w1 = set_metadata (metadata (self w) ++ news) (self w) /\
    stdout w1
    = stdout w ++
      (if verbose (self w)
       then map (fun f => MsgReading (src_path f)) (filter is_markdown fs)
       else []) /\
    files w1 = files w /\ written w1 = written w /\
    made_dirs w1 = made_dirs w.
Proof.
  revert w. induction fs as [|f fs IH]; intros w; cbn [for_each].
  - intros [= <-]. exists []. rewrite filter_nil. split_and!; try done.
    + rewrite app_nil_r. by destruct (self w).
    + destruct (verbose (self w)); by rewrite app_nil_r.
  - rewrite bind_run.
    destruct (PyStr.endswith ".md" (src_path f)) eqn:Hmd.
    + rewrite filter_cons_True by done.
      unfold vprint at 1. rewrite bind_run, bind_gets.
      set (w0 := (when (verbose (self w))
                    (modify (with_stdout
                               (fun out => out ++ [MsgReading (src_path f)])))
                    w).1).
      assert (when (verbose (self w))
                (modify (with_stdout
                           (fun out => out ++ [MsgReading (src_path f)])))
                w = (w0, Returned tt)) as ->.
      { unfold w0, when. by destruct (verbose (self w)). }
      assert (Hw0 : self w0 = self w /\ files w0 = files w /\
                    written w0 = written w /\ made_dirs w0 = made_dirs w /\
                    stdout w0
                    = stdout w ++
                      (if verbose (self w) then [MsgReading (src_path f)]
                       else [])).
      { unfold w0, when. destruct (verbose (self w)); simpl;
          by rewrite ?app_nil_r. }
      destruct Hw0 as (Hself & Hfiles & Hwritten & Hmade & Hout).
      rewrite bind_run. unfold lift at 1.
      destruct (get_metadata yaml_load read_file (src_path f)
                  (docs_dir config)) as [m|] eqn:Hget; [|done].
      unfold modify at 1.
      intros (news & Hnews & Hs & Ho & Hf & Hwr & Hmk)%IH.
      simpl in Hs, Ho, Hf, Hwr, Hmk. rewrite Hself in Hs.
      exists (m :: news). split_and!; try congruence.
      * by constructor.
      * rewrite Hs. unfold set_metadata. simpl. by rewrite <- app_assoc.
      * rewrite Ho, Hout, Hself.
        destruct (verbose (self w)); simpl; by rewrite <- ?app_assoc.
    + rewrite filter_cons_False by (unfold is_markdown; by rewrite Hmd).
      unfold ret at 1. apply IH.
Qed.

(** [on_files] as a whole, when it returns. *)
Lemma on_files_run (config : mkdocs_config) (w w' : world) :
  on_files yaml_load read_file path_join template get_template render config w
  = (w', Returned tt) ->
  exists news d t,
    Forall2
      (fun f m =>
         get_metadata yaml_load read_file (src_path f) (docs_dir config)
         = Returned m)
      (filter is_markdown (files w)) news /\
    let p := self w in
    let ms := metadata p ++ news in
    self w'
    = set_metadata (if tags_create_target p then entitled <$> ms else ms)
        (set_tags_dict d p) /\
    stdout w'
    = stdout w ++
      (if verbose p
       then map (fun f => MsgReading (src_path f))
              (filter is_markdown (files w))
       else []) ++
      MsgSummary (length (filter is_page ms)) (length (filter has_tags ms))
        (length d)
      :: (if verbose p && (0 <? length d) then [MsgTags d] else []) /\
    written w'
    = written w ++
      (if tags_create_target p
       then [(path_join (tags_folder p) (tags_filename p), t)] else []) /\
    files w'
    = files w ++
      (if tags_create_target p && tags_add_target p
       then [ {| src_path := tags_filename p;
                 src_dir := tags_folder p;
                 dest_dir :=
                   path_join (site_dir config)
                     (default "" (tags_target_folder p));
                 use_directory_urls := false |} ]
       else []) /\
    (tags_create_target p && tags_add_target p = true ->
     is_Some (tags_target_folder p)) /\
    made_dirs w' = made_dirs w.
Proof.
  unfold on_files. rewrite bind_gets.
  intros ([] & w1 & Hscan & Hrest)%bind_returned.
  apply scan_run in Hscan as (news & Hnews & Hs1 & Ho1 & Hf1 & Hwr1 & Hmk1).
  apply bind_returned in Hrest as ([] & w2 & Hupd & Hrest).
  pose proof (update_tags_dict_run config w1) as Hclosed.
  cbv zeta in Hclosed.
  destruct (forallb indexable (metadata (self w1)));
    [|by rewrite Hupd in Hclosed].
  destruct Hclosed as [d Hclosed]. rewrite Hclosed in Hupd.
  injection Hupd as <-. clear Hclosed.
  revert Hrest. rewrite bind_gets.
  set (w2 := with_stdout _ (with_self (set_tags_dict d) w1)).
  assert (Hs2 : self w2
                = set_metadata (metadata (self w) ++ news)
                    (set_tags_dict d (self w))).
  { unfold w2. simpl. by rewrite Hs1. }
  assert (Ho2 : stdout w2
                = stdout w ++
                  (if verbose (self w)
                   then map (fun f => MsgReading (src_path f))
                          (filter is_markdown (files w))
                   else []) ++
                  MsgSummary
                    (length (filter is_page (metadata (self w) ++ news)))
                    (length (filter has_tags (metadata (self w) ++ news)))
                    (length d)
                  :: (if verbose (self w) && (0 <? length d)
                      then [MsgTags d] else [])).
  { unfold w2. simpl. rewrite Ho1, Hs1. simpl. by rewrite <- app_assoc. }
  assert (Hf2 : files w2 = files w) by done.
  assert (Hwr2 : written w2 = written w) by done.
  assert (Hmk2 : made_dirs w2 = made_dirs w) by done.
  clearbody w2. clear dependent w1.
  rewrite Hs2. simpl.
  destruct (tags_create_target (self w)) eqn:Hcreate; simpl.
  - intros ([] & w3 & Hgen & Hrest)%bind_returned.
    apply generate_tags_file_returned in Hgen as [t ->].
    revert Hrest. rewrite bind_gets. simpl. rewrite Hs2. simpl.
    exists news, d, t. split; [done|]. simpl.
    destruct (tags_add_target (self w)) eqn:Hadd; simpl in Hrest |- *.
    + revert Hrest. rewrite !bind_gets, bind_run. unfold lift at 1. simpl.
      rewrite Hs2. simpl.
      destruct (tags_target_folder (self w)) as [target|]; [|done].
      unfold modify. intros [= <-]. simpl.
      rewrite Hs2, Ho2, Hf2, Hwr2, Hmk2. simpl.
      split_and!; done.
    + injection Hrest as <-. simpl.
      rewrite Hs2, Ho2, Hf2, Hwr2, Hmk2, app_nil_r. simpl.
      split_and!; done.
  - intros [= <-]. exists news, d, "". split; [done|]. simpl.
    rewrite Hs2, Ho2, Hf2, Hwr2, Hmk2, !app_nil_r. split_and!; done.
Qed.

Lemma get_metadata_titled (name path : string) (o : option (gmap string pyval)) :
  get_metadata yaml_load read_file name path = Returned o ->
  entitled o = o.
Proof.
  unfold get_metadata.
  destruct (read_file path name) as [f|]; [|done].
  destruct (extract_yaml f) as [text title].
  destruct (PyStr.truthy text); [|by intros [= <-]].
  destruct (yaml_load text) as [|m0|]; [done| |done].
  unfold entitled.
  destruct (<["filename":=PStr name]> m0 !! "title") eqn:Htitle;
    intros [= <-]; destruct (falsy _); try done; simpl.
  - by rewrite bool_decide_eq_false_2 by by rewrite Htitle.
  - by rewrite bool_decide_eq_false_2 by by rewrite lookup_insert_eq.
Qed.

Lemma indexed_tags_entitled (o : option (gmap string pyval)) :
  indexed_tags (entitled o) = indexed_tags o.
Proof.
  unfold indexed_tags. rewrite falsy_entitled.
  destruct (falsy o) eqn:Hf; [done|].
  pose proof (tags_field_entitled o) as Hfield.
  unfold entitled in *. rewrite Hf in *.
  destruct o as [m|]; [|done]. simpl in *. unfold get_tags.
  by rewrite Hfield.
Qed.

Lemma filter_is_page_entitled (ms : list (option (gmap string pyval))) :
  length (filter is_page (entitled <$> ms)) = length (filter is_page ms).
Proof.
  induction ms as [|o ms IH]; [done|].
  rewrite fmap_cons, !filter_cons.
  destruct (decide (is_page (entitled o))) as [H1|H1],
           (decide (is_page o)) as [H2|H2]; simpl; try by rewrite IH.
  - unfold is_page in *. by rewrite falsy_entitled in H1.
  - unfold is_page in *. by rewrite falsy_entitled in H1.
Qed.

Lemma filter_has_tags_entitled (ms : list (option (gmap string pyval))) :
  length (filter has_tags (entitled <$> ms)) = length (filter has_tags ms).
Proof.
  induction ms as [|o ms IH]; [done|].
  rewrite fmap_cons, !filter_cons.
  destruct (decide (has_tags (entitled o))) as [H1|H1],
           (decide (has_tags o)) as [H2|H2]; simpl; try by rewrite IH.
  - unfold has_tags in *. by rewrite indexed_tags_entitled in H1.
  - unfold has_tags in *. by rewrite indexed_tags_entitled in H1.
Qed.

(** X19. [on_files] appends to the store one entry for each markdown file
    of the host's collection, in the order of the collection: what
    [get_metadata] returns for it.  Files that are not markdown add
    nothing, and the entries already in the store stay, so that a second
    call appends the pages all over again.  (With generation on, the
    earlier entries without [title] are given the title [Untitled].) *)
Theorem on_files_store (config : mkdocs_config) (w w' : world) :
  on_files yaml_load read_file path_join template get_template render config w
  = (w', Returned tt) ->
  exists news,
    Forall2
      (fun f m =>
         get_metadata yaml_load read_file (src_path f) (docs_dir config)
         = Returned m)
      (filter is_markdown (files w)) news /\
    metadata (self w')
    = (if tags_create_target (self w)
       then entitled <$> metadata (self w) else metadata (self w)) ++ news.
Proof.
  intros (news & d & t & Hnews & Hself & _)%on_files_run.
  exists news. split; [done|]. rewrite Hself. simpl.
  destruct (tags_create_target (self w)); [|done].
  rewrite fmap_app. f_equal.
  clear Hself. induction Hnews as [|f m fs news Hm _ IH]; [done|].
  rewrite fmap_cons, IH. f_equal. by eapply get_metadata_titled.
Qed.

(** X20. When [on_files] returns with generation on, it has written one
    file, at the tags file name under the tags folder, and with
    registration on too it has added one file to the host's collection,
    at the end: the tags file, in the tags folder, bound for the target
    folder under the site directory, without directory URLs.  With
    generation off it has written and added nothing.  It makes no folder
    and changes no option of the plugin. *)
Theorem on_files_outputs (config : mkdocs_config) (w w' : world) :
  on_files yaml_load read_file path_join template get_template render config w
  = (w', Returned tt) ->
  let p := self w in
  (exists t,
     written w'
     = written w ++
       (if tags_create_target p
        then [(path_join (tags_folder p) (tags_filename p), t)] else [])) /\
  (exists target,
     (tags_create_target p && tags_add_target p = true ->
      tags_target_folder p = Some target) /\
     files w'
     = files w ++
       (if tags_create_target p && tags_add_target p
        then [ {| src_path := tags_filename p;
                  src_dir := tags_folder p;
                  dest_dir := path_join (site_dir config) target;
                  use_directory_urls := false |} ]
        else [])) /\
  made_dirs w' = made_dirs w /\
  set_tags_dict (tags_dict p) (set_metadata (metadata p) (self w')) = p.
Proof.
  intros (news & d & t & _ & Hself & _ & Hwr & Hfiles & Htarget & Hmk)%on_files_run.
  simpl. split_and!; try done.
  - by exists t.
  - exists (default "" (tags_target_folder (self w))). split; [|done].
    intros [target ->]%Htarget. done.
  - rewrite Hself. by destruct (self w).
Qed.

(** X21. What [on_files] prints when it returns: the summary line of
    [update_tags_dict], counted over the whole store, and nothing else
    when the plugin is not verbose; when it is, one line for each markdown
    file before the summary, in the order of the collection, and the index
    after it unless the index is empty. *)
Theorem on_files_prints (config : mkdocs_config) (w w' : world) :
  on_files yaml_load read_file path_join template get_template render config w
  = (w', Returned tt) ->
  let ms := metadata (self w') in
  let d := tags_dict (self w') in
  let summary :=
    MsgSummary (length (filter is_page ms)) (length (filter has_tags ms))
      (length d) in
  stdout w'
  = stdout w ++
    (if verbose (self w)
     then map (fun f => MsgReading (src_path f)) (filter is_markdown (files w))
          ++ summary :: (if 0 <? length d then [MsgTags d] else [])
     else [summary]).
Proof.
  intros (news & d & t & _ & Hself & Hout & _)%on_files_run.
  simpl. rewrite Hself, Hout. simpl.
  set (ms := metadata (self w) ++ news).
  assert (Hpages : length (filter is_page
                     (if tags_create_target (self w)
                      then entitled <$> ms else ms))
                   = length (filter is_page ms)).
  { destruct (tags_create_target (self w)); [|done].
    apply filter_is_page_entitled. }
  assert (Htags : length (filter has_tags
                     (if tags_create_target (self w)
                      then entitled <$> ms else ms))
                   = length (filter has_tags ms)).
  { destruct (tags_create_target (self w)); [|done].
    apply filter_has_tags_entitled. }
  rewrite Hpages, Htags.
  destruct (verbose (self w)); simpl; [|done].
  by destruct (0 <? length d).
Qed.

(** X22. When [on_files] raises, the host's collection is as it was, and
    with a target folder set nothing has been written either: the tags
    file is registered last, and is written only once everything before
    has returned. *)
Theorem on_files_raises (config : mkdocs_config) (w : world) (ex : exn) :
  (on_files yaml_load read_file path_join template get_template render
     config w).2 = Raised ex ->
  let w' :=
    (on_files yaml_load read_file path_join template get_template render
       config w).1 in
  files w' = files w /\
  (is_Some (tags_target_folder (self w)) -> written w' = written w).
Proof.
  set (P := fun w0 : world =>
              files w0 = files w /\ written w0 = written w /\
              tags_target_folder (self w0) = tags_target_folder (self w)).
  assert (HP : P w) by done.
  destruct (on_files yaml_load read_file path_join template get_template
              render config w) as [w' r] eqn:Hrun.
  simpl. intros ->. revert Hrun.
  unfold on_files. rewrite bind_gets, bind_run.
  match goal with
  | |- context [for_each ?fs ?body tt w] =>
      assert (Hscan : P (for_each fs body tt w).1);
      [|destruct (for_each fs body tt w) as [w1 [[]|]]; simpl in Hscan]
  end.
  { apply for_each_keeps; [|done]. intros [] f w0 Hw0.
    destruct (PyStr.endswith ".md" (src_path f)); [|done].
    revert w0 Hw0. unfold vprint.
    change (keeps P
              ((v <- gets (fun w => verbose (self w)) ;;
                when v (modify (with_stdout
                                  (fun out => out ++ [MsgReading (src_path f)])))) ;;
               m <- lift (get_metadata yaml_load read_file (src_path f)
                            (docs_dir config)) ;;
               modify (with_self
                         (fun p => set_metadata (metadata p ++ [m]) p)))).
    keeps_auto; unfold P in *; simpl in *; done. }
  2: { intros [= <- _]. destruct Hscan as (? & ? & ?). by split. }
  rewrite bind_run.
  assert (Hupd : P (update_tags_dict config w1).1).
  { apply update_tags_dict_keeps; [| |done]; by intros ? ? (? & ? & ?). }
  destruct (update_tags_dict config w1) as [w2 [[]|]]; simpl in Hupd;
    [|intros [= <- _]; destruct Hupd as (? & ? & ?); by split].
  destruct Hupd as (Hf2 & Hwr2 & Ht2).
  rewrite bind_gets. destruct (tags_create_target (self w2)); simpl; [|done].
  rewrite bind_run.
  destruct (generate_tags_file path_join template get_template render w2)
    as [w3 [[]|ex']] eqn:Hgen.
  - apply generate_tags_file_returned in Hgen as [t ->].
    rewrite bind_gets. simpl.
    destruct (tags_add_target (self w2)); simpl; [|done].
    rewrite !bind_gets, bind_run. unfold lift at 1. simpl.
    destruct (tags_target_folder (self w2)) as [target|] eqn:Htarget;
      [done|].
    intros [= <- _]. simpl. split; [done|].
    rewrite <- Ht2. by intros [? [=]].
  - pose proof (generate_tags_file_raised path_join template get_template
                  render w2 ex') as Hw3.
    rewrite Hgen in Hw3. simpl in Hw3. destruct (Hw3 eq_refl) as [es ->].
    intros [= <- _]. simpl. by split.
Qed.

End OnFilesFacts.

(** ** The pages the template is given *)

Lemma well_formed_lookup (d : tag_index) (t : pyval * list nat) :
  well_formed d -> t ∈ d -> bucket d t.1 = t.2.
Proof.
  intros [Hnd Hall]. induction d as [|[tag es] d IH]; intros Ht.
  - by apply elem_of_nil in Ht.
  - change (NoDup (class_of tag :: map (fun t => class_of t.1) d)) in Hnd.
    apply NoDup_cons in Hnd as [Hnotin Hnd].
    apply Forall_cons in Hall as [[Hhash _] Hall]. simpl in Hhash.
    apply elem_of_cons in Ht as [->|Ht]; simpl.
    + by rewrite key_eq_refl.
    + destruct (Py.key_eq t.1 tag) eqn:Heq; [|by apply IH].
      destruct Hnotin. apply key_eq_class in Heq as (k & Hk & ->).
      rewrite <- Hk. apply list_elem_of_fmap. by exists t.
Qed.

Section TemplateFacts.

Variable path_join : string -> string -> string.
Variable template : Type.
Variable get_template : option string -> outcome template.
Variable render :
  template -> list (pyval * list (gmap string pyval)) -> outcome string.

(** X23. The text [generate_tags_file] writes is the rendering of the
    sorted index over the store as the loop has left it, titles filled
    in: the page dictionaries are shared between the store and the
    buckets.  So every page the template is given has a [title]. *)
Theorem rendered_pages_have_titles (w w' : world) :
  generate_tags_file path_join template get_template render w
  = (w', Returned tt) ->
  exists d items templ t,
    generated_index w d /\
    get_template (tags_template (self w)) = Returned templ /\
    py_sorted lower_key d = Returned items /\
    let pages := with_pages (metadata (self w')) items in
    render templ pages = Returned t /\
    written w'
    = written w ++
      [(path_join (tags_folder (self w)) (tags_filename (self w)), t)] /\
    Forall (fun item => Forall (fun m => is_Some (m !! "title")) item.2)
           pages.
Proof.
  unfold generate_tags_file. rewrite bind_gets, bind_run. unfold lift at 1.
  destruct (sorted_meta (metadata (self w))) as [l|] eqn:Hl; [|done].
  rewrite bind_run.
  destruct (for_each l tag_dict_page [] w) as [w1 [d|]] eqn:Hloop; [|done].
  assert (Hgen : generated_index w d) by by exists l, w1.
  assert (Hwf : well_formed d).
  { eapply tag_dict_loop_well_formed; [done|apply well_formed_nil]. }
  assert (Hw1 : metadata (self w1) = entitled <$> metadata (self w)).
  { pose proof (tag_dict_loop_run l [] w) as Hclosed. cbv zeta in Hclosed.
    destruct (forallb _ l); [|by rewrite Hloop in Hclosed].
    destruct Hclosed as [d' Hclosed]. rewrite Hloop in Hclosed.
    injection Hclosed as -> _. simpl.
    apply entitled_at_refs. by apply py_sorted_perm in Hl. }
  rewrite bind_run. unfold generate_tags_page at 1.
  rewrite bind_gets, bind_run. unfold lift at 1.
  assert (tags_template (self w1) = tags_template (self w)) as ->.
  { apply tag_dict_loop_spec in Hloop as (ms' & -> & _). done. }
  destruct (get_template (tags_template (self w))) as [templ|]; [|done].
  rewrite bind_run. unfold lift at 1.
  destruct (py_sorted lower_key d) as [items|] eqn:Hitems; [|done].
  rewrite bind_gets. unfold lift at 1.
  destruct (render templ (with_pages (metadata (self w1)) items))
    as [t|] eqn:Hrender; [|done].
  unfold bind, gets, modify. intros [= <-]. simpl.
  exists d, items, templ, t. split_and!; try done.
  { apply tag_dict_loop_spec in Hloop as (ms' & -> & _). done. }
  rewrite Hw1.
  apply py_sorted_perm in Hitems.
  unfold with_pages. apply Forall_fmap, Forall_forall. intros [tag es] Hin.
  simpl. apply Forall_fmap, Forall_forall. intros e He. simpl.
  rewrite Hitems in Hin.
  pose proof (well_formed_lookup d (tag, es) Hwf Hin) as Hb. simpl in Hb.
  assert (Htagged : tagged (metadata (self w)) e).
  { eapply generated_bucket_tagged; [done|]. by rewrite Hb. }
  destruct Htagged as (m & v & ts & Hm & Hv & _).
  rewrite list_lookup_fmap, Hm. simpl. unfold entitled. simpl.
  rewrite bool_decide_eq_false_2
    by (intros ->; by rewrite lookup_empty in Hv).
  simpl. destruct (bool_decide (m !! "title" = None)) eqn:Ht.
  - rewrite lookup_insert_eq. by eexists.
  - apply bool_decide_eq_false in Ht. by apply not_eq_None_Some.
Qed.

End TemplateFacts.

(** ** One build *)

Section BuildStore.

Variable yaml_load : string -> yaml_doc.
Variable read_file : string -> string -> option (list string).
Variable folder_exists : string -> bool.
Variable path_join : string -> string -> string.
Variable template : Type.
Variable get_template : option string -> outcome template.
Variable render :
  template -> list (pyval * list (gmap string pyval)) -> outcome string.

(** X24. A build that returns leaves in the store exactly one entry for
    each markdown file of the host's collection, in order, and, with
    generation and registration on, the collection with one more file at
    its end: the tags file, named by the options, the defaults standing
    in for an empty file name or folder.  The target folder option is
    not empty then. *)
Theorem build_store (cfg : plugin_config) (config : mkdocs_config)
  (fs : list File) (w' : world) :
  build yaml_load read_file folder_exists path_join template get_template
    render cfg config fs = (w', Returned tt) ->
  Forall2
    (fun f m =>
       get_metadata yaml_load read_file (src_path f) (docs_dir config)
       = Returned m)
    (filter is_markdown fs) (metadata (self w')) /\
  cfg_tags_target_folder cfg <> "" /\
  files w'
  = fs ++
    (if cfg_tags_create_target cfg && cfg_tags_add_target cfg
     then [ {| src_path := or_else (cfg_tags_filename cfg) "tags.md";
               src_dir := or_else (cfg_tags_folder cfg) "generated";
               dest_dir :=
                 path_join (site_dir config) (cfg_tags_target_folder cfg);
               use_directory_urls := false |} ]
     else []).
Proof.
  unfold build. intros ([] & w1 & Hconfig & Hfiles)%bind_returned.
  apply on_config_run in Hconfig as (target & Htarget & Hw1).
  cbv zeta in Hw1.
  assert (Hcfg : cfg_tags_target_folder cfg <> "" /\
                 target = cfg_tags_target_folder cfg).
  { unfold path_or in Htarget. simpl in Htarget.
    destruct (cfg_tags_target_folder cfg); simpl in Htarget; [done|].
    split; [done|congruence]. }
  destruct Hcfg as [Hne ->].
  apply on_files_run in Hfiles
    as (news & d & t & Hnews & Hself & _ & _ & Hfs & _).
  rewrite Hw1 in Hnews, Hself, Hfs. simpl in Hnews, Hself, Hfs.
  split_and!; [|done|done].
  rewrite Hself. simpl.
  assert (entitled <$> news = news) as Hfixed.
  { clear Hself. induction Hnews as [|f m fs' news Hm _ IH]; [done|].
    rewrite fmap_cons, IH. f_equal. by eapply get_metadata_titled. }
  destruct (cfg_tags_create_target cfg); by rewrite ?Hfixed.
Qed.

End BuildStore.

(** * The further properties on the examples *)

Lemma captured_text_example :
  (extract_yaml example_page).1 = ("tags: [a, B]" ++ LF)%string.
Proof.
  apply (captured_text_is_the_block
           ["intro" ++ LF]%string ["tags: [a, B]" ++ LF]%string
           [LF; "# My Page" ++ LF; "text"]%string
           ("---" ++ LF)%string (" --- " ++ LF)%string);
    reflexivity.
Defined.

(** The heading after the blank line is the candidate; with a third
    delimiter in its place there is none. *)
Lemma heading_example :
  (extract_yaml example_page).2 = Some "My Page" /\
  (extract_yaml ["---" ++ LF; "tags: [a]" ++ LF; "---" ++ LF; LF;
                 "---" ++ LF; "# My Page" ++ LF]%string).2 = None.
Proof.
  split.
  - destruct (heading_after_front_matter
                ["intro" ++ LF]%string ["tags: [a, B]" ++ LF]%string [LF]
                ("---" ++ LF)%string (" --- " ++ LF)%string)
      as [_ H]; [reflexivity|reflexivity|reflexivity|reflexivity| |].
    + by repeat constructor.
    + exact (H ("# My Page" ++ LF)%string ["text"] eq_refl).
  - destruct (heading_after_front_matter
                [] ["tags: [a]" ++ LF]%string [LF]
                ("---" ++ LF)%string ("---" ++ LF)%string)
      as [_ H]; [reflexivity|reflexivity|reflexivity|reflexivity| |].
    + by repeat constructor.
    + exact (H ("---" ++ LF)%string ["# My Page" ++ LF]%string eq_refl).
Defined.

Lemma get_metadata_entry_example :
  exists meta,
    get_metadata example_yaml example_tree "foo-bar.md" "docs"
    = Returned (Some meta) /\
    meta !! "filename" = Some (PStr "foo-bar.md") /\
    is_Some (meta !! "title") /\
    meta !! "tags" = Some (PList [PStr "x"]).
Proof.
  eexists. split; [reflexivity|].
  destruct (get_metadata_entry example_yaml example_tree "foo-bar.md" "docs"
              _ eq_refl)
    as (f & m0 & Hf & Hm0 & Hname & Htitle & _ & Hkeys & _).
  split_and!; [exact Hname|exact Htitle|reflexivity].
Defined.

(** The file name and the template stay, the folder is made, and no
    warning is printed. *)
Lemma on_config_effect_example :
  let w1 :=
    (on_config (fun _ => false) example_partial example_config (start [])).1 in
  on_config (fun _ => false) example_partial example_config (start [])
  = (w1, Returned tt) /\
  tags_filename (self w1) = "tags.md" /\
  tags_folder (self w1) = "out" /\
  tags_target_folder (self w1) = Some "topics" /\
  tags_template (self w1) = None /\
  made_dirs w1 = ["out"] /\
  stdout w1 = [].
Proof.
  split; [reflexivity|].
  destruct (on_config_effect (fun _ => false) example_partial example_config
              (start []) _ eq_refl)
    as (_ & Hname & Hfolder & Htarget & Htempl & _ & _ & _ & _ & Hmade
        & Hout & _).
  split_and!; [exact Hname|exact Hfolder|exact Htarget|exact Htempl
              |exact Hmade|exact Hout].
Defined.

(** A fresh plugin with an empty target folder option: the file name is
    assigned, the folder stays, and [on_config] raises. *)
Lemma on_config_empty_target_example :
  let r :=
    on_config (fun _ => false) example_no_target example_config (start []) in
  r.2 = Raised TypeError /\
  tags_filename (self r.1) = "index.md" /\
  tags_folder (self r.1) = "generated" /\
  made_dirs r.1 = [] /\ stdout r.1 = [].
Proof.
  rewrite (on_config_empty_target (fun _ => false) example_no_target
             example_config (start []) eq_refl eq_refl).
  split_and!; reflexivity.
Defined.

Lemma on_config_again_example :
  exists w1 w2,
    on_config (fun _ => false) example_skip example_config (start [])
    = (w1, Returned tt) /\
    on_config (fun _ => false) example_skip example_config w1
    = (w2, Returned tt) /\
    self w2 = self w1 /\ made_dirs w2 = ["generated"] /\
    stdout w2 = [WARNING; WARNING].
Proof.
  eexists.
  destruct (on_config_again (fun _ => false) example_skip example_config
              (start []) _ eq_refl)
    as (w2 & Hrun & Hself & Hmade & _ & _ & Hout).
  exists w2. split_and!; [reflexivity|exact Hrun|exact Hself|exact Hmade
                         |exact Hout].
Defined.

(** On the example store the index of the generated page lists page 2
    before page 0 under [B], and [self.tags_dict] the other way round. *)
Lemma indices_agree_example :
  let w' := (update_tags_dict example_config example_world).1 in
  let d := [(PStr "B", [2; 0]); (PStr "a", [0; 0])] in
  generated_index example_world d /\
  bucket (tags_dict (self w')) (PStr "B") = [0; 2] /\
  bucket d (PStr "B") ≡ₚ bucket (tags_dict (self w')) (PStr "B").
Proof.
  assert (Hgen : generated_index example_world
                   [(PStr "B", [2; 0]); (PStr "a", [0; 0])]).
  { eexists _, _. split; vm_compute; reflexivity. }
  split_and!; [exact Hgen|vm_compute; reflexivity|].
  destruct (indices_agree example_config example_world _ _ eq_refl Hgen)
    as [Hperm _].
  exact (Hperm (PStr "B")).
Defined.

(** A page with [tags: aba] is listed twice under [a]. *)
Lemma scalar_tags_example :
  let w := world_of [Some page_s] in
  let w' := (update_tags_dict example_config w).1 in
  update_tags_dict example_config w = (w', Returned tt) /\
  count_occ Nat.eq_dec (bucket (tags_dict (self w')) (PStr "a")) 0 = 2.
Proof.
  split; [vm_compute; reflexivity|].
  destruct (scalar_tags_iterated example_config (world_of [Some page_s]) 0
              page_s (PStr "aba") [PStr "a"; PStr "b"; PStr "a"] (PStr "a")
              eq_refl eq_refl eq_refl) as [Hupd _].
  apply Hupd. vm_compute. reflexivity.
Defined.

Lemma summary_counts_example :
  let w' := (update_tags_dict example_config example_world).1 in
  update_tags_dict example_config example_world = (w', Returned tt) /\
  stdout w' = [MsgSummary 5 2 2].
Proof.
  assert (Hrun : update_tags_dict example_config example_world
                 = ((update_tags_dict example_config example_world).1,
                    Returned tt)) by (vm_compute; reflexivity).
  split; [exact Hrun|].
  destruct (summary_counts example_config example_world _ Hrun) as [Hout _].
  exact Hout.
Defined.

(** The page without [title] is rendered, and left in the store, with
    the title [Untitled]. *)
Lemma generate_tags_file_effect_example :
  let w := world_of [Some page_u; None] in
  let w' :=
    (generate_tags_file example_join unit (fun _ => Returned tt)
       example_render w).1 in
  generate_tags_file example_join unit (fun _ => Returned tt) example_render w
  = (w', Returned tt) /\
  metadata (self w')
  = [Some (<["title" := PStr "Untitled"]> page_u); None] /\
  written w' = [("generated/tags.md", "x:Untitled")].
Proof.
  assert (Hrun : generate_tags_file example_join unit (fun _ => Returned tt)
                   example_render (world_of [Some page_u; None])
                 = ((generate_tags_file example_join unit
                       (fun _ => Returned tt) example_render
                       (world_of [Some page_u; None])).1, Returned tt))
    by (vm_compute; reflexivity).
  destruct (generate_tags_file_effect example_join unit (fun _ => Returned tt)
              example_render (world_of [Some page_u; None]) _ Hrun)
    as (Hms & _).
  split_and!; [exact Hrun|exact Hms|vm_compute; reflexivity].
Defined.

(** Without a template nothing is written, but the title is filled in. *)
Lemma generate_tags_file_raises_example :
  let w := world_of [Some page_u; None] in
  let r :=
    generate_tags_file example_join unit (fun _ => Raised TemplateError)
      example_render w in
  r.2 = Raised TemplateError /\
  written r.1 = [] /\ files r.1 = [] /\ stdout r.1 = [] /\
  metadata (self r.1) = [Some (<["title" := PStr "Untitled"]> page_u); None].
Proof.
  destruct (generate_tags_file_raises example_join unit
              (fun _ => Raised TemplateError) example_render
              (world_of [Some page_u; None]) TemplateError)
    as (Hwr & Hf & Hout & _); [vm_compute; reflexivity|].
  split_and!; [vm_compute; reflexivity|exact Hwr|exact Hf|exact Hout
              |vm_compute; reflexivity].
Defined.

(** A page with [year: "2019"] next to a page without [year]. *)
Lemma mixed_years_example :
  let w := world_of [Some page_y; Some page_b] in
  sorted_meta (metadata (self w)) = Raised TypeError /\
  generate_tags_file example_join unit (fun _ => Returned tt) example_render w
  = (w, Raised TypeError).
Proof.
  apply (mixed_years_raise example_join unit (fun _ => Returned tt)
           example_render (world_of [Some page_y; Some page_b]) 0 1
           (Some page_y) (Some page_b));
    [reflexivity|reflexivity|by vm_compute].
Defined.

(** An index with the tag [2019], a number. *)
Lemma non_string_tag_example :
  generate_tags_page unit (fun _ => Returned tt) example_render
    [(PStr "a", [0]); (PInt 2019, [0])] example_world
  = (example_world, Raised AttributeError).
Proof.
  apply (non_string_tag_raises unit (fun _ => Returned tt) example_render
           [(PStr "a", [0]); (PInt 2019, [0])] (PInt 2019, [0])
           example_world tt);
    [by right; left|reflexivity|reflexivity].
Defined.

(** The example build: two markdown files, one of them without front
    matter, and one file that is not markdown. *)
Lemma on_files_store_example :
  let w' :=
    (on_files example_yaml example_tree example_join unit
       (fun _ => Returned tt) example_render example_config
       example_configured).1 in
  on_files example_yaml example_tree example_join unit
    (fun _ => Returned tt) example_render example_config example_configured
  = (w', Returned tt) /\
  Forall2
    (fun f m =>
       get_metadata example_yaml example_tree (src_path f) "docs" = Returned m)
    [ {| src_path := "foo-bar.md"; src_dir := "docs"; dest_dir := "site";
         use_directory_urls := true |};
      {| src_path := "plain.md"; src_dir := "docs"; dest_dir := "site";
         use_directory_urls := true |} ]
    (metadata (self w')).
Proof.
  assert (Hrun : on_files example_yaml example_tree example_join unit
                   (fun _ => Returned tt) example_render example_config
                   example_configured
                 = ((on_files example_yaml example_tree example_join unit
                       (fun _ => Returned tt) example_render example_config
                       example_configured).1, Returned tt))
    by (vm_compute; reflexivity).
  split; [exact Hrun|].
  destruct (on_files_store example_yaml example_tree example_join unit
              (fun _ => Returned tt) example_render example_config
              example_configured _ Hrun) as (news & Hnews & Hms).
  rewrite Hms. exact Hnews.
Defined.

Lemma on_files_outputs_example :
  let w' :=
    (on_files example_yaml example_tree example_join unit
       (fun _ => Returned tt) example_render example_config
       example_configured).1 in
  on_files example_yaml example_tree example_join unit
    (fun _ => Returned tt) example_render example_config example_configured
  = (w', Returned tt) /\
  (exists t, written w' = [("generated/tags.md", t)]) /\
  files w'
  = example_files ++
    [ {| src_path := "tags.md"; src_dir := "generated";
         dest_dir := "site/."; use_directory_urls := false |} ].
Proof.
  assert (Hrun : on_files example_yaml example_tree example_join unit
                   (fun _ => Returned tt) example_render example_config
                   example_configured
                 = ((on_files example_yaml example_tree example_join unit
                       (fun _ => Returned tt) example_render example_config
                       example_configured).1, Returned tt))
    by (vm_compute; reflexivity).
  split; [exact Hrun|].
  destruct (on_files_outputs example_yaml example_tree example_join unit
              (fun _ => Returned tt) example_render example_config
              example_configured _ Hrun)
    as (Hwr & (target & Htarget & Hfiles) & _).
  split; [exact Hwr|].
  specialize (Htarget eq_refl). injection Htarget as <-. exact Hfiles.
Defined.

Lemma on_files_prints_example :
  let w' :=
    (on_files example_yaml example_tree example_join unit
       (fun _ => Returned tt) example_render example_config
       example_configured).1 in
  on_files example_yaml example_tree example_join unit
    (fun _ => Returned tt) example_render example_config example_configured
  = (w', Returned tt) /\
  stdout w' = [MsgSummary 1 1 1].
Proof.
  assert (Hrun : on_files example_yaml example_tree example_join unit
                   (fun _ => Returned tt) example_render example_config
                   example_configured
                 = ((on_files example_yaml example_tree example_join unit
                       (fun _ => Returned tt) example_render example_config
                       example_configured).1, Returned tt))
    by (vm_compute; reflexivity).
  split; [exact Hrun|].
  exact (on_files_prints example_yaml example_tree example_join unit
           (fun _ => Returned tt) example_render example_config
           example_configured _ Hrun).
Defined.

(** A markdown file that cannot be opened. *)
Lemma on_files_raises_example :
  let w :=
    (on_config (fun _ => false) default_config example_config
       (start example_missing)).1 in
  let r :=
    on_files example_yaml example_tree example_join unit
      (fun _ => Returned tt) example_render example_config w in
  r.2 = Raised OSError /\ files r.1 = example_missing /\ written r.1 = [].
Proof.
  destruct (on_files_raises example_yaml example_tree example_join unit
              (fun _ => Returned tt) example_render example_config
              (on_config (fun _ => false) default_config example_config
                 (start example_missing)).1 OSError)
    as [Hf Hwr]; [vm_compute; reflexivity|].
  split_and!; [vm_compute; reflexivity|exact Hf|].
  apply Hwr. by eexists.
Defined.

Lemma rendered_pages_example :
  let w := world_of [Some page_u; None] in
  exists w' t items,
    generate_tags_file example_join unit (fun _ => Returned tt)
      example_render w = (w', Returned tt) /\
    written w' = [("generated/tags.md", t)] /\
    Forall (fun item => Forall (fun m => is_Some (m !! "title")) item.2)
      (with_pages (metadata (self w')) items).
Proof.
  assert (Hrun : generate_tags_file example_join unit (fun _ => Returned tt)
                   example_render (world_of [Some page_u; None])
                 = ((generate_tags_file example_join unit
                       (fun _ => Returned tt) example_render
                       (world_of [Some page_u; None])).1, Returned tt))
    by (vm_compute; reflexivity).
  destruct (rendered_pages_have_titles example_join unit
              (fun _ => Returned tt) example_render
              (world_of [Some page_u; None]) _ Hrun)
    as (d & items & templ & t & Hgen & _ & Hitems & _ & Hwr & Hall).
  eexists _, t, items. split_and!; [exact Hrun|exact Hwr|exact Hall].
Defined.

(** Every leading [#] and space goes, not only the first [# ]. *)
Lemma candidate_title_example :
  heading_of ("# # Notes" ++ LF)%string = Some "Notes" /\
  exists run,
    PyStr.strip ("# # Notes" ++ LF)%string = (run ++ "Notes")%string /\
    PyStr.startswith "# " run = true.
Proof.
  split; [reflexivity|].
  destruct (candidate_title_shape ("# # Notes" ++ LF)%string "Notes" eq_refl)
    as (run & Hrun & Hstart & _).
  by exists run.
Defined.

Lemma build_store_example :
  let run :=
    build example_yaml example_tree (fun _ => false) example_join unit
      (fun _ => Returned tt) example_render default_config example_config
      example_files in
  run = (run.1, Returned tt) /\
  length (metadata (self run.1)) = 2 /\
  files run.1
  = example_files ++
    [ {| src_path := "tags.md"; src_dir := "generated";
         dest_dir := "site/."; use_directory_urls := false |} ].
Proof.
  assert (Hrun : build example_yaml example_tree (fun _ => false) example_join
                   unit (fun _ => Returned tt) example_render default_config
                   example_config example_files
                 = ((build example_yaml example_tree (fun _ => false)
                       example_join unit (fun _ => Returned tt)
                       example_render default_config example_config
                       example_files).1, Returned tt))
    by (vm_compute; reflexivity).
  destruct (build_store example_yaml example_tree (fun _ => false)
              example_join unit (fun _ => Returned tt) example_render
              default_config example_config example_files _ Hrun)
    as (Hstore & _ & Hfiles).
  split_and!; [exact Hrun| |exact Hfiles].
  apply Forall2_length in Hstore. rewrite <- Hstore. reflexivity.
Defined.
